(** * CapMetro transit client: the [arrivals] command and the listings

    A shallow embedding of [cmd_arrivals], [cmd_routes] and [cmd_route_info]
    from [scripts/capmetro.py] and of the helpers they call, with the
    properties of the arrival reconciliation (staleness filter, rounding,
    ranking, scheduled fallback) and of the listings of routes and stops.

    Conventions of the embedding.
    - Python [int] is [Z]; [str] is [string] (a byte string: comparing UTF-8
      bytes orders strings as Python orders code points).
    - A [dict] with string keys is a [gmap string _]; [d.get(k, v)] is
      [default v (d !! k)] and [d[k]] raises [KeyError] on a missing key.
    - An aware [datetime] is its instant in microseconds since the epoch
      together with its UTC offset; differences of datetimes ignore offsets.
    - A [float] is the rational it denotes, and a division of floats or of
      integers is the exact quotient rounded to the nearest binary64 number
      ([Binary64.div]); the exponent range of binary64 is not modelled, no
      value the command computes coming near its ends.
    - A timestamp of the feed is one that [datetime] represents (years 1 to
      9999): [fromtimestamp] raises on others, which the embedding leaves
      out.
    - The system clock, the file cache and the network are inputs ([env]);
      standard output and the requests made are recorded in a trace. *)

From Stdlib Require Import ZArith QArith Qround Qabs Qpower Lia Lqa Ascii.
From Stdlib Require Import Sorting.Sorted Sorting.Permutation.
From stdpp Require Import base gmap strings list pretty.

Local Open Scope Z_scope.

(** ** Python builtins used by the command *)

Module Py.

(** [round(x)] on a float: nearest integer, ties to the even one. *)
Definition round (x : Q) : Z :=
  let f := Qfloor x in
  match Qcompare (x - inject_Z f) (1 # 2) with
  | Lt => f
  | Gt => f + 1
  | Eq => if Z.even f then f else f + 1
  end.

(** [x < y] on floats. *)
Definition lt (x y : Q) : bool :=
  match Qcompare x y with Lt => true | _ => false end.

(** [str(n)], also the [{n}] of an f-string. *)
Definition str (n : Z) : string := pretty n.

(** [s > t] on strings. *)
Definition gt (s t : string) : bool := String.ltb t s.

(** Truthiness of a string. *)
Definition truthy (s : string) : bool :=
  match s with EmptyString => false | _ => true end.

(** [l.sort(key=k)]: the sort is stable, so an element moves left only past
    elements whose key is strictly greater. *)
Section Sort.
Context {A : Type} (le : A -> A -> bool).

Fixpoint insert (x : A) (l : list A) : list A :=
  match l with
  | [] => [x]
  | y :: l' => if le x y then x :: y :: l' else y :: insert x l'
  end.

Fixpoint sort (l : list A) : list A :=
  match l with
  | [] => []
  | x :: l' => insert x (sort l')
  end.
End Sort.

Definition sort_int {A} (key : A -> Z) : list A -> list A :=
  sort (fun a b => key a <=? key b).

Definition sort_str {A} (key : A -> string) : list A -> list A :=
  sort (fun a b => String.leb (key a) (key b)).

(** [s.split(sep)] for a one-character separator. *)
Fixpoint split_go (sep : Ascii.ascii) (cur : string) (s : string) : list string :=
  match s with
  | EmptyString => [String.rev cur]
  | String c s' =>
      if Ascii.eqb c sep then String.rev cur :: split_go sep EmptyString s'
      else split_go sep (String c cur) s'
  end.

Definition split (sep : Ascii.ascii) (s : string) : list string :=
  split_go sep EmptyString s.

(** [int(s)] on a decimal literal: surrounding white space, a sign, ASCII
    digits, single underscores between digits.  [None] is [ValueError].
    What it accepts [int] accepts, with that value; on an ASCII string what
    it refuses [int] refuses.  (Python also reads the decimal digits and the
    white space of other scripts, which are left out here.) *)
Definition is_space (c : Ascii.ascii) : bool :=
  let n := N_of_ascii c in
  ((9 <=? n) && (n <=? 13) || (28 <=? n) && (n <=? 32))%N.

Definition digit (c : Ascii.ascii) : option Z :=
  let n := N_of_ascii c in
  if ((48 <=? n) && (n <=? 57))%N then Some (Z.of_N n - 48) else None.

Fixpoint lstrip (s : string) : string :=
  match s with
  | String c s' => if is_space c then lstrip s' else s
  | EmptyString => EmptyString
  end.

Definition strip (s : string) : string :=
  String.rev (lstrip (String.rev (lstrip s))).

Fixpoint digits (acc : Z) (after_digit : bool) (s : string) : option Z :=
  match s with
  | EmptyString => if after_digit then Some acc else None
  | String c s' =>
      match digit c with
      | Some d => digits (10 * acc + d) true s'
      | None =>
          if Ascii.eqb c "_" && after_digit then digits acc false s' else None
      end
  end.

Definition int (s : string) : option Z :=
  match strip s with
  | String "-" s' => Z.opp <$> digits 0 false s'
  | String "+" s' => digits 0 false s'
  | s' => digits 0 false s'
  end.

End Py.

(** ** Floating-point division *)

Module Binary64.

(** The exponent of a nonzero [x]: the greatest [e] with [2 ^ e <= |x|]. *)
Definition exponent (x : Q) : Z :=
  let k := Z.log2 (Z.abs (Qnum x)) - Z.log2 (Zpos (Qden x)) in
  if Qle_bool (2 ^ k) (Qabs x) then k else k - 1.

(** The binary64 number nearest to [x], a tie going to the even
    significand of 53 bits. *)
Definition rnd (x : Q) : Q :=
  if Qeq_bool x 0 then 0%Q
  else
    let e := exponent x - 52 in
    (inject_Z (Py.round (x / 2 ^ e)) * 2 ^ e)%Q.

(** [x / y], on floats as on integers. *)
Definition div (x y : Q) : Q := rnd (x / y).

End Binary64.

(** ** [datetime] *)

Module Datetime.

Record datetime := {
  instant_us : Z;   (* microseconds since 1970-01-01T00:00:00Z *)
  utcoffset : Z     (* seconds east of UTC *)
}.

Definition CST : Z := -6 * 3600.
Definition CDT : Z := -5 * 3600.

(** [datetime.fromtimestamp(ts, tz=tz)] for an integer [ts] that [datetime]
    represents; on others Python raises, which is left out here. *)
Definition fromtimestamp (ts tz : Z) : datetime :=
  {| instant_us := ts * 1000000; utcoffset := tz |}.

(** [(a - b).total_seconds()]: the microseconds of the difference divided
    by [10**6]. *)
Definition total_seconds (a b : datetime) : Q :=
  Binary64.div (inject_Z (instant_us a - instant_us b)) 1000000.

(** The calendar month (1..12) of an instant, in UTC. *)
Definition utc_month (us : Z) : Z :=
  let days := us / 86400000000 in
  let z := days + 719468 in
  let era := z / 146097 in
  let doe := z - era * 146097 in
  let yoe := (doe - doe / 1460 + doe / 36524 - doe / 146096) / 365 in
  let doy := doe - (365 * yoe + yoe / 4 - yoe / 100) in
  let mp := (5 * doy + 2) / 153 in
  if mp <? 10 then mp + 3 else mp - 9.

(** Seconds since local midnight. *)
Definition second_of_day (d : datetime) : Z :=
  (instant_us d / 1000000 + utcoffset d) mod 86400.

Definition pad2 (n : Z) : string :=
  if n <? 10 then "0" +:+ Py.str n else Py.str n.

(** [d.strftime("%H:%M:%S")]. *)
Definition strftime_HMS (d : datetime) : string :=
  let s := second_of_day d in
  pad2 (s / 3600) +:+ ":" +:+ pad2 (s / 60 mod 60) +:+ ":" +:+ pad2 (s mod 60).

(** [d.strftime("%I:%M %p")]. *)
Definition strftime_IMp (d : datetime) : string :=
  let s := second_of_day d in
  let h := s / 3600 in
  let h12 := if h mod 12 =? 0 then 12 else h mod 12 in
  pad2 h12 +:+ ":" +:+ pad2 (s / 60 mod 60) +:+ " "
    +:+ (if h <? 12 then "AM" else "PM").

End Datetime.

(** ** The outside world: clock, cache directory, network, standard output *)

Module GtfsRt.

(** The fields of a GTFS-realtime trip-update feed that the command reads.
    An unset protobuf field reads as [0]. *)
Record StopTimeEvent := { time : Z; delay : Z }.

Record StopTimeUpdate := {
  stop_id : string;
  arrival : StopTimeEvent;
  departure : StopTimeEvent
}.

Record TripDescriptor := { trip_id : string; route_id : string }.

Record TripUpdate := {
  trip : TripDescriptor;
  stop_time_update : list StopTimeUpdate
}.

Record FeedEntity := { trip_update : TripUpdate }.

Record FeedMessage := { entity : list FeedEntity }.

End GtfsRt.

(** A row of a GTFS table as [csv.DictReader] yields it. *)
Abbreviation row := (gmap string string).

Inductive exn :=
| KeyError (key : string)
| SystemExit (code : Z)
| RequestError.      (* [requests.get], [raise_for_status] or the decoder raised *)

Inductive event :=
| Print (text : string)
| HttpGet (url : string).

Record env := {
  clock : nat -> Z;               (* the k-th reading of the system clock, in
                                     microseconds since the epoch *)
  GTFS_DIR : string;              (* the cache directory, as printed *)
  gtfs_files : gmap string (list row);   (* the tables found in it *)
  bindings_installed : bool;      (* [google.transit] can be imported *)
  http : string -> option GtfsRt.FeedMessage   (* the decoded answer of a GET;
                                     [None] when the request or decoding fails *)
}.

Record world := {
  clock_reads : nat;      (* readings of the clock taken so far *)
  trace : list event      (* what happened so far, oldest first *)
}.

Definition world0 : world := {| clock_reads := 0; trace := [] |}.

(** Computations that read the clock, print, fetch and may raise. *)
Definition M (A : Type) : Type := world -> world * (exn + A).

Definition ret {A} (a : A) : M A := fun w => (w, inr a).

Definition bind {A B} (c : M A) (k : A -> M B) : M B :=
  fun w =>
    match c w with
    | (w', inr a) => k a w'
    | (w', inl e) => (w', inl e)
    end.

Notation "x <- c ;; k" := (bind c (fun x => k))
  (at level 100, c at next level, right associativity).
Notation "c ;; k" := (bind c (fun _ => k))
  (at level 100, right associativity).

Definition raise {A} (e : exn) : M A := fun w => (w, inl e).

Definition emit (ev : event) : M unit :=
  fun w => ({| clock_reads := clock_reads w; trace := trace w ++ [ev] |}, inr tt).

Definition print (text : string) : M unit := emit (Print text).

(** [datetime.now(...)]: one reading of the clock. *)
Definition read_clock (e : env) : M Z :=
  fun w => ({| clock_reads := S (clock_reads w); trace := trace w |},
            inr (clock e (clock_reads w))).

(** [d[k]]. *)
Definition getitem {V} (d : gmap string V) (k : string) : M V :=
  match d !! k with
  | Some v => ret v
  | None => raise (KeyError k)
  end.

(** A [for] loop over [l] whose body updates the local state [s]. *)
Fixpoint for_each {A S} (l : list A) (body : A -> S -> M S) (s : S) : M S :=
  match l with
  | [] => ret s
  | x :: l' => s' <- body x s ;; for_each l' body s'
  end.

Definition trip_updates_pb : string :=
  "https://data.texas.gov/download/rmk2-acnw/application%2Foctet-stream".

(** ** Helpers of the script *)

Section Helpers.
Variable e : env.

Definition local_tz : M Z :=
  now <- read_clock e ;;
  let month := Datetime.utc_month now in
  if (3 <=? month) && (month <? 11) then ret Datetime.CDT
  else ret Datetime.CST.

Definition local_now : M Datetime.datetime :=
  tz <- local_tz ;;
  now <- read_clock e ;;
  ret {| Datetime.instant_us := now; Datetime.utcoffset := tz |}.

Definition _parse_pb (url : string) : M GtfsRt.FeedMessage :=
  if bindings_installed e then
    emit (HttpGet url) ;;
    match http e url with
    | Some feed => ret feed
    | None => raise RequestError
    end
  else
    print "ERROR: gtfs-realtime-bindings not installed." ;;
    print "Run: pip3 install gtfs-realtime-bindings requests protobuf" ;;
    raise (SystemExit 1).

Definition _ensure_gtfs : M bool :=
  match gtfs_files e !! "stops.txt" with
  | None =>
      print ("GTFS static data not found at " +:+ GTFS_DIR e) ;;
      print "Run: python3 scripts/capmetro.py refresh-gtfs" ;;
      ret false
  | Some _ => ret true
  end.

Definition _load_csv (filename : string) : list row :=
  default [] (gtfs_files e !! filename).

(** [{r[key]: r for r in rows}] *)
Definition index_by (key : string) (rows : list row) : M (gmap string row) :=
  for_each rows (fun r d => k <- getitem r key ;; ret (<[k := r]> d)) ∅.

Definition _load_stops : M (gmap string row) :=
  index_by "stop_id" (_load_csv "stops.txt").

Definition _load_routes : M (gmap string row) :=
  index_by "route_id" (_load_csv "routes.txt").

Definition _load_trips : M (gmap string row) :=
  index_by "trip_id" (_load_csv "trips.txt").

Definition _load_stop_times_for_stop (stop_id : string) : M (list row) :=
  for_each (_load_csv "stop_times.txt")
    (fun r acc =>
       sid <- getitem r "stop_id" ;;
       if String.eqb sid stop_id then ret (acc ++ [r]) else ret acc)
    [].

End Helpers.
(** ** The [arrivals] command *)

Record args := {
  stop : string;            (* --stop, required *)
  route : option string     (* --route, [None] when absent *)
}.

(** An element of [rt_arrivals]. *)
Record rt_arrival := {
  rt_route : string;
  rt_headsign : string;
  rt_arrival_time : string;     (* the key "arrival" *)
  mins_away : Z;
  delay_mins : Z
}.

(** An element of [upcoming]. *)
Record scheduled := {
  sc_route : string;
  sc_headsign : string;
  sc_time : string
}.

(** The two non-ASCII marks of the printed lines, byte for byte. *)
Definition bus_mark : string :=
  String.string_of_list_ascii
    (ascii_of_nat <$> [239; 163; 191; 195; 188; 195; 182; 195; 165]%nat).

Definition arrow_mark : string :=
  String.string_of_list_ascii
    (ascii_of_nat <$> [226; 128; 154; 195; 156; 195; 173]%nat).

(** [route_filter and route_id != route_filter] *)
Definition filtered_out (route_filter : option string) (route_id : string) : bool :=
  match route_filter with
  | Some f => Py.truthy f && negb (String.eqb route_id f)
  | None => false
  end.

(** [(arrival_time - now).total_seconds() / 60] *)
Definition minutes_between (arrival_time now : Datetime.datetime) : Q :=
  Binary64.div (Datetime.total_seconds arrival_time now) 60.

(** [round(delay / 60) if delay else 0] *)
Definition delay_minutes (delay : Z) : Z :=
  if delay =? 0 then 0 else Py.round (Binary64.div (inject_Z delay) 60).

(** The label chosen at lines 342-347. *)
Definition eta (a : rt_arrival) : string :=
  if mins_away a <=? 0 then "NOW"
  else if mins_away a =? 1 then "1 min"
  else Py.str (mins_away a) +:+ " min".

Definition delay_str (a : rt_arrival) : string :=
  if 0 <? delay_mins a then " (+" +:+ Py.str (delay_mins a) +:+ "m late)"
  else "".

(** The three [print] calls for one real-time arrival. *)
Definition print_rt (a : rt_arrival) : M unit :=
  print ("  " +:+ bus_mark +:+ " Route " +:+ rt_route a +:+ " " +:+ arrow_mark
           +:+ " " +:+ rt_headsign a) ;;
  print ("     " +:+ rt_arrival_time a +:+ " (" +:+ eta a +:+ ")" +:+ delay_str a) ;;
  print "".

(** The conversion of a scheduled time to 12-hour form, with its [except]. *)
Definition time_str (t : string) : string :=
  match Py.split ":" t with
  | [h; m; _] =>
      match Py.int h with
      | Some h =>
          let ampm := if h <? 12 then "AM" else "PM" in
          let h := if 12 <? h then h - 12 else if h =? 0 then 12 else h in
          Py.str h +:+ ":" +:+ m +:+ " " +:+ ampm
      | None => t
      end
  | _ => t
  end.

Definition print_scheduled (u : scheduled) : M unit :=
  print ("  " +:+ bus_mark +:+ " Route " +:+ sc_route u +:+ " " +:+ arrow_mark
           +:+ " " +:+ sc_headsign u +:+ " at " +:+ time_str (sc_time u)).

(** The lists the two printing loops run over. *)
Definition rt_shown (rt_arrivals : list rt_arrival) : list rt_arrival :=
  take 15 (Py.sort_int mins_away rt_arrivals).

Definition scheduled_shown (upcoming : list scheduled) : list scheduled :=
  take 10 (Py.sort_str sc_time upcoming).

Section Command.
Variable e : env.
Variable a : args.

Let stop_id := stop a.
Let route_filter := route a.

Section Loaded.
Variables routes trips : gmap string row.

(** Lines 306-315: the instant and delay taken from a stop-time update. *)
Definition stu_time (stu : GtfsRt.StopTimeUpdate)
  : M (option Datetime.datetime * Z) :=
  if negb (GtfsRt.time (GtfsRt.arrival stu) =? 0) then
    tz <- local_tz e ;;
    ret (Some (Datetime.fromtimestamp (GtfsRt.time (GtfsRt.arrival stu)) tz),
         if negb (GtfsRt.delay (GtfsRt.arrival stu) =? 0)
         then GtfsRt.delay (GtfsRt.arrival stu) else 0)
  else if negb (GtfsRt.time (GtfsRt.departure stu) =? 0) then
    tz <- local_tz e ;;
    ret (Some (Datetime.fromtimestamp (GtfsRt.time (GtfsRt.departure stu)) tz),
         if negb (GtfsRt.delay (GtfsRt.departure stu) =? 0)
         then GtfsRt.delay (GtfsRt.departure stu) else 0)
  else ret (None, 0).

(** Lines 318-321 and 329-335: the dictionary appended to [rt_arrivals]. *)
Definition rt_entry (trip_id route_id : string)
    (arrival_time : Datetime.datetime) (delay : Z) (mins : Q) : rt_arrival :=
  let rname := default route_id
                 (default ∅ (routes !! route_id) !! "route_short_name") in
  let rlong := default ""
                 (default ∅ (routes !! route_id) !! "route_long_name") in
  let trip_info := default ∅ (trips !! trip_id) in
  let headsign := default rlong (trip_info !! "trip_headsign") in
  {| rt_route := rname;
     rt_headsign := headsign;
     rt_arrival_time := Datetime.strftime_IMp arrival_time;
     mins_away := Py.round mins;
     delay_mins := delay_minutes delay |}.

(** Lines 305-335: the body of the inner loop. *)
Definition stu_body (trip_id route_id : string)
    (stu : GtfsRt.StopTimeUpdate) (rt_arrivals : list rt_arrival)
  : M (list rt_arrival) :=
  if String.eqb (GtfsRt.stop_id stu) stop_id then
    td <- stu_time stu ;;
    match td with
    | (Some arrival_time, delay) =>
        now <- local_now e ;;
        let mins := minutes_between arrival_time now in
        if Py.lt mins (-5) then ret rt_arrivals
        else ret (rt_arrivals
                    ++ [rt_entry trip_id route_id arrival_time delay mins])
    | (None, _) => ret rt_arrivals
    end
  else ret rt_arrivals.

(** Lines 296-335: the body of the outer loop. *)
Definition entity_body (entity : GtfsRt.FeedEntity)
    (rt_arrivals : list rt_arrival) : M (list rt_arrival) :=
  let tu := GtfsRt.trip_update entity in
  let trip_id := GtfsRt.trip_id (GtfsRt.trip tu) in
  let route_id := GtfsRt.route_id (GtfsRt.trip tu) in
  if filtered_out route_filter route_id then ret rt_arrivals
  else for_each (GtfsRt.stop_time_update tu) (stu_body trip_id route_id)
         rt_arrivals.

(** Lines 295-335. *)
Definition collect_rt (feed : GtfsRt.FeedMessage) : M (list rt_arrival) :=
  for_each (GtfsRt.entity feed) entity_body [].

(** Lines 369-375: the dictionary appended to [upcoming]. *)
Definition scheduled_entry (trip_info : row) (route_id arr_time : string)
  : scheduled :=
  let rname := default route_id
                 (default ∅ (routes !! route_id) !! "route_short_name") in
  let headsign := default "" (trip_info !! "trip_headsign") in
  {| sc_route := rname; sc_headsign := headsign; sc_time := arr_time |}.

(** Lines 359-375: the body of the fallback loop. *)
Definition scheduled_body (current_time : string) (st : row)
    (upcoming : list scheduled) : M (list scheduled) :=
  trip_id <- getitem st "trip_id" ;;
  let trip_info := default ∅ (trips !! trip_id) in
  let route_id := default "" (trip_info !! "route_id") in
  if filtered_out route_filter route_id then ret upcoming
  else
    let arr_time :=
      default (default "" (st !! "departure_time")) (st !! "arrival_time") in
    if Py.gt arr_time current_time then
      ret (upcoming ++ [scheduled_entry trip_info route_id arr_time])
    else ret upcoming.

(** Lines 353-391: the fallback branch. *)
Definition scheduled_fallback : M unit :=
  print "No real-time data available. Showing scheduled times:" ;;
  stop_times <- _load_stop_times_for_stop e stop_id ;;
  now <- local_now e ;;
  let current_time := Datetime.strftime_HMS now in
  upcoming <- for_each stop_times (scheduled_body current_time) [] ;;
  for_each (scheduled_shown upcoming) (fun u _ => print_scheduled u) tt.

(** Lines 337-350: the real-time branch. *)
Definition realtime_report (rt_arrivals : list rt_arrival) : M unit :=
  print "Real-time arrivals:" ;;
  for_each (rt_shown rt_arrivals) (fun x _ => print_rt x) tt.

End Loaded.

Definition cmd_arrivals : M unit :=
  ok <- _ensure_gtfs e ;;
  if negb ok then ret tt
  else
    stops <- _load_stops e ;;
    routes <- _load_routes e ;;
    trips <- _load_trips e ;;
    match stops !! stop_id with
    | None =>
        print ("Stop ID '" +:+ stop_id +:+ "' not found in GTFS data.") ;;
        print "Use 'stops --search <name>' to find stop IDs." ;;
        ret tt
    | Some stop =>
        stop_name <- getitem stop "stop_name" ;;
        print (String "010" ("=== Arrivals at: " +:+ stop_name +:+ " (ID: "
                 +:+ stop_id +:+ ") ===" +:+ String "010" "")) ;;
        feed <- _parse_pb e trip_updates_pb ;;
        rt_arrivals <- collect_rt routes trips feed ;;
        match rt_arrivals with
        | _ :: _ => realtime_report rt_arrivals
        | [] => scheduled_fallback routes trips
        end
    end.

End Command.

(** ** Vocabulary of the statements *)

(** The world after [n] more readings of the clock. *)
Definition tick (n : nat) (w : world) : world :=
  {| clock_reads := n + clock_reads w; trace := trace w |}.

(** The world after more events. *)
Definition say (evs : list event) (w : world) : world :=
  {| clock_reads := clock_reads w; trace := trace w ++ evs |}.

(** The offset [local_tz] answers when the clock reads [us]. *)
Definition tz_at (us : Z) : Z :=
  if (3 <=? Datetime.utc_month us) && (Datetime.utc_month us <? 11)
  then Datetime.CDT else Datetime.CST.

(** The minutes between two instants [d] microseconds apart, as the
    command computes them: [timedelta.total_seconds() / 60] on floats. *)
Definition float_minutes (d : Z) : Q :=
  Binary64.div (Binary64.div (inject_Z d) 1000000) 60.

(** Half a unit in the last place of a float, relative to its size. *)
Definition half_ulp : Q := 1 # 9007199254740992.

(** The last second of the year 9999, the greatest timestamp [datetime]
    represents. *)
Definition max_timestamp : Z := 253402300799.

(** A hundred years of 365.25 days, in microseconds. *)
Definition century : Z := 3155760000000000.

(** The same environment with another clock. *)
Definition with_clock (c : nat -> Z) (e : env) : env :=
  {| clock := c; GTFS_DIR := GTFS_DIR e; gtfs_files := gtfs_files e;
     bindings_installed := bindings_installed e; http := http e |}.

(** The event of a stop-time update that carries the prediction. *)
Definition carried_event (stu : GtfsRt.StopTimeUpdate)
  : option GtfsRt.StopTimeEvent :=
  if negb (GtfsRt.time (GtfsRt.arrival stu) =? 0) then Some (GtfsRt.arrival stu)
  else if negb (GtfsRt.time (GtfsRt.departure stu) =? 0)
       then Some (GtfsRt.departure stu)
  else None.

(** What is printed for the entries shown. *)
Definition rt_events (x : rt_arrival) : list event :=
  [ Print ("  " +:+ bus_mark +:+ " Route " +:+ rt_route x +:+ " " +:+ arrow_mark
             +:+ " " +:+ rt_headsign x);
    Print ("     " +:+ rt_arrival_time x +:+ " (" +:+ eta x +:+ ")"
             +:+ delay_str x);
    Print "" ].

Definition scheduled_events (u : scheduled) : list event :=
  [ Print ("  " +:+ bus_mark +:+ " Route " +:+ sc_route u +:+ " " +:+ arrow_mark
             +:+ " " +:+ sc_headsign u +:+ " at " +:+ time_str (sc_time u)) ].


Definition is_http (ev : event) : bool :=
  match ev with HttpGet _ => true | Print _ => false end.

(** *** Reconciliation against one instant, in the words of the specification

    Steps 1 to 3: every update of the feed at the stop, on a route that
    passes the filter, measured against the single instant [now]; those more
    than five minutes past are dropped. *)
Section Reconcile.
Variable a : args.
Variables routes trips : gmap string row.
Variable now : Z.       (* microseconds since the epoch *)




(** The scheduled candidates of the query: the stop times on a route that
    passes the filter, whatever their time. *)
Definition scheduled_candidate (st : row) : list scheduled :=
  match st !! "trip_id" with
  | Some trip_id =>
      let trip_info := default ∅ (trips !! trip_id) in
      let route_id := default "" (trip_info !! "route_id") in
      if filtered_out (route a) route_id then []
      else [scheduled_entry routes trip_info route_id
              (default (default "" (st !! "departure_time"))
                 (st !! "arrival_time"))]
  | None => []
  end.

Definition scheduled_candidates (stop_times : list row) : list scheduled :=
  List.flat_map scheduled_candidate stop_times.

(** Step 5: sort by time of day, keep those strictly later than the
    current time of day, take the first 10. *)
Definition scheduled_spec (current_time : string)
    (candidates : list scheduled) : list scheduled :=
  take 10
    (List.filter (fun c => Py.gt (sc_time c) current_time)
       (Py.sort_str sc_time candidates)).
End Reconcile.

(** *** Reconciliation against the successive readings of the clock

    The updates of a feed that the query looks at: those at the stop that
    carry a time, on the trips whose route passes the filter. *)
Definition relevant_update (a : args) (stu : GtfsRt.StopTimeUpdate) : bool :=
  String.eqb (GtfsRt.stop_id stu) (stop a)
  && bool_decide (is_Some (carried_event stu)).

(** They are taken in the order of the feed, each with the ids of its
    trip. *)
Definition updates_of (a : args) (entity : GtfsRt.FeedEntity)
  : list (string * string * GtfsRt.StopTimeUpdate) :=
  let tu := GtfsRt.trip_update entity in
  if filtered_out (route a) (GtfsRt.route_id (GtfsRt.trip tu)) then []
  else (fun stu => (GtfsRt.trip_id (GtfsRt.trip tu),
                    GtfsRt.route_id (GtfsRt.trip tu), stu))
         <$> List.filter (relevant_update a) (GtfsRt.stop_time_update tu).

Definition relevant_updates (a : args) (feed : GtfsRt.FeedMessage)
  : list (string * string * GtfsRt.StopTimeUpdate) :=
  List.flat_map (updates_of a) (GtfsRt.entity feed).

(** An update measured with three successive readings of the clock [c],
    the [k]-th and the two after it: the first gives the zone of the arrival
    time, the second the zone of [now], the third is [now]. *)
Definition measured_at (routes trips : gmap string row) (c : nat -> Z)
    (k : nat) (u : string * string * GtfsRt.StopTimeUpdate)
  : list rt_arrival :=
  match carried_event (snd u) with
  | Some ev =>
      let arrival_time :=
        Datetime.fromtimestamp (GtfsRt.time ev) (tz_at (c k)) in
      let now := {| Datetime.instant_us := c (S (S k));
                    Datetime.utcoffset := tz_at (c (S k)) |} in
      let mins := minutes_between arrival_time now in
      if Py.lt mins (-5) then []
      else [rt_entry routes trips (fst (fst u)) (snd (fst u)) arrival_time
              (GtfsRt.delay ev) mins]
  | None => []
  end.

(** The timestamps of the updates the query looks at are ones [datetime]
    represents and no system refuses: after 1970 and within the year 9999.
    On others [fromtimestamp] raises, which the embedding leaves out. *)
Definition representable (ts : Z) : bool :=
  (0 <? ts) && (ts <=? max_timestamp).

Definition times_representable (a : args) (feed : GtfsRt.FeedMessage) : bool :=
  forallb
    (fun u => match carried_event (snd u) with
              | Some ev => representable (GtfsRt.time ev)
              | None => true
              end)
    (relevant_updates a feed).

(** The number of arrivals of a list whose [mins_away] is not above that
    of [x]: those that may stand before [x] in the list shown. *)
Definition not_after (x : rt_arrival) (l : list rt_arrival) : nat :=
  length (List.filter (fun y => mins_away y <=? mins_away x) l).

(** The second line printed for an arrival labelled NOW. *)
Definition now_line (x : rt_arrival) : event :=
  Print ("     " +:+ rt_arrival_time x +:+ " (NOW)" +:+ delay_str x).

(** ** A small city, for the examples

    Stop 1234 on 14 November 2023; local time is 10:00:00 (CST) when the
    clock reads [ten_oclock]. *)
Module Sample.

Definition mkrow (l : list (string * string)) : row := list_to_map l.

Definition ten_oclock : Z := 1699977600 * 1000000.

Definition stops_txt : list row :=
  [ mkrow [("stop_id", "1234"); ("stop_name", "Main St")] ].

Definition routes_txt : list row :=
  [ mkrow [("route_id", "1"); ("route_short_name", "1");
           ("route_long_name", "Metric")];
    mkrow [("route_id", "3"); ("route_short_name", "3");
           ("route_long_name", "Burnet")] ].

Definition trips_txt : list row :=
  [ mkrow [("trip_id", "t1"); ("route_id", "1"); ("trip_headsign", "North")];
    mkrow [("trip_id", "t3"); ("route_id", "3"); ("trip_headsign", "South")] ].

Definition stop_time (trip_id arrival_time : string) : row :=
  mkrow [("trip_id", trip_id); ("stop_id", "1234");
         ("arrival_time", arrival_time)].

Definition stop_times_txt : list row :=
  [ stop_time "t1" "09:45:00"; stop_time "t1" "10:15:00";
    stop_time "t3" "10:05:00" ].

Definition stops : gmap string row := {[ "1234" := mkrow [("stop_id", "1234"); ("stop_name", "Main St")] ]}.

Definition routes : gmap string row :=
  list_to_map
    [ ("1", mkrow [("route_id", "1"); ("route_short_name", "1");
                   ("route_long_name", "Metric")]);
      ("3", mkrow [("route_id", "3"); ("route_short_name", "3");
                   ("route_long_name", "Burnet")]) ].

Definition trips : gmap string row :=
  list_to_map
    [ ("t1", mkrow [("trip_id", "t1"); ("route_id", "1");
                    ("trip_headsign", "North")]);
      ("t3", mkrow [("trip_id", "t3"); ("route_id", "3");
                    ("trip_headsign", "South")]) ].

(** A stop-time update at stop 1234 that carries only an arrival. *)
Definition arriving (time delay : Z) : GtfsRt.StopTimeUpdate :=
  {| GtfsRt.stop_id := "1234";
     GtfsRt.arrival := {| GtfsRt.time := time; GtfsRt.delay := delay |};
     GtfsRt.departure := {| GtfsRt.time := 0; GtfsRt.delay := 0 |} |}.

Definition entity_of (trip_id route_id : string)
    (stus : list GtfsRt.StopTimeUpdate) : GtfsRt.FeedEntity :=
  {| GtfsRt.trip_update :=
       {| GtfsRt.trip := {| GtfsRt.trip_id := trip_id;
                            GtfsRt.route_id := route_id |};
          GtfsRt.stop_time_update := stus |} |}.

Definition feed_of (entities : list GtfsRt.FeedEntity) : GtfsRt.FeedMessage :=
  {| GtfsRt.entity := entities |}.

(** Arrivals [s] seconds after ten o'clock on route 1. *)
Definition feed_at (seconds : list Z) : GtfsRt.FeedMessage :=
  feed_of [ entity_of "t1" "1" ((fun s => arriving (1699977600 + s) 0) <$> seconds) ].

(** The example of the specification: 10:07 on route 1, 09:58 on route 3,
    09:50 on route 1. *)
Definition example_feed : GtfsRt.FeedMessage :=
  feed_of [ entity_of "t1" "1" [arriving (1699977600 + 420) 0];
            entity_of "t3" "3" [arriving (1699977600 - 120) 0];
            entity_of "t1" "1" [arriving (1699977600 - 600) 0] ].

Definition city (clock : nat -> Z) (feed : GtfsRt.FeedMessage) : env :=
  {| clock := clock;
     GTFS_DIR := "/home/rider/.capmetro/gtfs";
     gtfs_files :=
       list_to_map [ ("stops.txt", stops_txt); ("routes.txt", routes_txt);
                     ("trips.txt", trips_txt);
                     ("stop_times.txt", stop_times_txt) ];
     bindings_installed := true;
     http := fun _ => Some feed |}.

Definition still : nat -> Z := fun _ => ten_oclock.


Definition query : args := {| stop := "1234"; route := None |}.

End Sample.

(** ** Vocabulary of the further properties *)

(** The row has the column. *)
Definition has_column (key : string) (r : row) : bool :=
  bool_decide (is_Some (r !! key)).

(** The last row of a table whose column [key] holds [k]. *)
Definition last_with (key k : string) (rows : list row) : option row :=
  last (filter (fun r : row => r !! key = Some k) rows).

(** The label the commands print for a route id. *)
Definition route_label (routes : gmap string row) (route_id : string) : string :=
  default route_id (default ∅ (routes !! route_id) !! "route_short_name").

(** The requests among some events. *)
Definition requests (evs : list event) : list event := List.filter is_http evs.

(** The feed cut down to the updates the query looks at. *)
Definition relevant_entity (a : args) (entity : GtfsRt.FeedEntity)
  : list GtfsRt.FeedEntity :=
  let tu := GtfsRt.trip_update entity in
  if filtered_out (route a) (GtfsRt.route_id (GtfsRt.trip tu)) then []
  else [ {| GtfsRt.trip_update :=
              {| GtfsRt.trip := GtfsRt.trip tu;
                 GtfsRt.stop_time_update :=
                   List.filter (relevant_update a) (GtfsRt.stop_time_update tu) |} |} ].

Definition relevant_feed (a : args) (feed : GtfsRt.FeedMessage)
  : GtfsRt.FeedMessage :=
  {| GtfsRt.entity := List.flat_map (relevant_entity a) (GtfsRt.entity feed) |}.

Definition relevant_count (a : args) (feed : GtfsRt.FeedMessage) : nat :=
  sum_list_with
    (fun entity => length (GtfsRt.stop_time_update (GtfsRt.trip_update entity)))
    (GtfsRt.entity (relevant_feed a feed)).

(** A time of day in the zero-padded [HH:MM:SS] form of GTFS. *)
Definition hms (h m s : Z) : string :=
  Datetime.pad2 h +:+ ":" +:+ Datetime.pad2 m +:+ ":" +:+ Datetime.pad2 s.

(** The string has no occurrence of the character. *)
Fixpoint free_of (sep : Ascii.ascii) (s : string) : bool :=
  match s with
  | EmptyString => true
  | String c s' => negb (Ascii.eqb c sep) && free_of sep s'
  end.

(** The decimal digit [i] as a character. *)
Definition digit_char (i : Z) : Ascii.ascii := ascii_of_N (48 + Z.to_N i).

Definition comparison_eqb (c1 c2 : comparison) : bool :=
  match c1, c2 with
  | Eq, Eq | Lt, Lt | Gt, Gt => true
  | _, _ => false
  end.

(** The numeral of [n] on [k] digits, zero-padded. *)
Fixpoint fixed (k : nat) (n : Z) : string :=
  match k with
  | O => EmptyString
  | S k' => fixed k' (n / 10) +:+ String (digit_char (n mod 10)) EmptyString
  end.

(** The string is made of decimal digits. *)
Fixpoint all_digits (s : string) : bool :=
  match s with
  | EmptyString => true
  | String c s' =>
      ((48 <=? N_of_ascii c) && (N_of_ascii c <=? 57))%N && all_digits s'
  end.

(** ** The [routes] command and the pieces of [route-info] *)

Module PyText.

(** [len(s)]: the number of code points, those bytes of the UTF-8 text that
    are not continuation bytes. *)
Fixpoint len (s : string) : nat :=
  match s with
  | EmptyString => 0
  | String c s' =>
      let n := N_of_ascii c in
      if ((128 <=? n) && (n <? 192))%N then len s' else S (len s')
  end.

Fixpoint fill (c : Ascii.ascii) (n : nat) : string :=
  match n with
  | O => EmptyString
  | S n' => String c (fill c n')
  end.

(** [s.zfill(width)] *)
Definition zfill (width : nat) (s : string) : string :=
  if (width <=? len s)%nat then s
  else
    let zeros := fill "0" (width - len s) in
    match s with
    | String c rest =>
        if Ascii.eqb c "+" || Ascii.eqb c "-" then String c (zeros +:+ rest)
        else zeros +:+ s
    | EmptyString => zeros
    end.

(** [f"{s:>width}"] and [f"{s:<width}"] *)
Definition rjust (width : nat) (s : string) : string :=
  fill " " (width - len s) +:+ s.

Definition ljust (width : nat) (s : string) : string :=
  s +:+ fill " " (width - len s).

End PyText.

(** A [dict] with the order of its items: assigning to a key that is present
    replaces the value where it stands, a new key goes to the end. *)
Fixpoint dict_set (k : string) (v : row) (items : list (string * row))
  : list (string * row) :=
  match items with
  | [] => [(k, v)]
  | (k', v') :: rest =>
      if String.eqb k' k then (k, v) :: rest
      else (k', v') :: dict_set k v rest
  end.

Fixpoint dict_get (items : list (string * row)) (k : string) : option row :=
  match items with
  | [] => None
  | (k', v) :: rest => if String.eqb k' k then Some v else dict_get rest k
  end.

(** [{r[key]: r for r in rows}], with its order. *)
Definition items_by (key : string) (rows : list row) : M (list (string * row)) :=
  for_each rows (fun r d => k <- getitem r key ;; ret (dict_set k r d)) [].

(** [_load_routes()] and [_load_trips()] as the ordered dictionaries they
    are. *)
Definition _load_routes_items (e : env) : M (list (string * row)) :=
  items_by "route_id" (_load_csv e "routes.txt").

Definition _load_trips_items (e : env) : M (list (string * row)) :=
  items_by "trip_id" (_load_csv e "trips.txt").

(** [type_names.get(t, "Other")] *)
Definition type_name (t : string) : string :=
  if String.eqb t "0" then "Tram"
  else if String.eqb t "1" then "Subway"
  else if String.eqb t "2" then "Rail"
  else if String.eqb t "3" then "Bus"
  else if String.eqb t "4" then "Ferry"
  else "Other".

(** The line printed for a route. *)
Definition route_line (rid : string) (r : row) : string :=
  let rtype := type_name (default "3" (r !! "route_type")) in
  let short := default rid (r !! "route_short_name") in
  let long_name := default "" (r !! "route_long_name") in
  "  " +:+ PyText.rjust 6 short +:+ " | " +:+ PyText.ljust 5 rtype +:+ " | "
    +:+ long_name.

(** [sorted(routes.keys(), key=lambda x: x.zfill(5))] *)
Definition sorted_route_ids (routes : list (string * row)) : list string :=
  Py.sort_str (PyText.zfill 5) (fst <$> routes).

Definition cmd_routes (e : env) : M unit :=
  ok <- _ensure_gtfs e ;;
  if negb ok then ret tt
  else
    routes <- _load_routes_items e ;;
    print (String "010" ("=== CapMetro Routes ("
             +:+ Py.str (Z.of_nat (length routes)) +:+ ") ==="
             +:+ String "010" "")) ;;
    for_each (sorted_route_ids routes)
      (fun rid _ =>
         match dict_get routes rid with
         | Some r => print (route_line rid r)
         | None => raise (KeyError rid)
         end)
      tt.

(** Lines 486-494 of [cmd_route_info]: the route id the argument stands for,
    [None] when the command reports it as not found. *)
Fixpoint first_with_short_name (routes : list (string * row)) (name : string)
  : option string :=
  match routes with
  | [] => None
  | (rid, r) :: rest =>
      if bool_decide (r !! "route_short_name" = Some name) then Some rid
      else first_with_short_name rest name
  end.

Definition resolve_route (routes : list (string * row)) (route_id : string)
  : option string :=
  match dict_get routes route_id with
  | Some _ => Some route_id
  | None => first_with_short_name routes route_id
  end.

(** Lines 503-511 of [cmd_route_info]: the trip whose stops are shown. *)
Definition sample_trip (trips : list (string * row)) (route_id : string)
  : option row :=
  let route_trips :=
    List.filter (fun t : row => bool_decide (t !! "route_id" = Some route_id))
      (snd <$> trips) in
  let dir0 :=
    List.filter (fun t : row => bool_decide (t !! "direction_id" = Some "0"))
      route_trips in
  match dir0 with
  | t :: _ => Some t
  | [] => head route_trips
  end.

(** ** The [route-info] command *)

(** [int(r.get("stop_sequence", 0))]; [None] is the [ValueError] of [int]. *)
Definition stop_sequence (r : row) : option Z :=
  match r !! "stop_sequence" with
  | Some s => Py.int s
  | None => Some 0
  end.

(** A row with the key [sorted] computes for it. *)
Definition keyed (r : row) : option (Z * row) :=
  match stop_sequence r with
  | Some k => Some (k, r)
  | None => None
  end.

(** [[r for r in rows if r["trip_id"] == trip_id]] *)
Definition rows_of_trip (e : env) (trip_id : string) : M (list row) :=
  for_each (_load_csv e "stop_times.txt")
    (fun r acc =>
       tid <- getitem r "trip_id" ;;
       if String.eqb tid trip_id then ret (acc ++ [r]) else ret acc)
    [].

(** [sorted(rows, key=...)]: the keys of all rows are computed first, then
    the rows are sorted by them. *)
Definition sorted_by_sequence (rows : list row) : option (list row) :=
  match mapM keyed rows with
  | Some l => Some (snd <$> Py.sort_int fst l)
  | None => None
  end.

(** The result is [None] when [int] raises [ValueError]. *)
Definition _load_stop_times_for_trip (e : env) (trip_id : string)
  : M (option (list row)) :=
  rows <- rows_of_trip e trip_id ;;
  ret (sorted_by_sequence rows).

(** The bytes between the two names of the heading. *)
Definition dash_mark : string :=
  String.string_of_list_ascii
    (ascii_of_nat <$> [226; 128; 154; 195; 132; 195; 174]%nat).

(** [routes[route_id]] on the ordered dictionary. *)
Definition dict_getitem (items : list (string * row)) (k : string) : M row :=
  match dict_get items k with
  | Some v => ret v
  | None => raise (KeyError k)
  end.

(** The line printed for a stop of the trip. *)
Definition stop_line (stops : gmap string row) (st : row) (sid : string)
  : string :=
  let sname := default sid (default ∅ (stops !! sid) !! "stop_name") in
  "  " +:+ PyText.rjust 3 (default "" (st !! "stop_sequence")) +:+ ". "
    +:+ sname +:+ " (ID: " +:+ sid +:+ ")".

(** Lines 512-518: the stops of the sample trip. *)
Definition print_stops (stops : gmap string row) (sample : row)
    (stop_times : list row) : M unit :=
  match stop_times with
  | [] => ret tt
  | _ :: _ =>
      print ("Stops (direction: " +:+ default "" (sample !! "trip_headsign")
               +:+ "):") ;;
      for_each stop_times
        (fun st _ =>
           sid <- getitem st "stop_id" ;;
           print (stop_line stops st sid))
        tt
  end.

(** Lines 494-499: the heading of the route. *)
Definition print_route (r : row) (route_id : string) : M unit :=
  print (String "010" ("=== Route " +:+ default route_id (r !! "route_short_name")
           +:+ " " +:+ dash_mark +:+ " " +:+ default "" (r !! "route_long_name")
           +:+ " ===")) ;;
  print ("    Type: " +:+ default "?" (r !! "route_type") +:+ "  |  ID: "
           +:+ route_id) ;;
  match r !! "route_url" with
  | Some url => if Py.truthy url then print ("    URL: " +:+ url) else ret tt
  | None => ret tt
  end ;;
  print "".

(** Lines 484-518: the report, once the tables are loaded.  The result is
    [None] when [int] raises [ValueError]. *)
Definition report_route (e : env) (routes trips : list (string * row))
    (stops : gmap string row) (route_arg : string) : M (option unit) :=
  match resolve_route routes route_arg with
  | None =>
      print ("Route '" +:+ route_arg +:+ "' not found.") ;;
      ret (Some tt)
  | Some route_id =>
      r <- dict_getitem routes route_id ;;
      print_route r route_id ;;
      match sample_trip trips route_id with
      | None =>
          print "No trips found for this route." ;;
          ret (Some tt)
      | Some sample =>
          trip_id <- getitem sample "trip_id" ;;
          loaded <- _load_stop_times_for_trip e trip_id ;;
          match loaded with
          | None => ret None
          | Some stop_times =>
              print_stops stops sample stop_times ;;
              ret (Some tt)
          end
      end
  end.

Definition cmd_route_info (e : env) (route_arg : string) : M (option unit) :=
  ok <- _ensure_gtfs e ;;
  if negb ok then ret (Some tt)
  else
    routes <- _load_routes_items e ;;
    trips <- _load_trips_items e ;;
    stops <- _load_stops e ;;
    report_route e routes trips stops route_arg.




(** A computation that neither reads the clock nor makes a request. *)
Definition offline {A} (c : M A) : Prop :=
  forall w,
    clock_reads (fst (c w)) = clock_reads w
    /\ requests (trace (fst (c w))) = requests (trace w).


(** A few routes, trips and stop times, for the examples of [route-info]:
    two routes share the short name "Rapid"; trip [b] of route 801 runs in
    direction 0 and its stop times are listed out of order. *)
Module RouteSample.

Definition routes_txt : list row :=
  [ Sample.mkrow [("route_id", "550"); ("route_short_name", "Red")];
    Sample.mkrow [("route_id", "801"); ("route_short_name", "Rapid")];
    Sample.mkrow [("route_id", "803"); ("route_short_name", "Rapid")] ].

Definition routes : list (string * row) :=
  [ ("550", Sample.mkrow [("route_id", "550"); ("route_short_name", "Red")]);
    ("801", Sample.mkrow [("route_id", "801"); ("route_short_name", "Rapid")]);
    ("803", Sample.mkrow [("route_id", "803"); ("route_short_name", "Rapid")]) ].

Definition trips_txt : list row :=
  [ Sample.mkrow [("trip_id", "a"); ("route_id", "801"); ("direction_id", "1")];
    Sample.mkrow [("trip_id", "b"); ("route_id", "801"); ("direction_id", "0")] ].

Definition stop_time (trip_id stop_id stop_sequence : string) : row :=
  Sample.mkrow [("trip_id", trip_id); ("stop_id", stop_id);
                ("stop_sequence", stop_sequence)].

Definition stop_times_txt : list row :=
  [ stop_time "b" "s10" "10"; stop_time "a" "s1" "1";
    stop_time "b" "s2" "2"; stop_time "b" "s1" "1" ].

Definition stops_txt : list row :=
  [ Sample.mkrow [("stop_id", "s1"); ("stop_name", "Tech Ridge")] ].

Definition trips : list (string * row) :=
  [ ("a", Sample.mkrow [("trip_id", "a"); ("route_id", "801");
                        ("direction_id", "1")]);
    ("b", Sample.mkrow [("trip_id", "b"); ("route_id", "801");
                        ("direction_id", "0")]) ].

Definition stops : gmap string row :=
  {[ "s1" := Sample.mkrow [("stop_id", "s1"); ("stop_name", "Tech Ridge")] ]}.

Definition city : env :=
  {| clock := Sample.still;
     GTFS_DIR := "/home/rider/.capmetro/gtfs";
     gtfs_files :=
       list_to_map [ ("stops.txt", stops_txt); ("routes.txt", routes_txt);
                     ("trips.txt", trips_txt);
                     ("stop_times.txt", stop_times_txt) ];
     bindings_installed := true;
     http := fun _ => None |}.

End RouteSample.
(** ** Sanity checks of the library model *)

Example round_ties_even :
  Py.round (5 # 2) = 2 /\ Py.round (7 # 2) = 4 /\ Py.round (-9 # 2) = -4
  /\ Py.round (-27 # 5) = -5 /\ Py.round (-5) = -5.
Proof. vm_compute. auto. Qed.

Example utc_month_samples :
  Datetime.utc_month 0 = 1
  /\ Datetime.utc_month (1700000000 * 1000000) = 11
  /\ Datetime.utc_month (1710000000 * 1000000) = 3
  /\ Datetime.utc_month (1709251199 * 1000000) = 2
  /\ Datetime.utc_month (1709251200 * 1000000) = 3
  /\ Datetime.utc_month (-1 * 1000000) = 12.
Proof. vm_compute. auto 10. Qed.

Example strftime_samples :
  let d := Datetime.fromtimestamp 1700000000 Datetime.CST in
  Datetime.strftime_HMS d = "16:13:20" /\ Datetime.strftime_IMp d = "04:13 PM".
Proof. vm_compute. auto. Qed.

Example split_samples :
  Py.split ":"%char "10:05:00" = ["10"; "05"; "00"] /\ Py.split ":"%char "" = [""]
  /\ Py.split ":"%char "a:" = ["a"; ""].
Proof. vm_compute. auto. Qed.

Example int_samples :
  Py.int "07" = Some 7 /\ Py.int " -12 " = Some (-12) /\ Py.int "1_0" = Some 10
  /\ Py.int "" = None /\ Py.int "1__0" = None /\ Py.int "_1" = None
  /\ Py.int "1_" = None /\ Py.int "x" = None /\ Py.int "+-1" = None.
Proof. vm_compute. auto 12. Qed.

Example route_info_sample :
  cmd_route_info RouteSample.city "Rapid" world0
  = (say [ Print (String "010" ("=== Route Rapid " +:+ dash_mark +:+ "  ==="));
           Print "    Type: ?  |  ID: 801";
           Print "";
           Print "Stops (direction: ):";
           Print "    1. Tech Ridge (ID: s1)";
           Print "    2. s2 (ID: s2)";
           Print "   10. s10 (ID: s10)" ] world0,
     inr (Some tt)).
Proof. vm_compute. reflexivity. Qed.

(** The doubles nearest to 0.1, to a third and to 5.4, as the hardware has
    them. *)
Example binary64_samples :
  (Binary64.rnd (1 # 10) == 3602879701896397 # 36028797018963968)%Q
  /\ (Binary64.rnd (1 # 3) == 6004799503160661 # 18014398509481984)%Q
  /\ (Binary64.div 324 60 == 3039929748475085 # 562949953421312)%Q
  /\ (Binary64.div 1 2 == 1 # 2)%Q
  /\ (Binary64.rnd 9007199254740993 == 9007199254740992)%Q.
Proof. vm_compute. auto 6. Qed.

(** An arrival 570 years away: the seconds, 18000000089.999999, round to
    the double 18000000090, and the minutes are the tie 300000001.5 where
    the exact quotient lies below it. *)
Example minutes_far_apart :
  (float_minutes 18000000089999999 == 600000003 # 2)%Q
  /\ Py.round (float_minutes 18000000089999999) = 300000002
  /\ Py.round (inject_Z 18000000089999999 / 60000000) = 300000001.
Proof. vm_compute. auto. Qed.
(** ** Facts about the library model *)

Section RoundFacts.
Local Open Scope Q_scope.

Lemma lt_spec (x y : Q) : Py.lt x y = true <-> x < y.
Proof.
  unfold Py.lt. rewrite Qlt_alt.
  destruct (x ?= y); split; congruence.
Qed.

Lemma lt_false (x y : Q) : Py.lt x y = false <-> y <= x.
Proof.
  pose proof (lt_spec x y) as H.
  destruct (Py.lt x y); split; intros H'; try congruence.
  - exfalso. apply (Qlt_not_le x y); [now apply H | exact H'].
  - apply Qnot_lt_le. intros Hlt. apply H in Hlt. congruence.
Qed.

Lemma round_floor_bounds (x : Q) :
  (Qfloor x <= Py.round x <= Qfloor x + 1)%Z.
Proof.
  unfold Py.round.
  destruct (Qcompare _ _); [destruct (Z.even _)|..]; lia.
Qed.

(** [round] returns a nearest integer. *)
Lemma round_nearest (x : Q) :
  Qabs (inject_Z (Py.round x) - x) <= 1 # 2.
Proof.
  pose proof (Qfloor_le x) as Hlo.
  pose proof (Qlt_floor x) as Hhi.
  rewrite inject_Z_plus in Hhi.
  apply Qabs_Qle_condition.
  unfold Py.round.
  destruct (Qcompare_spec (x - inject_Z (Qfloor x)) (1 # 2)) as [He|Hl|Hg];
    [destruct (Z.even (Qfloor x))|..];
    rewrite ?inject_Z_plus; change (inject_Z 1) with 1 in *; split; lra.
Qed.

Lemma round_inject_Z (n : Z) : Py.round (inject_Z n) = n.
Proof.
  unfold Py.round. rewrite Qfloor_Z.
  destruct (Qcompare_spec (inject_Z n - inject_Z n) (1 # 2)) as [He|Hl|Hg];
    [exfalso; lra | reflexivity | exfalso; lra].
Qed.

Lemma round_comp (x y : Q) : x == y -> Py.round x = Py.round y.
Proof.
  intros H. unfold Py.round.
  rewrite (Qfloor_comp _ _ H).
  assert (E : x - inject_Z (Qfloor y) == y - inject_Z (Qfloor y)) by lra.
  now rewrite (Qcompare_comp _ _ E _ _ (Qeq_refl _)).
Qed.

(** An integer lower bound of [x] is one of [round x]. *)
Lemma round_lower (n : Z) (x : Q) : inject_Z n <= x -> (n <= Py.round x)%Z.
Proof.
  intros H. apply Qfloor_resp_le in H. rewrite Qfloor_Z in H.
  pose proof (round_floor_bounds x). lia.
Qed.

Lemma round_lower_inv (n : Z) (x : Q) :
  (n <= Py.round x)%Z -> inject_Z n - 1 <= x.
Proof.
  intros H. pose proof (round_floor_bounds x) as [_ Hb].
  pose proof (Qfloor_le x) as Hf.
  assert (Hz : (n <= Qfloor x + 1)%Z) by lia.
  rewrite Zle_Qle, inject_Z_plus in Hz.
  change (inject_Z 1) with 1 in Hz. lra.
Qed.

End RoundFacts.

(** ** Facts about the floating-point division *)

Section FloatFacts.
Local Open Scope Q_scope.

Lemma two_pos (e : Z) : 0 < 2 ^ e.
Proof. apply Qpower_0_lt. reflexivity. Qed.

Lemma Qabs_num_den (x : Q) : Qabs x = (Z.abs (Qnum x) # Qden x).
Proof. destruct x. reflexivity. Qed.

(** The exponent is a power of two not above [|x|]. *)
Lemma exponent_le (x : Q) : ~ x == 0 -> 2 ^ Binary64.exponent x <= Qabs x.
Proof.
  intros Hx. unfold Binary64.exponent.
  set (n := Z.abs (Qnum x)). set (d := Z.pos (Qden x)).
  destruct (Qle_bool (2 ^ (Z.log2 n - Z.log2 d)) (Qabs x)) eqn:Hb.
  - now apply Qle_bool_iff.
  - assert (Hn : (0 < n)%Z).
    { unfold n. destruct x as [[|p|p] q]; simpl; try lia.
      destruct Hx. reflexivity. }
    assert (Hd : (0 < d)%Z) by (unfold d; lia).
    destruct (Z.log2_spec n Hn) as [Hn1 _].
    destruct (Z.log2_spec d Hd) as [_ Hd2].
    pose proof (Z.log2_nonneg n) as Ln. pose proof (Z.log2_nonneg d) as Ld.
    replace (Z.log2 n - Z.log2 d - 1)%Z with (Z.log2 n - (Z.log2 d + 1))%Z by lia.
    rewrite Qpower_minus by discriminate.
    set (a := (2 ^ Z.log2 n)%Z) in *. set (b := (2 ^ (Z.log2 d + 1))%Z) in *.
    assert (Ea : 2 ^ Z.log2 n == inject_Z a)
      by (symmetry; apply (Zpower_Qpower 2); lia).
    assert (Eb : 2 ^ (Z.log2 d + 1) == inject_Z b)
      by (symmetry; apply (Zpower_Qpower 2); lia).
    rewrite Ea, Eb, Qabs_num_den. fold n.
    assert (Hb0 : (0 < b)%Z) by lia.
    apply Qle_shift_div_r; [unfold Qlt; simpl; lia|].
    unfold Qle, Qmult, inject_Z. simpl. fold d.
    replace (Z.succ (Z.log2 d)) with (Z.log2 d + 1)%Z in Hd2 by lia.
    fold b in Hd2. nia.
Qed.

(** ... and the greatest one. *)
Lemma exponent_lt (x : Q) : ~ x == 0 -> Qabs x < 2 ^ (Binary64.exponent x + 1).
Proof.
  intros Hx. unfold Binary64.exponent.
  set (n := Z.abs (Qnum x)). set (d := Z.pos (Qden x)).
  destruct (Qle_bool (2 ^ (Z.log2 n - Z.log2 d)) (Qabs x)) eqn:Hb.
  - assert (Hn : (0 < n)%Z).
    { unfold n. destruct x as [[|p|p] q]; simpl; try lia.
      destruct Hx. reflexivity. }
    assert (Hd : (0 < d)%Z) by (unfold d; lia).
    destruct (Z.log2_spec n Hn) as [_ Hn2].
    destruct (Z.log2_spec d Hd) as [Hd1 _].
    pose proof (Z.log2_nonneg n) as Ln. pose proof (Z.log2_nonneg d) as Ld.
    replace (Z.log2 n - Z.log2 d + 1)%Z with (Z.log2 n + 1 - Z.log2 d)%Z by lia.
    rewrite Qpower_minus by discriminate.
    replace (Z.succ (Z.log2 n)) with (Z.log2 n + 1)%Z in Hn2 by lia.
    set (a := (2 ^ (Z.log2 n + 1))%Z) in *. set (b := (2 ^ Z.log2 d)%Z) in *.
    assert (Ea : 2 ^ (Z.log2 n + 1) == inject_Z a)
      by (symmetry; apply (Zpower_Qpower 2); lia).
    assert (Eb : 2 ^ Z.log2 d == inject_Z b)
      by (symmetry; apply (Zpower_Qpower 2); lia).
    rewrite Ea, Eb, Qabs_num_den. fold n.
    assert (Hb0 : (0 < b)%Z) by (unfold b; apply Z.pow_pos_nonneg; lia).
    apply Qlt_shift_div_l; [unfold Qlt; simpl; lia|].
    unfold Qlt, Qmult, inject_Z. simpl. fold d. nia.
  - replace (Z.log2 n - Z.log2 d - 1 + 1)%Z with (Z.log2 n - Z.log2 d)%Z by lia.
    apply Qnot_le_lt. intros H. apply Qle_bool_iff in H. congruence.
Qed.

Lemma pow2_52 : 2 ^ 52 == 4503599627370496.
Proof. reflexivity. Qed.

(** Rounding moves a number by at most [2 ^ -53] of its size. *)
Lemma rnd_error (x : Q) :
  Qabs (Binary64.rnd x - x) <= Qabs x * half_ulp.
Proof.
  unfold Binary64.rnd.
  destruct (Qeq_bool x 0) eqn:Hz.
  - apply Qeq_bool_iff in Hz. rewrite Hz. discriminate.
  - assert (Hx : ~ x == 0).
    { intros H. apply Qeq_bool_iff in H. congruence. }
    pose proof (exponent_le x Hx) as HE.
    set (e := (Binary64.exponent x - 52)%Z).
    replace (Binary64.exponent x) with (e + 52)%Z in HE by (unfold e; lia).
    rewrite Qpower_plus in HE by discriminate. rewrite pow2_52 in HE.
    pose proof (two_pos e) as Hp.
    pose proof (round_nearest (x / 2 ^ e)) as Hr.
    set (m := inject_Z (Py.round (x / 2 ^ e))) in *.
    set (p := 2 ^ e) in *.
    assert (E : m * p - x == (m - x / p) * p) by (field; lra).
    rewrite E, Qabs_Qmult, (Qabs_pos p) by lra.
    apply Qle_trans with ((1 # 2) * p).
    + apply Qmult_le_compat_r; [exact Hr | lra].
    + unfold half_ulp. lra.
Qed.

(** A number with a significand of 53 bits is not moved. *)
Lemma rnd_exact (x : Q) (m e' : Z) :
  x == inject_Z m * 2 ^ e' -> (Z.abs m < 2 ^ 53)%Z -> Binary64.rnd x == x.
Proof.
  intros Hx Hm. unfold Binary64.rnd.
  destruct (Qeq_bool x 0) eqn:Hz.
  - apply Qeq_bool_iff in Hz. now rewrite Hz.
  - assert (Hnz : ~ x == 0).
    { intros H. apply Qeq_bool_iff in H. congruence. }
    pose proof (exponent_le x Hnz) as HE.
    set (E := Binary64.exponent x) in *.
    assert (Habs : Qabs x == inject_Z (Z.abs m) * 2 ^ e').
    { rewrite Hx, Qabs_Qmult, (Qabs_pos (2 ^ e')) by (apply Qlt_le_weak, two_pos).
      reflexivity. }
    assert (Hlt : 2 ^ E < 2 ^ (53 + e')).
    { eapply Qle_lt_trans; [exact HE|]. rewrite Habs.
      rewrite Qpower_plus by discriminate.
      apply Qmult_lt_compat_r; [apply two_pos|].
      change (2 ^ 53) with (inject_Z (2 ^ 53)). now rewrite <- Zlt_Qlt. }
    apply Qpower_lt_compat_l_inv in Hlt; [|reflexivity].
    set (t := (e' - (E - 52))%Z).
    assert (Ht : (0 <= t)%Z) by (unfold t; lia).
    assert (Et : inject_Z (m * 2 ^ t) == inject_Z m * (2 ^ e' / 2 ^ (E - 52))).
    { rewrite inject_Z_mult, (Zpower_Qpower 2 t Ht). change (inject_Z 2) with 2.
      unfold t. now rewrite Qpower_minus by discriminate. }
    pose proof (two_pos e') as Hp. pose proof (two_pos (E - 52)) as Hq.
    assert (Hy : x / 2 ^ (E - 52) == inject_Z (m * 2 ^ t)).
    { rewrite Et, Hx. remember (2 ^ e') as p. remember (2 ^ (E - 52)) as q.
      field. lra. }
    rewrite (round_comp _ _ Hy), round_inject_Z, Et, Hx.
    remember (2 ^ e') as p. remember (2 ^ (E - 52)) as q.
    field. lra.
Qed.

(** A number strictly within a half of an integer rounds to it. *)
Lemma round_unique (y : Q) (j : Z) :
  inject_Z j - (1 # 2) < y -> y < inject_Z j + (1 # 2) -> Py.round y = j.
Proof.
  intros Hlo Hhi.
  pose proof (round_nearest y) as Hr. apply Qabs_Qle_condition in Hr as [H1 H2].
  assert (Ha : inject_Z (Py.round y) < inject_Z (j + 1)).
  { rewrite inject_Z_plus. change (inject_Z 1) with 1. lra. }
  assert (Hb : inject_Z (j - 1) < inject_Z (Py.round y)).
  { replace (j - 1)%Z with (j + -1)%Z by lia.
    rewrite inject_Z_plus. change (inject_Z (-1)) with (-1). lra. }
  rewrite <- Zlt_Qlt in Ha, Hb. lia.
Qed.

Lemma rnd_bounds_pos (x : Q) :
  0 <= x ->
  x * (1 - half_ulp) <= Binary64.rnd x /\ Binary64.rnd x <= x * (1 + half_ulp).
Proof.
  intros Hx. pose proof (rnd_error x) as H.
  rewrite (Qabs_pos x Hx) in H. apply Qabs_Qle_condition in H as [H1 H2].
  split; lra.
Qed.

Lemma rnd_bounds_neg (x : Q) :
  x <= 0 ->
  x * (1 + half_ulp) <= Binary64.rnd x /\ Binary64.rnd x <= x * (1 - half_ulp).
Proof.
  intros Hx. pose proof (rnd_error x) as H.
  rewrite (Qabs_neg x Hx) in H. apply Qabs_Qle_condition in H as [H1 H2].
  split; lra.
Qed.

(** The test against -5 on the float is the test on the instants. *)
Lemma float_minutes_cutoff (d : Z) :
  float_minutes d < -5 <-> (d < -300000000)%Z.
Proof.
  unfold float_minutes, Binary64.div.
  change (inject_Z d / 1000000) with (inject_Z d * (1 # 1000000)).
  set (x1 := inject_Z d * (1 # 1000000)).
  set (s := Binary64.rnd x1).
  change (s / 60) with (s * (1 # 60)).
  set (x2 := s * (1 # 60)).
  destruct (Z_lt_le_dec d (-300000000)) as [Hlt|Hge].
  - split; [intros _; exact Hlt | intros _].
    assert (Hd : inject_Z d <= inject_Z (-300000001)) by (rewrite <- Zle_Qle; lia).
    change (inject_Z (-300000001)) with (-300000001) in Hd.
    assert (Hx1 : x1 <= 0) by (unfold x1; lra).
    destruct (rnd_bounds_neg x1 Hx1) as [_ Hs]. fold s in Hs. clearbody s.
    assert (Hx2 : x2 <= 0) by (unfold x2, x1, half_ulp in *; lra).
    destruct (rnd_bounds_neg x2 Hx2) as [_ HF].
    unfold x2, x1, half_ulp in *. lra.
  - split; [|intros; lia]. intros HF. exfalso.
    destruct (Z.eq_dec d (-300000000)%Z) as [->|Hne].
    + vm_compute in HF. discriminate.
    + assert (Hd : inject_Z (-299999999) <= inject_Z d) by (rewrite <- Zle_Qle; lia).
      change (inject_Z (-299999999)) with (-299999999) in Hd.
      destruct (Qlt_le_dec 0 x1) as [Hpos|Hneg].
      * destruct (rnd_bounds_pos x1 (Qlt_le_weak _ _ Hpos)) as [Hs _]. fold s in Hs. clearbody s.
        assert (Hx2 : 0 <= x2) by (unfold x2, x1, half_ulp in *; lra).
        destruct (rnd_bounds_pos x2 Hx2) as [HF' _].
        unfold x2, x1, half_ulp in *. lra.
      * destruct (rnd_bounds_neg x1 Hneg) as [Hs Hs']. fold s in Hs, Hs'. clearbody s.
        assert (Hx2 : x2 <= 0) by (unfold x2, x1, half_ulp in *; lra).
        destruct (rnd_bounds_neg x2 Hx2) as [HF' _].
        unfold x2, x1, half_ulp in *. lra.
Qed.

(** The exact quotient [n / c] lies within a half of its rounding. *)
Lemma round_minutes_bounds (d : Z) :
  let j := Py.round (inject_Z d * (1 # 60000000)) in
  (60000000 * j - 30000000 <= d <= 60000000 * j + 30000000)%Z.
Proof.
  intros j. pose proof (round_nearest (inject_Z d * (1 # 60000000))) as H.
  fold j in H. apply Qabs_Qle_condition in H as [H1 H2].
  assert (Ha : inject_Z (60000000 * j - 30000000) <= inject_Z d).
  { replace (60000000 * j - 30000000)%Z with (60000000 * j + -30000000)%Z by lia.
    rewrite inject_Z_plus, inject_Z_mult.
    change (inject_Z 60000000) with 60000000.
    change (inject_Z (-30000000)) with (-30000000). lra. }
  assert (Hb : inject_Z d <= inject_Z (60000000 * j + 30000000)).
  { rewrite inject_Z_plus, inject_Z_mult.
    change (inject_Z 60000000) with 60000000.
    change (inject_Z 30000000) with 30000000. lra. }
  rewrite <- Zle_Qle in Ha, Hb. lia.
Qed.

(** A whole or half number of minutes is computed exactly. *)
Lemma float_minutes_exact (k : Z) :
  (Z.abs k < 281474976710656)%Z ->
  float_minutes (30000000 * k) == inject_Z k * (1 # 2).
Proof.
  intros Hk. unfold float_minutes, Binary64.div.
  assert (Hs : Binary64.rnd (inject_Z (30000000 * k) / 1000000)
               == inject_Z (30 * k)).
  { assert (E : inject_Z (30000000 * k) / 1000000 == inject_Z (30 * k) * 2 ^ 0).
    { rewrite !inject_Z_mult. change (inject_Z 30000000) with 30000000.
      change (inject_Z 30) with 30. change (2 ^ 0) with 1. field. }
    apply Qeq_trans with (1 := rnd_exact _ (30 * k) 0 E ltac:(change (2 ^ 53)%Z with 9007199254740992%Z; lia)).
    apply Qeq_trans with (1 := E). change (2 ^ 0) with 1. ring. }
  assert (E : Binary64.rnd (inject_Z (30000000 * k) / 1000000) / 60
              == inject_Z k * 2 ^ (-1)).
  { apply Qeq_trans with (inject_Z (30 * k) / 60);
      [apply Qdiv_comp; [exact Hs | reflexivity]|].
    rewrite inject_Z_mult. change (inject_Z 30) with 30.
    change (2 ^ (-1)) with (1 # 2). field. }
  apply Qeq_trans with (1 := rnd_exact _ k (-1) E ltac:(change (2 ^ 53)%Z with 9007199254740992%Z; lia)).
  exact E.
Qed.

(** Within a century the float rounds to the integer the exact quotient
    rounds to. *)
Lemma float_minutes_round (d : Z) :
  (Z.abs d <= century)%Z ->
  Py.round (float_minutes d) = Py.round (inject_Z d * (1 # 60000000)).
Proof.
  intros Hd. unfold century in Hd.
  pose proof (round_minutes_bounds d) as Hj. cbv zeta in Hj.
  remember (Py.round (inject_Z d * (1 # 60000000))) as j eqn:Ej.
  assert (Htie : forall k : Z,
             d = (30000000 * k)%Z -> Py.round (float_minutes d) = j).
  { intros k Ek. rewrite Ej. apply round_comp. rewrite Ek.
    apply Qeq_trans with (1 := float_minutes_exact k ltac:(lia)).
    rewrite inject_Z_mult. change (inject_Z 30000000) with 30000000. ring. }
  destruct (Z.eq_dec d (60000000 * j + 30000000)%Z) as [Ehi|Nhi];
    [|destruct (Z.eq_dec d (60000000 * j - 30000000)%Z) as [Elo|Nlo]].
  - apply (Htie (2 * j + 1)%Z). lia.
  - apply (Htie (2 * j - 1)%Z). lia.
  - clear Htie.
    assert (Ha : inject_Z (60000000 * j + -29999999) <= inject_Z d)
      by (rewrite <- Zle_Qle; lia).
    assert (Hb : inject_Z d <= inject_Z (60000000 * j + 29999999))
      by (rewrite <- Zle_Qle; lia).
    assert (Hc : inject_Z (-3155760000000000) <= inject_Z d)
      by (rewrite <- Zle_Qle; lia).
    assert (He : inject_Z d <= inject_Z 3155760000000000)
      by (rewrite <- Zle_Qle; lia).
    rewrite inject_Z_plus, inject_Z_mult in Ha, Hb.
    change (inject_Z 60000000) with 60000000 in Ha, Hb.
    change (inject_Z (-29999999)) with (-29999999) in Ha.
    change (inject_Z 29999999) with 29999999 in Hb.
    change (inject_Z (-3155760000000000)) with (-3155760000000000) in Hc.
    change (inject_Z 3155760000000000) with 3155760000000000 in He.
    clear Ej Hj Nhi Nlo Hd.
    unfold float_minutes, Binary64.div.
    change (inject_Z d / 1000000) with (inject_Z d * (1 # 1000000)).
    set (x1 := inject_Z d * (1 # 1000000)).
    set (s := Binary64.rnd x1).
    change (s / 60) with (s * (1 # 60)).
    set (x2 := s * (1 # 60)).
    destruct (Qlt_le_dec 0 x1) as [Hpos|Hneg].
    + destruct (rnd_bounds_pos x1 (Qlt_le_weak _ _ Hpos)) as [Hs Hs'].
      fold s in Hs, Hs'. clearbody s.
      assert (Hx2 : 0 <= x2) by (unfold x2, x1, half_ulp in *; lra).
      destruct (rnd_bounds_pos x2 Hx2) as [HF HF'].
      apply round_unique; unfold x2, x1, half_ulp in *; lra.
    + destruct (rnd_bounds_neg x1 Hneg) as [Hs Hs'].
      fold s in Hs, Hs'. clearbody s.
      assert (Hx2 : x2 <= 0) by (unfold x2, x1, half_ulp in *; lra).
      destruct (rnd_bounds_neg x2 Hx2) as [HF HF'].
      apply round_unique; unfold x2, x1, half_ulp in *; lra.
Qed.

(** [delay / 60] for an [int32] delay rounds as the exact quotient. *)
Lemma float_delay_round (d : Z) :
  (Z.abs d <= 2147483648)%Z ->
  Py.round (Binary64.div (inject_Z d) 60) = Py.round (inject_Z d * (1 # 60)).
Proof.
  intros Hd.
  pose proof (round_nearest (inject_Z d * (1 # 60))) as Hr.
  remember (Py.round (inject_Z d * (1 # 60))) as j eqn:Ej.
  apply Qabs_Qle_condition in Hr as [H1 H2].
  assert (Hj : (60 * j + -30 <= d <= 60 * j + 30)%Z).
  { assert (Ha : inject_Z (60 * j + -30) <= inject_Z d).
    { rewrite inject_Z_plus, inject_Z_mult.
      change (inject_Z 60) with 60. change (inject_Z (-30)) with (-30). lra. }
    assert (Hb : inject_Z d <= inject_Z (60 * j + 30)).
    { rewrite inject_Z_plus, inject_Z_mult.
      change (inject_Z 60) with 60. change (inject_Z 30) with 30. lra. }
    rewrite <- Zle_Qle in Ha, Hb. lia. }
  assert (Htie : forall k : Z,
             d = (30 * k)%Z -> Py.round (Binary64.div (inject_Z d) 60) = j).
  { intros k Ek. rewrite Ej. apply round_comp. rewrite Ek. unfold Binary64.div.
    assert (E : inject_Z (30 * k) / 60 == inject_Z k * 2 ^ (-1)).
    { rewrite inject_Z_mult. change (inject_Z 30) with 30.
      change (2 ^ (-1)) with (1 # 2). field. }
    apply Qeq_trans
      with (1 := rnd_exact _ k (-1) E
                   ltac:(change (2 ^ 53)%Z with 9007199254740992%Z; lia)).
    apply Qeq_trans with (1 := E).
    rewrite inject_Z_mult. change (inject_Z 30) with 30.
    change (2 ^ (-1)) with (1 # 2). ring. }
  destruct (Z.eq_dec d (60 * j + 30)%Z) as [Ehi|Nhi];
    [|destruct (Z.eq_dec d (60 * j + -30)%Z) as [Elo|Nlo]].
  - apply (Htie (2 * j + 1)%Z). lia.
  - apply (Htie (2 * j - 1)%Z). lia.
  - clear Htie.
    assert (Ha : inject_Z (60 * j + -29) <= inject_Z d)
      by (rewrite <- Zle_Qle; lia).
    assert (Hb : inject_Z d <= inject_Z (60 * j + 29))
      by (rewrite <- Zle_Qle; lia).
    assert (Hc : inject_Z (-2147483648) <= inject_Z d)
      by (rewrite <- Zle_Qle; lia).
    assert (He : inject_Z d <= inject_Z 2147483648)
      by (rewrite <- Zle_Qle; lia).
    rewrite inject_Z_plus, inject_Z_mult in Ha, Hb.
    change (inject_Z 60) with 60 in Ha, Hb.
    change (inject_Z (-29)) with (-29) in Ha.
    change (inject_Z 29) with 29 in Hb.
    change (inject_Z (-2147483648)) with (-2147483648) in Hc.
    change (inject_Z 2147483648) with 2147483648 in He.
    clear Ej Hj Nhi Nlo Hd H1 H2.
    unfold Binary64.div.
    change (inject_Z d / 60) with (inject_Z d * (1 # 60)).
    set (x := inject_Z d * (1 # 60)).
    destruct (Qlt_le_dec 0 x) as [Hpos|Hneg].
    + destruct (rnd_bounds_pos x (Qlt_le_weak _ _ Hpos)) as [HF HF'].
      apply round_unique; unfold x, half_ulp in *; lra.
    + destruct (rnd_bounds_neg x Hneg) as [HF HF'].
      apply round_unique; unfold x, half_ulp in *; lra.
Qed.

(** The staleness test in terms of the two instants. *)
Lemma minutes_before_cutoff (arrival_time now : Datetime.datetime) :
  minutes_between arrival_time now < -5
  <-> (Datetime.instant_us arrival_time - Datetime.instant_us now
       < -300000000)%Z.
Proof. apply float_minutes_cutoff. Qed.
End FloatFacts.

(** [list.sort]: a sorted, stable rearrangement. *)
Section SortFacts.
Context {A : Type} (le : A -> A -> bool).
Hypothesis le_total : forall x y, le x y = true \/ le y x = true.
Hypothesis le_trans : forall x y z, le x y = true -> le y z = true -> le x z = true.

Let R (x y : A) : Prop := le x y = true.

Lemma insert_perm (x : A) (l : list A) :
  Permutation (Py.insert le x l) (x :: l).
Proof using Type.
  induction l as [|y l IH]; simpl; [reflexivity|].
  destruct (le x y); [reflexivity|].
  rewrite IH. apply perm_swap.
Qed.

Lemma sort_perm (l : list A) : Permutation (Py.sort le l) l.
Proof using Type.
  induction l as [|x l IH]; simpl; [reflexivity|].
  rewrite insert_perm. now constructor.
Qed.

Lemma sort_length (l : list A) : length (Py.sort le l) = length l.
Proof using Type. apply Permutation_length, sort_perm. Qed.

Lemma insert_Forall (P : A -> Prop) (x : A) (l : list A) :
  P x -> Forall P l -> Forall P (Py.insert le x l).
Proof using Type.
  intros Hx. induction 1 as [|y l Hy Hl IH]; simpl.
  - now repeat constructor.
  - destruct (le x y); repeat constructor; assumption.
Qed.

Lemma insert_sorted (x : A) (l : list A) :
  StronglySorted R l -> StronglySorted R (Py.insert le x l).
Proof using le_total le_trans.
  induction 1 as [|y l Hs IH Hall]; simpl.
  - repeat constructor.
  - destruct (le x y) eqn:Hxy.
    + constructor; [now constructor|].
      constructor; [exact Hxy|].
      eapply Forall_impl; [exact Hall|]. intros z Hz. now apply (le_trans x y z).
    + constructor; [exact IH|].
      apply insert_Forall; [|exact Hall].
      destruct (le_total x y) as [H|H]; [congruence|exact H].
Qed.

Lemma sort_sorted (l : list A) : StronglySorted R (Py.sort le l).
Proof using le_total le_trans.
  induction l; simpl; [constructor | now apply insert_sorted].
Qed.

(** An element that is below the whole list stays in front. *)
Lemma insert_front (x : A) (l : list A) :
  Forall (R x) l -> Py.insert le x l = x :: l.
Proof using Type.
  destruct 1 as [|y l Hxy _]; simpl; [reflexivity|].
  unfold R in Hxy. now rewrite Hxy.
Qed.

Lemma sort_of_sorted (l : list A) : StronglySorted R l -> Py.sort le l = l.
Proof using Type.
  induction 1 as [|x l _ IH Hall]; simpl; [reflexivity|].
  rewrite IH. now apply insert_front.
Qed.

Lemma Forall_filter_bool (P : A -> Prop) (p : A -> bool) (l : list A) :
  Forall P l -> Forall P (List.filter p l).
Proof using Type.
  induction 1 as [|y l Hy Hl IH]; simpl; [constructor|].
  destruct (p y); [now constructor | exact IH].
Qed.

Lemma filter_insert (p : A -> bool) (x : A) (l : list A) :
  StronglySorted R l ->
  List.filter p (Py.insert le x l)
  = if p x then Py.insert le x (List.filter p l) else List.filter p l.
Proof using le_trans.
  induction 1 as [|y l Hs IH Hall]; simpl.
  - now destruct (p x).
  - destruct (le x y) eqn:Hxy; simpl.
    + destruct (p x); [|reflexivity].
      symmetry. apply (insert_front x (List.filter p (y :: l))).
      apply Forall_filter_bool. constructor; [exact Hxy|].
      eapply Forall_impl; [exact Hall|]. intros z Hz. now apply (le_trans x y z).
    + rewrite IH. destruct (p y), (p x); simpl; rewrite ?Hxy; reflexivity.
Qed.

(** Stability: sorting commutes with taking any sub-selection. *)
Lemma filter_sort (p : A -> bool) (l : list A) :
  List.filter p (Py.sort le l) = Py.sort le (List.filter p l).
Proof using le_total le_trans.
  induction l as [|x l IH]; simpl; [reflexivity|].
  rewrite filter_insert by apply sort_sorted.
  rewrite IH. now destruct (p x).
Qed.
End SortFacts.

Lemma StronglySorted_weaken {A} (R1 R2 : A -> A -> Prop) (l : list A) :
  (forall x y, R1 x y -> R2 x y) -> StronglySorted R1 l -> StronglySorted R2 l.
Proof.
  intros HR. induction 1 as [|x l _ IH Hall]; constructor; [exact IH|].
  eapply Forall_impl; [exact Hall|]. intros y. apply HR.
Qed.

Lemma StronglySorted_take {A} (R1 : A -> A -> Prop) (n : nat) (l : list A) :
  StronglySorted R1 l -> StronglySorted R1 (take n l).
Proof.
  intros H. revert n. induction H as [|x l _ IH Hall]; intros [|n]; simpl;
    try constructor; [apply IH|].
  now apply Forall_take.
Qed.

Lemma sort_int_sorted {A} (key : A -> Z) (l : list A) :
  StronglySorted (fun x y => key x <= key y) (Py.sort_int key l).
Proof.
  eapply StronglySorted_weaken; [|apply sort_sorted].
  - intros x y H. apply Z.leb_le, H.
  - intros x y. rewrite !Z.leb_le. lia.
  - intros x y z. rewrite !Z.leb_le. lia.
Qed.

Lemma sort_int_stable {A} (key : A -> Z) (p : A -> bool) (l : list A) :
  List.filter p (Py.sort_int key l) = Py.sort_int key (List.filter p l).
Proof.
  apply filter_sort.
  - intros x y. rewrite !Z.leb_le. lia.
  - intros x y z. rewrite !Z.leb_le. lia.
Qed.

Lemma leb_str_total (s t : string) : String.leb s t = true \/ String.leb t s = true.
Proof. apply String.leb_total. Qed.

Lemma leb_str_trans (s t u : string) :
  String.leb s t = true -> String.leb t u = true -> String.leb s u = true.
Proof.
  intros H1 H2. apply Is_true_true.
  apply (transitivity (R := String.le) (y := t)); now apply Is_true_true.
Qed.


Lemma sort_str_stable {A} (key : A -> string) (p : A -> bool) (l : list A) :
  List.filter p (Py.sort_str key l) = Py.sort_str key (List.filter p l).
Proof.
  apply filter_sort.
  - intros x y. apply leb_str_total.
  - intros x y z. apply leb_str_trans.
Qed.

(** ** Running the helpers *)

Lemma tick_0 (w : world) : tick 0 w = w.
Proof. now destruct w. Qed.

Lemma tick_tick (n m : nat) (w : world) : tick n (tick m w) = tick (n + m) w.
Proof. unfold tick. simpl. f_equal. lia. Qed.

Lemma say_nil (w : world) : say [] w = w.
Proof. destruct w. unfold say. simpl. now rewrite app_nil_r. Qed.

Lemma say_say (evs evs' : list event) (w : world) :
  say evs' (say evs w) = say (evs ++ evs') w.
Proof. unfold say. simpl. now rewrite app_assoc. Qed.

Lemma print_run (text : string) (w : world) :
  print text w = (say [Print text] w, inr tt).
Proof. reflexivity. Qed.

Lemma local_tz_run (e : env) (w : world) :
  local_tz e w = (tick 1 w, inr (tz_at (clock e (clock_reads w)))).
Proof.
  unfold local_tz, bind, read_clock, tz_at.
  destruct ((3 <=? _) && _); reflexivity.
Qed.

Lemma local_now_run (e : env) (w : world) :
  local_now e w
  = (tick 2 w,
     inr {| Datetime.instant_us := clock e (S (clock_reads w));
            Datetime.utcoffset := tz_at (clock e (clock_reads w)) |}).
Proof.
  unfold local_now, bind. rewrite local_tz_run. reflexivity.
Qed.

Lemma keep_nonzero (d : Z) : (if negb (d =? 0) then d else 0) = d.
Proof. destruct (Z.eqb_spec d 0); simpl; congruence. Qed.

Lemma stu_time_run (e : env) (stu : GtfsRt.StopTimeUpdate) (w : world) :
  stu_time e stu w
  = match carried_event stu with
    | Some ev =>
        (tick 1 w,
         inr (Some (Datetime.fromtimestamp (GtfsRt.time ev)
                      (tz_at (clock e (clock_reads w)))),
              GtfsRt.delay ev))
    | None => (w, inr (None, 0))
    end.
Proof.
  unfold stu_time, carried_event.
  destruct (negb (GtfsRt.time (GtfsRt.arrival stu) =? 0)).
  - unfold bind. rewrite local_tz_run, keep_nonzero. reflexivity.
  - destruct (negb (GtfsRt.time (GtfsRt.departure stu) =? 0)); [|reflexivity].
    unfold bind. rewrite local_tz_run, keep_nonzero. reflexivity.
Qed.

(** The inner loop body, as a function of the three readings it takes. *)
Lemma stu_body_run (e : env) (a : args) (routes trips : gmap string row)
    (trip_id route_id : string) (stu : GtfsRt.StopTimeUpdate)
    (rt : list rt_arrival) (w : world) :
  stu_body e a routes trips trip_id route_id stu rt w
  = if String.eqb (GtfsRt.stop_id stu) (stop a) then
      match carried_event stu with
      | Some ev =>
          let arrival_time :=
            Datetime.fromtimestamp (GtfsRt.time ev)
              (tz_at (clock e (clock_reads w))) in
          let now :=
            {| Datetime.instant_us := clock e (S (S (clock_reads w)));
               Datetime.utcoffset := tz_at (clock e (S (clock_reads w))) |} in
          let mins := minutes_between arrival_time now in
          (tick 3 w,
           inr (if Py.lt mins (-5) then rt
                else rt ++ [rt_entry routes trips trip_id route_id arrival_time
                              (GtfsRt.delay ev) mins]))
      | None => (w, inr rt)
      end
    else (w, inr rt).
Proof.
  unfold stu_body.
  destruct (String.eqb _ _); [|reflexivity].
  unfold bind at 1. rewrite stu_time_run.
  destruct (carried_event stu) as [ev|]; [|reflexivity].
  unfold bind. rewrite local_now_run. simpl.
  destruct (Py.lt _ _); reflexivity.
Qed.

(** Loops whose body only reads the clock and appends. *)
Lemma for_each_quiet {A S} (l : list A) (body : A -> S -> M S) :
  (forall x s w, exists n s', body x s w = (tick n w, inr s')) ->
  forall s w, exists n s', for_each l body s w = (tick n w, inr s').
Proof.
  intros Hb. induction l as [|x l IH]; intros s w; simpl.
  - exists 0%nat, s. now rewrite tick_0.
  - unfold bind. destruct (Hb x s w) as (n & s1 & ->).
    destruct (IH s1 (tick n w)) as (m & s2 & ->).
    exists (m + n)%nat, s2. now rewrite tick_tick.
Qed.


(** The same when the body may raise: it succeeds on the elements of [l]. *)
Lemma for_each_append_on {A B} (l : list A) (body : A -> list B -> M (list B))
    (g : A -> list B) :
  Forall (fun x => forall s w, body x s w = (w, inr (s ++ g x))) l ->
  forall s w, for_each l body s w = (w, inr (s ++ List.flat_map g l)).
Proof.
  induction 1 as [|x l Hx _ IH]; intros s w; simpl.
  - now rewrite app_nil_r.
  - unfold bind. now rewrite Hx, IH, <- app_assoc.
Qed.

(** Printing loops. *)
Lemma for_each_say {A} (l : list A) (body : A -> unit -> M unit)
    (evs : A -> list event) :
  (forall x w, body x tt w = (say (evs x) w, inr tt)) ->
  forall w, for_each l body tt w = (say (List.flat_map evs l) w, inr tt).
Proof.
  intros Hb. induction l as [|x l IH]; intros w; simpl.
  - now rewrite say_nil.
  - unfold bind. now rewrite Hb, IH, say_say.
Qed.

Lemma for_each_ext {A S} (l : list A) (body1 body2 : A -> S -> M S) :
  (forall x s w, body1 x s w = body2 x s w) ->
  forall s w, for_each l body1 s w = for_each l body2 s w.
Proof.
  intros Hb. induction l as [|x l IH]; intros s w; simpl; [reflexivity|].
  unfold bind. rewrite Hb. destruct (body2 x s w) as [w' [ex|s']]; auto.
Qed.

Lemma print_rt_run (x : rt_arrival) (w : world) :
  print_rt x w = (say (rt_events x) w, inr tt).
Proof.
  unfold print_rt, bind. rewrite !print_run, !say_say. reflexivity.
Qed.

Lemma print_scheduled_run (u : scheduled) (w : world) :
  print_scheduled u w = (say (scheduled_events u) w, inr tt).
Proof. reflexivity. Qed.

Lemma realtime_report_run (rt : list rt_arrival) (w : world) :
  realtime_report rt w
  = (say (Print "Real-time arrivals:" :: List.flat_map rt_events (rt_shown rt)) w,
     inr tt).
Proof.
  unfold realtime_report, bind. rewrite print_run.
  rewrite (for_each_say _ _ rt_events) by (intros; apply print_rt_run).
  now rewrite say_say.
Qed.

(** ** Running the loops of the command *)

Lemma stu_body_quiet (e : env) (a : args) (routes trips : gmap string row)
    (trip_id route_id : string) (stu : GtfsRt.StopTimeUpdate)
    (rt : list rt_arrival) (w : world) :
  exists n rt', stu_body e a routes trips trip_id route_id stu rt w
                = (tick n w, inr rt').
Proof.
  rewrite stu_body_run.
  destruct (String.eqb _ _); [destruct (carried_event stu)|]; simpl;
    try (now exists 0%nat, rt; rewrite tick_0).
  eexists 3%nat, _. reflexivity.
Qed.

Lemma entity_body_quiet (e : env) (a : args) (routes trips : gmap string row)
    (entity : GtfsRt.FeedEntity) (rt : list rt_arrival) (w : world) :
  exists n rt', entity_body e a routes trips entity rt w = (tick n w, inr rt').
Proof.
  unfold entity_body. destruct (filtered_out _ _).
  - exists 0%nat, rt. now rewrite tick_0.
  - apply for_each_quiet. intros. apply stu_body_quiet.
Qed.

(** Collecting the real-time arrivals never raises and prints nothing. *)
Lemma collect_rt_quiet (e : env) (a : args) (routes trips : gmap string row)
    (feed : GtfsRt.FeedMessage) (w : world) :
  exists n rt, collect_rt e a routes trips feed w = (tick n w, inr rt).
Proof. apply for_each_quiet. intros. apply entity_body_quiet. Qed.


Lemma flat_map_filter {A B} (p : B -> bool) (f : A -> list B) (l : list A) :
  List.flat_map (fun x => List.filter p (f x)) l
  = List.filter p (List.flat_map f l).
Proof.
  induction l as [|x l IH]; simpl; [reflexivity|].
  now rewrite List.filter_app, IH.
Qed.

Lemma flat_map_if {A} (p : A -> bool) (l : list A) :
  List.flat_map (fun x => if p x then [x] else []) l = List.filter p l.
Proof.
  induction l as [|x l IH]; simpl; [reflexivity|].
  rewrite IH. now destruct (p x).
Qed.

Lemma getitem_run {V} (d : gmap string V) (k : string) (v : V) (w : world) :
  d !! k = Some v -> getitem d k w = (w, inr v).
Proof. unfold getitem. now intros ->. Qed.

(** The stop times of the stop, when every row has the column. *)
Lemma load_stop_times_run (e : env) (stop_id : string) (w : world) :
  Forall (fun r : row => is_Some (r !! "stop_id")) (_load_csv e "stop_times.txt") ->
  _load_stop_times_for_stop e stop_id w
  = (w, inr (List.filter
               (fun r : row => String.eqb (default "" (r !! "stop_id")) stop_id)
               (_load_csv e "stop_times.txt"))).
Proof.
  intros Hrows. unfold _load_stop_times_for_stop.
  rewrite <- flat_map_if.
  rewrite (for_each_append_on _ _
             (fun r : row =>
                if String.eqb (default "" (r !! "stop_id")) stop_id
                then [r] else [])); [reflexivity|].
  eapply Forall_impl; [exact Hrows|]. intros r [sid Hsid] s w1.
  unfold bind. rewrite (getitem_run _ _ _ _ Hsid), Hsid. simpl.
  destruct (String.eqb sid stop_id); unfold ret; now rewrite ?app_nil_r.
Qed.

(** The fallback loop keeps the candidates later than the current time. *)
Lemma scheduled_loop_run (a : args) (routes trips : gmap string row)
    (current_time : string) (stop_times : list row) (w : world) :
  Forall (fun st : row => is_Some (st !! "trip_id")) stop_times ->
  for_each stop_times (scheduled_body a routes trips current_time) [] w
  = (w, inr (List.filter (fun c => Py.gt (sc_time c) current_time)
               (scheduled_candidates a routes trips stop_times))).
Proof.
  intros Hrows. unfold scheduled_candidates.
  rewrite <- flat_map_filter.
  rewrite (for_each_append_on _ _
             (fun st => List.filter (fun c => Py.gt (sc_time c) current_time)
                          (scheduled_candidate a routes trips st)));
    [reflexivity|].
  eapply Forall_impl; [exact Hrows|]. intros st [tid Htid] s w1.
  unfold scheduled_body, scheduled_candidate, bind.
  rewrite (getitem_run _ _ _ _ Htid), Htid.
  destruct (filtered_out _ _); simpl.
  - unfold ret. now rewrite app_nil_r.
  - destruct (Py.gt _ _); unfold ret; now rewrite ?app_nil_r.
Qed.


(** Until it looks the stop up the command only reads the cache. *)
Lemma cmd_arrivals_loaded (e : env) (a : args) (w : world)
    (stops routes trips : gmap string row) :
  is_Some (gtfs_files e !! "stops.txt") ->
  _load_stops e w = (w, inr stops) ->
  _load_routes e w = (w, inr routes) ->
  _load_trips e w = (w, inr trips) ->
  cmd_arrivals e a w
  = match stops !! stop a with
    | None =>
        (say [ Print ("Stop ID '" +:+ stop a +:+ "' not found in GTFS data.");
               Print "Use 'stops --search <name>' to find stop IDs." ] w,
         inr tt)
    | Some stop_row =>
        (stop_name <- getitem stop_row "stop_name" ;;
         print (String "010" ("=== Arrivals at: " +:+ stop_name +:+ " (ID: "
                  +:+ stop a +:+ ") ===" +:+ String "010" "")) ;;
         feed <- _parse_pb e trip_updates_pb ;;
         rt_arrivals <- collect_rt e a routes trips feed ;;
         match rt_arrivals with
         | _ :: _ => realtime_report rt_arrivals
         | [] => scheduled_fallback e a routes trips
         end) w
    end.
Proof.
  intros [rows Hrows] Hs Hr Ht.
  unfold cmd_arrivals, _ensure_gtfs. rewrite Hrows.
  unfold bind at 1. simpl.
  unfold bind at 1. rewrite Hs.
  unfold bind at 1. rewrite Hr.
  unfold bind at 1. rewrite Ht.
  destruct (stops !! stop a); [reflexivity|].
  unfold bind. rewrite !print_run, say_say. reflexivity.
Qed.

Lemma for_each_same_world {A S} (l : list A) (body : A -> S -> M S) :
  (forall x s w, fst (body x s w) = w) ->
  forall s w, fst (for_each l body s w) = w.
Proof.
  intros Hb. induction l as [|x l IH]; intros s w; simpl; [reflexivity|].
  unfold bind. specialize (Hb x s w).
  destruct (body x s w) as [w1 [ex|s1]]; simpl in Hb; subst w1;
    [reflexivity | apply IH].
Qed.

Lemma load_stop_times_same_world (e : env) (stop_id : string) (w : world) :
  fst (_load_stop_times_for_stop e stop_id w) = w.
Proof.
  apply for_each_same_world. intros r s w1. unfold bind, getitem.
  destruct (r !! "stop_id") as [sid|]; simpl; [|reflexivity].
  now destruct (String.eqb sid stop_id).
Qed.

Lemma scheduled_loop_same_world (a : args) (routes trips : gmap string row)
    (current_time : string) (stop_times : list row) (s : list scheduled)
    (w : world) :
  fst (for_each stop_times (scheduled_body a routes trips current_time) s w) = w.
Proof.
  apply for_each_same_world. intros st s1 w1. unfold scheduled_body, bind, getitem.
  destruct (st !! "trip_id") as [tid|]; simpl; [|reflexivity].
  destruct (filtered_out _ _); [reflexivity|].
  now destruct (Py.gt _ _).
Qed.

(** Whatever the tables hold, the fallback prints its heading and then
    nothing but scheduled lines. *)
Lemma scheduled_fallback_trace (e : env) (a : args)
    (routes trips : gmap string row) (w : world) :
  exists w' r shown,
    scheduled_fallback e a routes trips w = (w', r)
    /\ trace w'
       = trace w
         ++ Print "No real-time data available. Showing scheduled times:"
            :: List.flat_map scheduled_events shown.
Proof.
  unfold scheduled_fallback. unfold bind at 1. rewrite print_run.
  unfold bind at 1.
  pose proof (load_stop_times_same_world e (stop a)
                (say [Print "No real-time data available. Showing scheduled times:"] w))
    as H1.
  destruct (_load_stop_times_for_stop e (stop a) _) as [w1 [ex|stop_times]];
    simpl in H1; subst w1.
  { eexists _, _, []. split; [reflexivity|]. reflexivity. }
  unfold bind at 1. rewrite local_now_run.
  unfold bind at 1.
  match goal with
  | |- context [for_each stop_times (scheduled_body a routes trips ?c) ?s ?w0] =>
      pose proof (scheduled_loop_same_world a routes trips c stop_times s w0) as H2;
      destruct (for_each stop_times (scheduled_body a routes trips c) s w0)
        as [w2 [ex|upcoming]]
  end; simpl in H2; subst w2.
  { eexists _, _, []. split; [reflexivity|]. reflexivity. }
  rewrite (for_each_say _ _ scheduled_events)
    by (intros; apply print_scheduled_run).
  eexists _, _, (scheduled_shown upcoming). split; [reflexivity|].
  simpl. now rewrite <- app_assoc.
Qed.

(** The fallback on well-formed tables: what it prints is the specification's
    selection of the scheduled candidates of the stop, taken at the time of
    day of the reading of the clock. *)
Lemma scheduled_fallback_run (e : env) (a : args)
    (routes trips : gmap string row) (w : world) :
  let rows := _load_csv e "stop_times.txt" in
  let stop_times :=
    List.filter
      (fun r : row => String.eqb (default "" (r !! "stop_id")) (stop a)) rows in
  let current_time :=
    Datetime.strftime_HMS
      {| Datetime.instant_us := clock e (S (clock_reads w));
         Datetime.utcoffset := tz_at (clock e (clock_reads w)) |} in
  Forall (fun r : row => is_Some (r !! "stop_id")) rows ->
  Forall (fun st : row => is_Some (st !! "trip_id")) stop_times ->
  scheduled_fallback e a routes trips w
  = (say (Print "No real-time data available. Showing scheduled times:"
            :: List.flat_map scheduled_events
                 (scheduled_spec current_time
                    (scheduled_candidates a routes trips stop_times)))
       (tick 2 w),
     inr tt).
Proof.
  intros rows stop_times current_time Hrows Htrips.
  unfold scheduled_fallback.
  unfold bind at 1. rewrite print_run.
  unfold bind at 1. rewrite (load_stop_times_run e (stop a) _ Hrows).
  unfold bind at 1. rewrite local_now_run.
  unfold bind at 1. fold rows. fold stop_times.
  rewrite (scheduled_loop_run a routes trips _ stop_times _ Htrips).
  rewrite (for_each_say _ _ scheduled_events)
    by (intros; apply print_scheduled_run).
  unfold scheduled_shown, scheduled_spec. rewrite sort_str_stable.
  f_equal. unfold say, tick. simpl. f_equal. now rewrite <- app_assoc.
Qed.


(** ** The collection as a function of the readings of the clock *)


Lemma stu_body_measured (e : env) (a : args) (routes trips : gmap string row)
    (trip_id route_id : string) (stu : GtfsRt.StopTimeUpdate)
    (rt : list rt_arrival) (w : world) :
  stu_body e a routes trips trip_id route_id stu rt w
  = if relevant_update a stu
    then (tick 3 w,
          inr (rt ++ measured_at routes trips (clock e) (clock_reads w)
                       (trip_id, route_id, stu)))
    else (w, inr rt).
Proof.
  rewrite stu_body_run. unfold relevant_update, measured_at. cbn [fst snd].
  destruct (String.eqb _ _); [|reflexivity]. cbn [andb].
  destruct (carried_event stu) as [ev|].
  - rewrite bool_decide_eq_true_2 by eauto. cbn zeta.
    destruct (Py.lt _ _); [now rewrite app_nil_r | reflexivity].
  - rewrite bool_decide_eq_false_2; [reflexivity|].
    intros [? ?]; discriminate.
Qed.

Section Measured.
Context {U B : Type} (f : nat -> U -> list B).

Lemma measured_cons (k0 : nat) (u : U) (us : list U) :
  concat (imap (fun i v => f (k0 + 3 * i) v) (u :: us))
  = f k0 u ++ concat (imap (fun i v => f (3 + k0 + 3 * i) v) us).
Proof.
  rewrite imap_cons. cbn [concat]. rewrite Nat.mul_0_r, Nat.add_0_r.
  f_equal. f_equal. apply imap_ext. intros i v _. cbn. f_equal. lia.
Qed.

Lemma measured_app (k0 : nat) (us1 us2 : list U) :
  concat (imap (fun i v => f (k0 + 3 * i) v) (us1 ++ us2))
  = concat (imap (fun i v => f (k0 + 3 * i) v) us1)
    ++ concat (imap (fun i v => f (3 * length us1 + k0 + 3 * i) v) us2).
Proof.
  rewrite imap_app, concat_app. f_equal. f_equal.
  apply imap_ext. intros i v _. cbn. f_equal. lia.
Qed.

Lemma measured_middle (k0 : nat) (us1 : list U) (u : U) (us2 : list U) :
  concat (imap (fun i v => f (k0 + 3 * i) v) (us1 ++ u :: us2))
  = concat (imap (fun i v => f (k0 + 3 * i) v) us1)
    ++ f (k0 + 3 * length us1) u
    ++ concat (imap (fun i v => f (3 + (k0 + 3 * length us1) + 3 * i) v) us2).
Proof.
  rewrite measured_app, measured_cons. f_equal. f_equal.
  - f_equal. lia.
  - f_equal. apply imap_ext. intros i v _. cbn. f_equal. lia.
Qed.
End Measured.

Lemma inner_loop_readings (e : env) (a : args) (routes trips : gmap string row)
    (trip_id route_id : string) (stus : list GtfsRt.StopTimeUpdate) :
  forall (rt : list rt_arrival) (w : world),
    let us := (fun stu => (trip_id, route_id, stu))
                <$> List.filter (relevant_update a) stus in
    for_each stus (stu_body e a routes trips trip_id route_id) rt w
    = (tick (3 * length us) w,
       inr (rt ++ concat (imap (fun i u => measured_at routes trips (clock e)
                                             (clock_reads w + 3 * i) u) us))).
Proof.
  induction stus as [|stu stus IH]; intros rt w; cbn zeta.
  - cbn. now rewrite tick_0, app_nil_r.
  - cbn [for_each List.filter]. unfold bind. rewrite stu_body_measured.
    destruct (relevant_update a stu).
    + rewrite IH. cbn zeta. rewrite fmap_cons, measured_cons.
      cbn [clock_reads tick length]. rewrite tick_tick, <- app_assoc.
      f_equal. unfold tick. f_equal. lia.
    + apply IH.
Qed.

Lemma entity_body_readings (e : env) (a : args) (routes trips : gmap string row)
    (entity : GtfsRt.FeedEntity) (rt : list rt_arrival) (w : world) :
  entity_body e a routes trips entity rt w
  = (tick (3 * length (updates_of a entity)) w,
     inr (rt ++ concat (imap (fun i u => measured_at routes trips (clock e)
                                           (clock_reads w + 3 * i) u)
                          (updates_of a entity)))).
Proof.
  unfold entity_body, updates_of. destruct (filtered_out _ _).
  - unfold ret. cbn. now rewrite tick_0, app_nil_r.
  - apply inner_loop_readings.
Qed.

Lemma outer_loop_readings (e : env) (a : args) (routes trips : gmap string row)
    (ents : list GtfsRt.FeedEntity) :
  forall (rt : list rt_arrival) (w : world),
    let us := List.flat_map (updates_of a) ents in
    for_each ents (entity_body e a routes trips) rt w
    = (tick (3 * length us) w,
       inr (rt ++ concat (imap (fun i u => measured_at routes trips (clock e)
                                             (clock_reads w + 3 * i) u) us))).
Proof.
  induction ents as [|entity ents IH]; intros rt w; cbn zeta.
  - cbn. now rewrite tick_0, app_nil_r.
  - cbn [for_each List.flat_map]. unfold bind.
    rewrite entity_body_readings, IH. cbn zeta.
    rewrite measured_app, length_app, tick_tick, <- app_assoc.
    cbn [clock_reads tick].
    f_equal. unfold tick. f_equal. lia.
Qed.

(** Every update the query looks at takes three readings, and is measured
    with its own three. *)
Lemma collect_rt_readings (e : env) (a : args) (routes trips : gmap string row)
    (feed : GtfsRt.FeedMessage) (w : world) :
  collect_rt e a routes trips feed w
  = (tick (3 * length (relevant_updates a feed)) w,
     inr (concat (imap (fun i u => measured_at routes trips (clock e)
                                     (clock_reads w + 3 * i) u)
                    (relevant_updates a feed)))).
Proof. unfold collect_rt. now rewrite outer_loop_readings. Qed.


(** ** The arrivals shown *)

Lemma filter_length_perm {A} (p : A -> bool) (l l' : list A) :
  Permutation l l' -> length (List.filter p l) = length (List.filter p l').
Proof.
  induction 1 as [|x l l' _ IH|x y l|l l' l'' _ IH1 _ IH2]; simpl.
  - reflexivity.
  - destruct (p x); simpl; congruence.
  - destruct (p x), (p y); reflexivity.
  - congruence.
Qed.

Lemma sorted_before {A} (R : A -> A -> Prop) (l1 l2 : list A) (x : A) :
  StronglySorted R (l1 ++ x :: l2) -> Forall (fun y => R y x) l1.
Proof.
  induction l1 as [|y l1 IH]; intros Hs; [constructor|].
  cbn in Hs. apply StronglySorted_inv in Hs as [Hs Hall].
  constructor; [|now apply IH].
  rewrite Forall_forall in Hall. apply Hall.
  apply elem_of_app. right. apply list_elem_of_here.
Qed.

Lemma filter_all_length {A} (p : A -> bool) (l : list A) :
  Forall (fun y => p y = true) l -> length (List.filter p l) = length l.
Proof.
  induction 1 as [|y l Hy _ IH]; simpl; [reflexivity|].
  rewrite Hy. simpl. congruence.
Qed.

(** An arrival is among those shown when fewer than fifteen of the others
    have a [mins_away] not above its own. *)
Lemma shown_when_few_before (x : rt_arrival) (before later : list rt_arrival) :
  (not_after x (before ++ later) < 15)%nat ->
  x ∈ rt_shown (before ++ x :: later).
Proof.
  unfold not_after, rt_shown. intros Hfew.
  set (p := fun y => mins_away y <=? mins_away x) in *.
  pose proof (sort_perm (fun a b => mins_away a <=? mins_away b)
                (before ++ x :: later)) as Hperm.
  pose proof (sort_int_sorted mins_away (before ++ x :: later)) as Hsorted.
  fold (Py.sort_int mins_away (before ++ x :: later)) in Hperm.
  assert (Hin : x ∈ Py.sort_int mins_away (before ++ x :: later)).
  { rewrite Hperm. apply elem_of_app. right. apply list_elem_of_here. }
  apply list_elem_of_split in Hin as (s1 & s2 & Hs).
  rewrite Hs in Hperm, Hsorted |- *.
  apply Permutation_app_inv in Hperm.
  assert (Hlen : (length s1 < 15)%nat).
  { apply sorted_before in Hsorted.
    assert (Hall : Forall (fun y => p y = true) s1).
    { eapply Forall_impl; [exact Hsorted|]. intros y Hy. now apply Z.leb_le. }
    rewrite <- (filter_all_length p s1 Hall).
    eapply Nat.le_lt_trans; [|exact Hfew].
    rewrite <- (filter_length_perm p _ _ Hperm), List.filter_app, length_app.
    lia. }
  apply (list_elem_of_lookup_2 _ (length s1)).
  rewrite lookup_take_lt by exact Hlen.
  now apply list_lookup_middle.
Qed.

Lemma now_line_shown (x : rt_arrival) (l : list rt_arrival) :
  x ∈ l -> eta x = "NOW" -> now_line x ∈ List.flat_map rt_events l.
Proof.
  intros Hin Heta. apply list_elem_of_In, in_flat_map. exists x.
  split; [now apply list_elem_of_In|].
  unfold rt_events, now_line. rewrite Heta. right. left. reflexivity.
Qed.

Lemma round_exact_minutes (d : Z) :
  Py.round (Qmake d 1000000 / 60) = Py.round (inject_Z d * (1 # 60000000)).
Proof. apply round_comp. unfold Qeq, Qdiv, Qmult. simpl. lia. Qed.

(** ** The command sees the clock only through its readings *)

Lemma bind_ext {A B} (c c' : M A) (k k' : A -> M B) :
  (forall w, c w = c' w) -> (forall x w, k x w = k' x w) ->
  forall w, bind c k w = bind c' k' w.
Proof.
  intros Hc Hk w. unfold bind. rewrite Hc.
  destruct (c' w) as [w' [ex|x]]; [reflexivity | apply Hk].
Qed.

Section ClockReadings.
Variable e : env.
Variables c1 c2 : nat -> Z.
Hypothesis same_readings : forall k, c1 k = c2 k.

Lemma local_now_ext (w : world) :
  local_now (with_clock c1 e) w = local_now (with_clock c2 e) w.
Proof using same_readings.
  rewrite !local_now_run. simpl. now rewrite !same_readings.
Qed.

Lemma stu_body_ext (a : args) (routes trips : gmap string row)
    (trip_id route_id : string) (stu : GtfsRt.StopTimeUpdate)
    (rt : list rt_arrival) (w : world) :
  stu_body (with_clock c1 e) a routes trips trip_id route_id stu rt w
  = stu_body (with_clock c2 e) a routes trips trip_id route_id stu rt w.
Proof using same_readings.
  rewrite !stu_body_run. simpl. now rewrite !same_readings.
Qed.

Lemma collect_rt_ext (a : args) (routes trips : gmap string row)
    (feed : GtfsRt.FeedMessage) (w : world) :
  collect_rt (with_clock c1 e) a routes trips feed w
  = collect_rt (with_clock c2 e) a routes trips feed w.
Proof using same_readings.
  apply for_each_ext. intros entity s w1. unfold entity_body.
  destruct (filtered_out _ _); [reflexivity|].
  apply for_each_ext. intros. apply stu_body_ext.
Qed.

Lemma scheduled_fallback_ext (a : args) (routes trips : gmap string row)
    (w : world) :
  scheduled_fallback (with_clock c1 e) a routes trips w
  = scheduled_fallback (with_clock c2 e) a routes trips w.
Proof using same_readings.
  unfold scheduled_fallback.
  apply bind_ext; [reflexivity|]. intros _ w1.
  apply bind_ext; [reflexivity|]. intros stop_times w2.
  apply bind_ext; [apply local_now_ext|]. reflexivity.
Qed.

Lemma cmd_arrivals_ext (a : args) (w : world) :
  cmd_arrivals (with_clock c1 e) a w = cmd_arrivals (with_clock c2 e) a w.
Proof using same_readings.
  unfold cmd_arrivals.
  apply bind_ext; [reflexivity|]. intros ok w1.
  destruct (negb ok); [reflexivity|].
  apply bind_ext; [reflexivity|]. intros stops w2.
  apply bind_ext; [reflexivity|]. intros routes w3.
  apply bind_ext; [reflexivity|]. intros trips w4.
  destruct (stops !! stop a) as [stop_row|]; [|reflexivity].
  apply bind_ext; [reflexivity|]. intros stop_name w5.
  apply bind_ext; [reflexivity|]. intros _ w6.
  apply bind_ext; [reflexivity|]. intros feed w7.
  apply bind_ext; [apply collect_rt_ext|]. intros [|x rt] w8.
  - apply scheduled_fallback_ext.
  - reflexivity.
Qed.
End ClockReadings.

(** ** The staleness filter and the rounding of [mins_away] *)

(** C1, as the claim states it, fails: a prediction 324 seconds old has
    [mins_away] -5.4, which rounds to -5 (not less than -5), and yet the
    command drops it, since it tests the value before rounding. *)
Lemma C1_rounds_to_minus_5_yet_dropped :
  let e := Sample.city Sample.still (Sample.feed_at [-324]) in
  let arrival_time :=
    Datetime.fromtimestamp (1699977600 - 324) (tz_at Sample.ten_oclock) in
  let now := {| Datetime.instant_us := Sample.ten_oclock;
                Datetime.utcoffset := tz_at Sample.ten_oclock |} in
  Py.round (minutes_between arrival_time now) = -5
  /\ stu_body e Sample.query Sample.routes Sample.trips "t1" "1"
       (Sample.arriving (1699977600 - 324) 0) [] world0
     = (tick 3 world0, inr [])
  /\ collect_rt e Sample.query Sample.routes Sample.trips
       (Sample.feed_at [-324]) world0
     = (tick 3 world0, inr []).
Proof. vm_compute. auto. Qed.

(** C1, amended.  For an update at the queried stop that carries a time
    [datetime] represents, with [now] the reading of the clock taken for
    that update and the arrival within a century of it: the update is
    dropped exactly when the unrounded [(arrival - now) / 60] is below -5,
    that is when the arrival lies more than 300 seconds before [now];
    a kept update is appended with [mins_away] the unrounded value rounded
    to a nearest integer, which is then at least -5.  (Beyond a century the
    float quotient of the command may round to another integer than the
    exact one.) *)
Theorem staleness_filter_on_unrounded_minutes
    (e : env) (a : args) (routes trips : gmap string row)
    (trip_id route_id : string) (stu : GtfsRt.StopTimeUpdate)
    (ev : GtfsRt.StopTimeEvent) (rt : list rt_arrival) (w : world) :
  GtfsRt.stop_id stu = stop a ->
  carried_event stu = Some ev ->
  let now := clock e (S (S (clock_reads w))) in
  let mins := (Qmake (GtfsRt.time ev * 1000000 - now) 1000000 / 60)%Q in
  0 < GtfsRt.time ev <= max_timestamp ->
  Z.abs (GtfsRt.time ev * 1000000 - now) <= century ->
  exists rt',
    stu_body e a routes trips trip_id route_id stu rt w = (tick 3 w, inr rt')
    /\ (rt' = rt <-> (mins < -5)%Q)
    /\ ((mins < -5)%Q <-> GtfsRt.time ev * 1000000 - now < -300000000)
    /\ (~ (mins < -5)%Q ->
        exists x, rt' = rt ++ [x]
                  /\ mins_away x = Py.round mins
                  /\ (Qabs (inject_Z (mins_away x) - mins) <= 1 # 2)%Q
                  /\ -5 <= mins_away x).
Proof.
  intros Hstop Hev now mins Hts Hnear.
  rewrite stu_body_run, Hstop, String.eqb_refl, Hev. cbn zeta.
  change (minutes_between _ _)
    with (float_minutes (GtfsRt.time ev * 1000000 - now)).
  assert (Hcut : (mins < -5)%Q <-> GtfsRt.time ev * 1000000 - now < -300000000).
  { unfold mins, Qdiv, Qlt. simpl. lia. }
  assert (Hround : Py.round (float_minutes (GtfsRt.time ev * 1000000 - now))
                   = Py.round mins).
  { rewrite (float_minutes_round _ Hnear). apply round_comp.
    unfold mins, Qeq, Qdiv, Qmult. simpl. lia. }
  eexists. split; [reflexivity|].
  destruct (Py.lt (float_minutes _) (-5)) eqn:Hlt.
  - apply lt_spec, float_minutes_cutoff, Hcut in Hlt.
    repeat split; auto; try apply Hcut; try tauto.
  - assert (Hnot : ~ (mins < -5)%Q).
    { intros H. apply Hcut, float_minutes_cutoff, lt_spec in H. congruence. }
    split; [|split; [exact Hcut|]].
    + split; [|tauto]. intros Heq. exfalso.
      apply (f_equal length) in Heq. rewrite length_app in Heq. simpl in Heq. lia.
    + intros _. eexists. split; [reflexivity|]. simpl.
      rewrite Hround.
      split; [reflexivity|]. split; [apply round_nearest|].
      apply (round_lower (-5)). now apply Qnot_lt_le.
Qed.

Lemma staleness_filter_witness :
  exists rt',
    stu_body (Sample.city Sample.still (Sample.feed_at [-300])) Sample.query
      Sample.routes Sample.trips "t1" "1"
      (Sample.arriving (1699977600 - 300) 0) [] world0
    = (tick 3 world0, inr rt')
    /\ length rt' = 1%nat.
Proof.
  destruct (staleness_filter_on_unrounded_minutes
              (Sample.city Sample.still (Sample.feed_at [-300])) Sample.query
              Sample.routes Sample.trips "t1" "1"
              (Sample.arriving (1699977600 - 300) 0)
              {| GtfsRt.time := 1699977600 - 300; GtfsRt.delay := 0 |}
              [] world0 eq_refl eq_refl)
    as (rt' & Hrun & _ & _ & Hkept).
  - vm_compute. split; [reflexivity | discriminate].
  - vm_compute. discriminate.
  - exists rt'. split; [exact Hrun|].
    destruct Hkept as (x & -> & _); [|reflexivity].
    vm_compute. discriminate.
Defined.

(** C4, as the claim states it, fails: a prediction exactly five minutes old
    has [mins_away] -5 and is shown, labelled NOW. *)
Lemma C4_minus_5_is_shown :
  cmd_arrivals (Sample.city Sample.still (Sample.feed_at [-300])) Sample.query
    world0
  = (say [ Print (String "010" ("=== Arrivals at: Main St (ID: 1234) ==="
                                 +:+ String "010" ""));
           HttpGet trip_updates_pb;
           Print "Real-time arrivals:";
           Print ("  " +:+ bus_mark +:+ " Route 1 " +:+ arrow_mark +:+ " North");
           Print "     09:55 AM (NOW)";
           Print "" ] (tick 3 world0),
     inr tt)
  /\ collect_rt (Sample.city Sample.still (Sample.feed_at [-300])) Sample.query
       Sample.routes Sample.trips (Sample.feed_at [-300]) world0
     = (tick 3 world0,
        inr [ {| rt_route := "1"; rt_headsign := "North";
                 rt_arrival_time := "09:55 AM"; mins_away := -5;
                 delay_mins := 0 |} ]).
Proof. vm_compute. auto. Qed.

(** Nor is an arrival that was kept always shown: behind fifteen arrivals
    five minutes old, one four minutes old is collected and cut off. *)
Example kept_yet_cut_at_fifteen :
  let feed := Sample.feed_at (replicate 15 (-300) ++ [-240]) in
  let e := Sample.city Sample.still feed in
  exists rt_arrivals,
    collect_rt e Sample.query Sample.routes Sample.trips feed world0
    = (tick 48 world0, inr rt_arrivals)
    /\ mins_away <$> rt_arrivals = replicate 15 (-5) ++ [-4]
    /\ mins_away <$> rt_shown rt_arrivals = replicate 15 (-5).
Proof. eexists. split; [vm_compute; reflexivity|]. split; reflexivity. Qed.

(** C4, amended.  The boundary is on the unrounded value.  Take a feed
    whose times [datetime] represents, any update of it that the query
    looks at, and the reading of the clock taken for that update.  When its arrival lies exactly 300 seconds
    before that reading (unrounded -5), or when its unrounded minutes round
    to -4, it is collected, with [mins_away] -5 or -4, between the arrivals
    of the updates before it in the feed and those of the updates after it.
    It is then printed, labelled NOW, provided fewer than fifteen of the
    other arrivals collected have a [mins_away] not above its own; the cut
    at fifteen can drop it otherwise. *)
Theorem staleness_boundary
    (e : env) (a : args) (routes trips : gmap string row)
    (feed : GtfsRt.FeedMessage) (w : world)
    (us1 us2 : list (string * string * GtfsRt.StopTimeUpdate))
    (trip_id route_id : string) (stu : GtfsRt.StopTimeUpdate)
    (ev : GtfsRt.StopTimeEvent) :
  relevant_updates a feed = us1 ++ (trip_id, route_id, stu) :: us2 ->
  carried_event stu = Some ev ->
  let k := (clock_reads w + 3 * length us1)%nat in
  let now := clock e (S (S k)) in
  let d := GtfsRt.time ev * 1000000 - now in
  let mins := (Qmake d 1000000 / 60)%Q in
  let x :=
    rt_entry routes trips trip_id route_id
      (Datetime.fromtimestamp (GtfsRt.time ev) (tz_at (clock e k)))
      (GtfsRt.delay ev) (float_minutes d) in
  let before :=
    concat (imap (fun i u => measured_at routes trips (clock e)
                               (clock_reads w + 3 * i) u) us1) in
  let later :=
    concat (imap (fun i u => measured_at routes trips (clock e)
                               (3 + k + 3 * i) u) us2) in
  times_representable a feed = true ->
  (d = -300000000 \/ Py.round mins = -4) ->
  collect_rt e a routes trips feed w
  = (tick (3 * length (relevant_updates a feed)) w,
     inr (before ++ x :: later))
  /\ mins_away x = Py.round mins
  /\ (d = -300000000 -> mins_away x = -5)
  /\ eta x = "NOW"
  /\ ((not_after x (before ++ later) < 15)%nat ->
      forall w',
        x ∈ rt_shown (before ++ x :: later)
        /\ realtime_report (before ++ x :: later) w'
           = (say (Print "Real-time arrivals:"
                     :: List.flat_map rt_events
                          (rt_shown (before ++ x :: later))) w',
              inr tt)
        /\ now_line x
           ∈ List.flat_map rt_events (rt_shown (before ++ x :: later))).
Proof.
  intros Hsplit Hev k now d mins x before later Hts Hcase.
  assert (Hd : -300000000 <= d <= -210000000).
  { destruct Hcase as [->|Hr]; [lia|].
    unfold mins in Hr. rewrite round_exact_minutes in Hr.
    pose proof (round_minutes_bounds d) as Hb. cbv zeta in Hb.
    rewrite Hr in Hb. lia. }
  assert (Hround : Py.round (float_minutes d) = Py.round mins).
  { unfold mins. rewrite round_exact_minutes.
    apply float_minutes_round. unfold century. lia. }
  assert (Hkeep : Py.lt (float_minutes d) (-5) = false).
  { destruct (Py.lt (float_minutes d) (-5)) eqn:Hlt; [|reflexivity].
    apply lt_spec, float_minutes_cutoff in Hlt. lia. }
  assert (Hfive : d = -300000000 -> mins_away x = -5).
  { intros Hd5. cbn [x rt_entry mins_away]. rewrite Hround.
    unfold mins. rewrite Hd5. reflexivity. }
  assert (Hm : mins_away x = Py.round mins) by exact Hround.
  assert (Heta : eta x = "NOW").
  { unfold eta. rewrite Hm.
    destruct Hcase as [Hd5|Hr].
    - rewrite <- Hm, (Hfive Hd5). reflexivity.
    - rewrite Hr. reflexivity. }
  split; [|split; [exact Hm|split; [exact Hfive|split; [exact Heta|]]]].
  - rewrite collect_rt_readings, Hsplit, measured_middle.
    fold k. fold before. fold later.
    do 3 f_equal. unfold measured_at. cbn [fst snd]. rewrite Hev. cbn zeta.
    change (minutes_between _ _) with (float_minutes d).
    now rewrite Hkeep.
  - intros Hfew w'.
    pose proof (shown_when_few_before x before later Hfew) as Hin.
    split; [exact Hin|]. split; [apply realtime_report_run|].
    now apply now_line_shown.
Qed.

Lemma staleness_boundary_witness :
  let feed := Sample.feed_at [420; -300; -240] in
  let e := Sample.city Sample.still feed in
  let entry (time : string) (m : Z) :=
    {| rt_route := "1"; rt_headsign := "North"; rt_arrival_time := time;
       mins_away := m; delay_mins := 0 |} in
  collect_rt e Sample.query Sample.routes Sample.trips feed world0
  = (tick 9 world0,
     inr [entry "10:07 AM" 7; entry "09:55 AM" (-5); entry "09:56 AM" (-4)])
  /\ Print "     09:55 AM (NOW)"
     ∈ List.flat_map rt_events
         (rt_shown [entry "10:07 AM" 7; entry "09:55 AM" (-5);
                    entry "09:56 AM" (-4)])
  /\ Print "     09:56 AM (NOW)"
     ∈ List.flat_map rt_events
         (rt_shown [entry "10:07 AM" 7; entry "09:55 AM" (-5);
                    entry "09:56 AM" (-4)]).
Proof.
  intros feed e entry.
  pose proof (staleness_boundary e Sample.query Sample.routes Sample.trips
                feed world0
                [("t1", "1", Sample.arriving (1699977600 + 420) 0)]
                [("t1", "1", Sample.arriving (1699977600 + -240) 0)]
                "t1" "1" (Sample.arriving (1699977600 + -300) 0)
                {| GtfsRt.time := 1699977600 + -300; GtfsRt.delay := 0 |}
                eq_refl eq_refl) as H5.
  pose proof (staleness_boundary e Sample.query Sample.routes Sample.trips
                feed world0
                [("t1", "1", Sample.arriving (1699977600 + 420) 0);
                 ("t1", "1", Sample.arriving (1699977600 + -300) 0)]
                []
                "t1" "1" (Sample.arriving (1699977600 + -240) 0)
                {| GtfsRt.time := 1699977600 + -240; GtfsRt.delay := 0 |}
                eq_refl eq_refl) as H4.
  cbv zeta in H5, H4.
  destruct H5 as (Hrun & _ & _ & _ & Hshown5);
    [reflexivity | left; reflexivity |].
  destruct H4 as (_ & _ & _ & _ & Hshown4);
    [reflexivity | right; reflexivity |].
  split; [rewrite Hrun; vm_compute; reflexivity|].
  split.
  - destruct (Hshown5 ltac:(vm_compute; lia) world0) as (_ & _ & Hline).
    vm_compute in Hline. vm_compute. exact Hline.
  - destruct (Hshown4 ltac:(vm_compute; lia) world0) as (_ & _ & Hline).
    vm_compute in Hline. vm_compute. exact Hline.
Defined.

(** ** Which timestamp of an update is used *)



(** ** Which of the two sources is shown *)



(** ** An unknown stop *)

(** C9.  When the cache is present and its tables load, a query for a stop
    that is not among the stops prints the "not found" line and the hint,
    returns normally, and does nothing else: no request is made, the clock
    is not read, no arrival is printed. *)
Theorem unknown_stop_reported_before_fetch
    (e : env) (a : args) (w : world) (stops routes trips : gmap string row) :
  is_Some (gtfs_files e !! "stops.txt") ->
  _load_stops e w = (w, inr stops) ->
  _load_routes e w = (w, inr routes) ->
  _load_trips e w = (w, inr trips) ->
  stops !! stop a = None ->
  exists said,
    cmd_arrivals e a w = (say said w, inr tt)
    /\ said = [ Print ("Stop ID '" +:+ stop a +:+ "' not found in GTFS data.");
                Print "Use 'stops --search <name>' to find stop IDs." ]
    /\ existsb is_http said = false.
Proof.
  intros Hfile Hs Hr Ht Hstop.
  rewrite (cmd_arrivals_loaded e a w stops routes trips Hfile Hs Hr Ht), Hstop.
  eexists. split; [reflexivity|]. split; reflexivity.
Qed.

Lemma unknown_stop_witness :
  cmd_arrivals (Sample.city Sample.still Sample.example_feed)
    {| stop := "9999"; route := None |} world0
  = (say [ Print "Stop ID '9999' not found in GTFS data.";
           Print "Use 'stops --search <name>' to find stop IDs." ] world0,
     inr tt).
Proof.
  destruct (unknown_stop_reported_before_fetch
              (Sample.city Sample.still Sample.example_feed)
              {| stop := "9999"; route := None |} world0
              Sample.stops Sample.routes Sample.trips
              (ex_intro _ Sample.stops_txt eq_refl)
              eq_refl eq_refl eq_refl eq_refl)
    as (said & Hrun & -> & _).
  exact Hrun.
Defined.

(** ** Ranking and truncation *)

(** C5.  The real-time block prints the lines of at most 15 arrivals and the
    fallback shows at most 10 scheduled times: each list shown is the sorted
    list cut at that length. *)
Theorem shown_lengths (rt_arrivals : list rt_arrival)
    (upcoming : list scheduled) (w : world) :
  (length (rt_shown rt_arrivals) <= 15)%nat
  /\ length (rt_shown rt_arrivals) = Nat.min 15 (length rt_arrivals)
  /\ (length (scheduled_shown upcoming) <= 10)%nat
  /\ length (scheduled_shown upcoming) = Nat.min 10 (length upcoming)
  /\ realtime_report rt_arrivals w
     = (say (Print "Real-time arrivals:"
               :: List.flat_map rt_events (rt_shown rt_arrivals)) w,
        inr tt)
  /\ for_each (scheduled_shown upcoming) (fun u _ => print_scheduled u) tt w
     = (say (List.flat_map scheduled_events (scheduled_shown upcoming)) w,
        inr tt).
Proof.
  unfold rt_shown, scheduled_shown, Py.sort_int, Py.sort_str.
  rewrite !length_take, !sort_length.
  repeat split; try lia.
  - apply realtime_report_run.
  - apply for_each_say. intros. apply print_scheduled_run.
Qed.

Lemma same_key_sorted {A} (key : A -> Z) (m : Z) (l : list A) :
  StronglySorted (fun x y => (key x <=? key y) = true)
    (List.filter (fun x => key x =? m) l).
Proof.
  induction l as [|x l IH]; simpl; [constructor|].
  destruct (Z.eqb_spec (key x) m) as [Hx|_]; [|exact IH].
  constructor; [exact IH|].
  apply Forall_forall. intros y Hy. apply list_elem_of_In in Hy.
  apply List.filter_In in Hy as [_ Hy]. apply Z.eqb_eq in Hy.
  apply Z.leb_le. lia.
Qed.

(** C6.  The real-time arrivals shown are the first 15 of the collected ones
    sorted by [mins_away]: that sorted list is a rearrangement of the
    collected list, non-decreasing in [mins_away], in which the arrivals of
    any one [mins_away] keep the order they were collected in. *)
Theorem realtime_order (rt_arrivals : list rt_arrival) :
  let sorted := Py.sort_int mins_away rt_arrivals in
  rt_shown rt_arrivals = take 15 sorted
  /\ Permutation sorted rt_arrivals
  /\ StronglySorted (fun x y => mins_away x <= mins_away y) sorted
  /\ (forall m,
        List.filter (fun x => mins_away x =? m) sorted
        = List.filter (fun x => mins_away x =? m) rt_arrivals)
  /\ StronglySorted (fun x y => mins_away x <= mins_away y)
       (rt_shown rt_arrivals).
Proof.
  intros sorted. split; [reflexivity|].
  split; [apply sort_perm|].
  split; [apply sort_int_sorted|].
  split.
  - intros m. unfold sorted. rewrite sort_int_stable.
    apply sort_of_sorted, same_key_sorted.
  - apply StronglySorted_take, sort_int_sorted.
Qed.

Example realtime_order_ties :
  let entry (r : string) (m : Z) :=
    {| rt_route := r; rt_headsign := ""; rt_arrival_time := "";
       mins_away := m; delay_mins := 0 |} in
  rt_shown [entry "a" 3; entry "b" 1; entry "c" 3; entry "d" 1; entry "e" (-2)]
  = [entry "e" (-2); entry "b" 1; entry "d" 1; entry "a" 3; entry "c" 3].
Proof. reflexivity. Qed.

(** ** The label *)

(** C7.  The second line printed for an arrival shows NOW when [mins_away]
    is at most 0, "1 min" when it is 1, and the number followed by " min"
    otherwise. *)
Theorem eta_label (x : rt_arrival) (w : world) :
  (mins_away x <= 0 -> eta x = "NOW")
  /\ (mins_away x = 1 -> eta x = "1 min")
  /\ (1 < mins_away x -> eta x = Py.str (mins_away x) +:+ " min")
  /\ print_rt x w
     = (say [ Print ("  " +:+ bus_mark +:+ " Route " +:+ rt_route x +:+ " "
                       +:+ arrow_mark +:+ " " +:+ rt_headsign x);
              Print ("     " +:+ rt_arrival_time x +:+ " (" +:+ eta x +:+ ")"
                       +:+ delay_str x);
              Print "" ] w,
        inr tt).
Proof.
  unfold eta. repeat split.
  - intros H. apply Z.leb_le in H. now rewrite H.
  - intros ->. reflexivity.
  - intros H.
    destruct (Z.leb_spec (mins_away x) 0); [lia|].
    destruct (Z.eqb_spec (mins_away x) 1); [lia|]. reflexivity.
  - apply print_rt_run.
Qed.

Lemma eta_label_witness :
  let entry (m : Z) :=
    {| rt_route := "1"; rt_headsign := "North"; rt_arrival_time := "10:07 AM";
       mins_away := m; delay_mins := 0 |} in
  eta (entry 0) = "NOW" /\ eta (entry (-4)) = "NOW" /\ eta (entry 1) = "1 min"
  /\ eta (entry 7) = "7 min".
Proof.
  intros entry.
  pose proof (eta_label (entry 0) world0) as (H0 & _).
  pose proof (eta_label (entry (-4)) world0) as (H4 & _).
  pose proof (eta_label (entry 1) world0) as (_ & H1 & _).
  pose proof (eta_label (entry 7) world0) as (_ & _ & H7 & _).
  split; [|split; [|split]].
  - apply H0. simpl. lia.
  - apply H4. simpl. lia.
  - apply H1. reflexivity.
  - rewrite H7; [reflexivity | simpl; lia].
Defined.

(** ** The instant the arrivals are measured against *)




(** ** The scheduled fallback *)



(** The example of the specification, run through the whole command: no
    real-time arrival, scheduled times 09:45:00, 10:15:00 and 10:05:00, local
    time 10:00:00. *)
Example scheduled_example :
  cmd_arrivals (Sample.city Sample.still (Sample.feed_of [])) Sample.query world0
  = (say [ Print (String "010" ("=== Arrivals at: Main St (ID: 1234) ==="
                                 +:+ String "010" ""));
           HttpGet trip_updates_pb;
           Print "No real-time data available. Showing scheduled times:";
           Print ("  " +:+ bus_mark +:+ " Route 3 " +:+ arrow_mark
                    +:+ " South at 10:05 AM");
           Print ("  " +:+ bus_mark +:+ " Route 1 " +:+ arrow_mark
                    +:+ " North at 10:15 AM") ] (tick 2 world0),
     inr tt).
Proof. vm_compute. reflexivity. Qed.

(** The real-time example of the specification: arrivals at 10:07, 09:58 and
    09:50 seen at 10:00:00. *)
Example realtime_example :
  cmd_arrivals (Sample.city Sample.still Sample.example_feed) Sample.query world0
  = (say [ Print (String "010" ("=== Arrivals at: Main St (ID: 1234) ==="
                                 +:+ String "010" ""));
           HttpGet trip_updates_pb;
           Print "Real-time arrivals:";
           Print ("  " +:+ bus_mark +:+ " Route 3 " +:+ arrow_mark +:+ " South");
           Print "     09:58 AM (NOW)";
           Print "";
           Print ("  " +:+ bus_mark +:+ " Route 1 " +:+ arrow_mark +:+ " North");
           Print "     10:07 AM (7 min)";
           Print "" ] (tick 9 world0),
     inr tt).
Proof. vm_compute. reflexivity. Qed.

(** ** Loading the tables *)

Lemma index_by_run (key : string) (rows : list row) (d0 : gmap string row)
    (w : world) :
  for_each rows (fun r d => k <- getitem r key ;; ret (<[k := r]> d)) d0 w
  = (w, if forallb (has_column key) rows
        then inr (foldl (fun d r => <[default "" (r !! key) := r]> d) d0 rows)
        else inl (KeyError key)).
Proof.
  revert d0. induction rows as [|r rows IH]; intros d0; simpl; [reflexivity|].
  unfold bind at 1, getitem.
  destruct (has_column key r) eqn:Hr; unfold has_column in Hr.
  - apply bool_decide_eq_true_1 in Hr as [k Hk]. rewrite Hk. simpl. apply IH.
  - apply bool_decide_eq_false_1 in Hr.
    destruct (r !! key) as [k|] eqn:Hk; [destruct Hr; eauto|]. reflexivity.
Qed.

Lemma foldl_insert_lookup (key k : string) (rows : list row)
    (d0 : gmap string row) :
  forallb (has_column key) rows = true ->
  foldl (fun d r => <[default "" (r !! key) := r]> d) d0 rows !! k
  = match last_with key k rows with Some r => Some r | None => d0 !! k end.
Proof.
  revert d0. induction rows as [|r rows IH]; intros d0 Hall; simpl; [reflexivity|].
  simpl in Hall. apply andb_prop in Hall as [Hr Hall].
  rewrite IH by exact Hall. unfold last_with.
  apply bool_decide_eq_true_1 in Hr as [k' Hk'].
  rewrite Hk'. simpl.
  destruct (decide (k' = k)) as [->|Hne].
  - rewrite (filter_cons_True (fun r0 : row => r0 !! key = Some k) r rows Hk').
    rewrite lookup_insert_eq.
    destruct (filter _ rows) as [|r' l] eqn:Hf; [reflexivity|].
    rewrite last_cons_cons.
    destruct (last (r' :: l)) eqn:Hl; [reflexivity|].
    rewrite last_cons in Hl. destruct (last l); discriminate.
  - rewrite filter_cons_False by (simpl; rewrite Hk'; congruence).
    now rewrite lookup_insert_ne.
Qed.

Lemma index_by_lookup (key : string) (rows : list row) (d : gmap string row)
    (w w' : world) :
  index_by key rows w = (w', inr d) ->
  w' = w /\ forall k, d !! k = last_with key k rows.
Proof.
  unfold index_by. rewrite index_by_run.
  destruct (forallb (has_column key) rows) eqn:Hall; [|discriminate].
  intros H. injection H as <- <-. split; [reflexivity|].
  intros k. rewrite foldl_insert_lookup by exact Hall.
  rewrite lookup_empty. now destruct (last_with key k rows).
Qed.

Lemma index_by_same_world (key : string) (rows : list row) (w : world) :
  fst (index_by key rows w) = w.
Proof. unfold index_by. now rewrite index_by_run. Qed.

Lemma requests_rt (l : list rt_arrival) :
  requests (List.flat_map rt_events l) = [].
Proof. induction l as [|x l IH]; simpl; [reflexivity | exact IH]. Qed.

Lemma requests_scheduled (l : list scheduled) :
  requests (List.flat_map scheduled_events l) = [].
Proof. induction l as [|x l IH]; simpl; [reflexivity | exact IH]. Qed.

(** A loop whose body keeps an invariant of its state keeps it. *)
Lemma for_each_invariant {A S} (I : S -> Prop) (l : list A)
    (body : A -> S -> M S) :
  (forall x s w w' s', body x s w = (w', inr s') -> I s -> I s') ->
  forall s w w' s', for_each l body s w = (w', inr s') -> I s -> I s'.
Proof.
  intros Hb. induction l as [|x l IH]; intros s w w' s'; simpl.
  - unfold ret. intros H. injection H as _ <-. auto.
  - unfold bind. destruct (body x s w) as [w1 [ex|s1]] eqn:Hx; [discriminate|].
    intros Hrun Hs. eapply IH; [exact Hrun|]. eapply Hb; eauto.
Qed.

(** ** Further properties: the tables *)

(** X1.  Each of the three indexed tables answers a lookup with the last row
    of its file that carries the identifier, and with nothing when no row
    does: of two rows with the same identifier the later one wins. *)
Theorem tables_keep_last_row (e : env) (w : world)
    (stops routes trips : gmap string row) :
  _load_stops e w = (w, inr stops) ->
  _load_routes e w = (w, inr routes) ->
  _load_trips e w = (w, inr trips) ->
  forall k,
    stops !! k = last_with "stop_id" k (_load_csv e "stops.txt")
    /\ routes !! k = last_with "route_id" k (_load_csv e "routes.txt")
    /\ trips !! k = last_with "trip_id" k (_load_csv e "trips.txt").
Proof.
  intros Hs Hr Ht k.
  apply index_by_lookup in Hs as [_ Hs].
  apply index_by_lookup in Hr as [_ Hr].
  apply index_by_lookup in Ht as [_ Ht].
  auto.
Qed.

Lemma tables_keep_last_row_witness :
  Sample.stops !! "1234"
  = last_with "stop_id" "1234"
      (_load_csv (Sample.city Sample.still Sample.example_feed) "stops.txt")
  /\ Sample.routes !! "1234"
     = last_with "route_id" "1234"
         (_load_csv (Sample.city Sample.still Sample.example_feed) "routes.txt")
  /\ Sample.trips !! "1234"
     = last_with "trip_id" "1234"
         (_load_csv (Sample.city Sample.still Sample.example_feed) "trips.txt").
Proof.
  apply (tables_keep_last_row (Sample.city Sample.still Sample.example_feed)
           world0); reflexivity.
Defined.

(** X2.  Loading a table changes nothing in the world, and it fails in one
    way only: with [KeyError] on the identifier column, exactly when some row
    of the file lacks that column.  A file that is absent loads as the empty
    table. *)
Theorem table_load_outcome (e : env) (w : world) (file key : string) :
  let run := index_by key (_load_csv e file) w in
  fst run = w
  /\ (snd run = inl (KeyError key)
      <-> forallb (has_column key) (_load_csv e file) = false)
  /\ (forallb (has_column key) (_load_csv e file) = true
      -> exists d, snd run = inr d)
  /\ (gtfs_files e !! file = None -> run = (w, inr ∅)).
Proof.
  intros run. unfold run, index_by. rewrite index_by_run. simpl.
  split; [reflexivity|]. split; [|split].
  - destruct (forallb _ _); split; congruence.
  - intros ->. eauto.
  - intros Hnone. unfold _load_csv. rewrite Hnone. reflexivity.
Qed.

(** X3.  The stop times of a stop are the rows of [stop_times.txt] whose
    [stop_id] is the stop, in file order; the load fails with [KeyError]
    exactly when some row of the file, of whatever stop, lacks the column. *)
Theorem stop_times_for_stop (e : env) (stop_id : string) (w : world) :
  let rows := _load_csv e "stop_times.txt" in
  _load_stop_times_for_stop e stop_id w
  = (w, if forallb (has_column "stop_id") rows
        then inr (List.filter
                    (fun r : row => String.eqb (default "" (r !! "stop_id")) stop_id)
                    rows)
        else inl (KeyError "stop_id")).
Proof.
  intros rows. unfold _load_stop_times_for_stop. fold rows.
  assert (Hgen : forall acc,
             for_each rows
               (fun r acc =>
                  sid <- getitem r "stop_id" ;;
                  if String.eqb sid stop_id then ret (acc ++ [r]) else ret acc)
               acc w
             = (w, if forallb (has_column "stop_id") rows
                   then inr (acc ++ List.filter
                               (fun r : row =>
                                  String.eqb (default "" (r !! "stop_id")) stop_id)
                               rows)
                   else inl (KeyError "stop_id"))).
  { induction rows as [|r l IH]; intros acc; simpl.
    - now rewrite app_nil_r.
    - unfold bind at 1. unfold bind at 1. unfold getitem at 1.
      destruct (has_column "stop_id" r) eqn:Hr; unfold has_column in Hr.
      + apply bool_decide_eq_true_1 in Hr as [sid Hsid]. rewrite Hsid.
        unfold ret at 1. cbv beta iota. simpl default.
        destruct (String.eqb sid stop_id); unfold ret at 1; rewrite IH;
          simpl andb; destruct (forallb _ l); try reflexivity.
        now rewrite <- app_assoc.
      + apply bool_decide_eq_false_1 in Hr.
        destruct (r !! "stop_id") eqn:Hk; [destruct Hr; eauto|]. reflexivity. }
  apply Hgen.
Qed.

(** ** Further properties: how the command ends *)

(** X4.  Without [stops.txt] in the cache the command prints where it looked
    and how to refresh, and returns normally; it loads nothing, requests
    nothing and does not read the clock. *)
Theorem missing_cache_reported (e : env) (a : args) (w : world) :
  gtfs_files e !! "stops.txt" = None ->
  cmd_arrivals e a w
  = (say [ Print ("GTFS static data not found at " +:+ GTFS_DIR e);
           Print "Run: python3 scripts/capmetro.py refresh-gtfs" ] w,
     inr tt).
Proof.
  intros Hnone. unfold cmd_arrivals, _ensure_gtfs. rewrite Hnone.
  unfold bind. rewrite !print_run, say_say. reflexivity.
Qed.

Lemma missing_cache_witness :
  let e := {| clock := Sample.still; GTFS_DIR := "/home/rider/.capmetro/gtfs";
              gtfs_files := ∅; bindings_installed := true;
              http := fun _ => None |} in
  cmd_arrivals e Sample.query world0
  = (say [ Print "GTFS static data not found at /home/rider/.capmetro/gtfs";
           Print "Run: python3 scripts/capmetro.py refresh-gtfs" ] world0,
     inr tt).
Proof.
  intros e. apply (missing_cache_reported e Sample.query world0). reflexivity.
Defined.

(** The command up to the fetch, for a stop that is found. *)
Lemma cmd_arrivals_found (e : env) (a : args) (w : world)
    (stops routes trips : gmap string row) (stop_row : row)
    (stop_name : string) :
  is_Some (gtfs_files e !! "stops.txt") ->
  _load_stops e w = (w, inr stops) ->
  _load_routes e w = (w, inr routes) ->
  _load_trips e w = (w, inr trips) ->
  stops !! stop a = Some stop_row ->
  stop_row !! "stop_name" = Some stop_name ->
  cmd_arrivals e a w
  = (feed <- _parse_pb e trip_updates_pb ;;
     rt_arrivals <- collect_rt e a routes trips feed ;;
     match rt_arrivals with
     | _ :: _ => realtime_report rt_arrivals
     | [] => scheduled_fallback e a routes trips
     end)
      (say [ Print (String "010" ("=== Arrivals at: " +:+ stop_name
                      +:+ " (ID: " +:+ stop a +:+ ") ===" +:+ String "010" "")) ]
         w).
Proof.
  intros Hfile Hs Hr Ht Hstop Hname.
  rewrite (cmd_arrivals_loaded e a w stops routes trips Hfile Hs Hr Ht), Hstop.
  unfold bind at 1. rewrite (getitem_run _ _ _ _ Hname).
  unfold bind at 1. rewrite print_run. reflexivity.
Qed.

(** X5.  When the protobuf bindings cannot be imported, a query for a known
    stop prints its heading and the two lines of the installation hint and
    exits with status 1: no request is made and no arrival is shown, not
    even from the schedule. *)
Theorem missing_bindings_exit (e : env) (a : args) (w : world)
    (stops routes trips : gmap string row) (stop_row : row)
    (stop_name : string) :
  is_Some (gtfs_files e !! "stops.txt") ->
  _load_stops e w = (w, inr stops) ->
  _load_routes e w = (w, inr routes) ->
  _load_trips e w = (w, inr trips) ->
  stops !! stop a = Some stop_row ->
  stop_row !! "stop_name" = Some stop_name ->
  bindings_installed e = false ->
  cmd_arrivals e a w
  = (say [ Print (String "010" ("=== Arrivals at: " +:+ stop_name
                    +:+ " (ID: " +:+ stop a +:+ ") ===" +:+ String "010" ""));
           Print "ERROR: gtfs-realtime-bindings not installed.";
           Print "Run: pip3 install gtfs-realtime-bindings requests protobuf" ]
       w,
     inl (SystemExit 1)).
Proof.
  intros Hfile Hs Hr Ht Hstop Hname Hbind.
  rewrite (cmd_arrivals_found e a w stops routes trips stop_row stop_name)
    by assumption.
  unfold bind at 1, _parse_pb. rewrite Hbind.
  unfold bind, raise. rewrite !print_run, !say_say. reflexivity.
Qed.

Lemma missing_bindings_witness :
  let e := {| clock := Sample.still; GTFS_DIR := "/home/rider/.capmetro/gtfs";
              gtfs_files :=
                gtfs_files (Sample.city Sample.still Sample.example_feed);
              bindings_installed := false;
              http := fun _ => Some Sample.example_feed |} in
  cmd_arrivals e Sample.query world0
  = (say [ Print (String "010" ("=== Arrivals at: " +:+ "Main St"
                    +:+ " (ID: " +:+ "1234" +:+ ") ===" +:+ String "010" ""));
           Print "ERROR: gtfs-realtime-bindings not installed.";
           Print "Run: pip3 install gtfs-realtime-bindings requests protobuf" ]
       world0,
     inl (SystemExit 1)).
Proof.
  intros e.
  apply (missing_bindings_exit e Sample.query world0 Sample.stops Sample.routes
           Sample.trips
           (Sample.mkrow [("stop_id", "1234"); ("stop_name", "Main St")])
           "Main St");
    try reflexivity.
  exists Sample.stops_txt. reflexivity.
Defined.

(** X6.  When the request for the trip updates fails, the command stops with
    that error right after its heading: the failure is not turned into the
    scheduled fallback, and nothing more is printed. *)
Theorem failed_fetch_aborts (e : env) (a : args) (w : world)
    (stops routes trips : gmap string row) (stop_row : row)
    (stop_name : string) :
  is_Some (gtfs_files e !! "stops.txt") ->
  _load_stops e w = (w, inr stops) ->
  _load_routes e w = (w, inr routes) ->
  _load_trips e w = (w, inr trips) ->
  stops !! stop a = Some stop_row ->
  stop_row !! "stop_name" = Some stop_name ->
  bindings_installed e = true ->
  http e trip_updates_pb = None ->
  cmd_arrivals e a w
  = (say [ Print (String "010" ("=== Arrivals at: " +:+ stop_name
                    +:+ " (ID: " +:+ stop a +:+ ") ===" +:+ String "010" ""));
           HttpGet trip_updates_pb ] w,
     inl RequestError).
Proof.
  intros Hfile Hs Hr Ht Hstop Hname Hbind Hhttp.
  rewrite (cmd_arrivals_found e a w stops routes trips stop_row stop_name)
    by assumption.
  unfold bind at 1, _parse_pb. rewrite Hbind, Hhttp.
  unfold bind, raise, emit, say. simpl. now rewrite <- app_assoc.
Qed.

Lemma failed_fetch_witness :
  let e := {| clock := Sample.still; GTFS_DIR := "/home/rider/.capmetro/gtfs";
              gtfs_files :=
                gtfs_files (Sample.city Sample.still Sample.example_feed);
              bindings_installed := true;
              http := fun _ => None |} in
  cmd_arrivals e Sample.query world0
  = (say [ Print (String "010" ("=== Arrivals at: " +:+ "Main St"
                    +:+ " (ID: " +:+ "1234" +:+ ") ===" +:+ String "010" ""));
           HttpGet trip_updates_pb ] world0,
     inl RequestError).
Proof.
  intros e.
  apply (failed_fetch_aborts e Sample.query world0 Sample.stops Sample.routes
           Sample.trips
           (Sample.mkrow [("stop_id", "1234"); ("stop_name", "Main St")])
           "Main St");
    try reflexivity.
  exists Sample.stops_txt. reflexivity.
Defined.

Lemma requests_app (evs evs' : list event) :
  requests (evs ++ evs') = requests evs ++ requests evs'.
Proof. apply List.filter_app. Qed.

(** From the fetch onwards. *)
Lemma fetch_and_report_requests (e : env) (a : args)
    (routes trips : gmap string row) (w : world) :
  exists evs,
    trace (fst ((feed <- _parse_pb e trip_updates_pb ;;
                 rt_arrivals <- collect_rt e a routes trips feed ;;
                 match rt_arrivals with
                 | _ :: _ => realtime_report rt_arrivals
                 | [] => scheduled_fallback e a routes trips
                 end) w))
    = trace w ++ evs
    /\ (requests evs = [] \/ requests evs = [HttpGet trip_updates_pb]).
Proof.
  unfold bind at 1, _parse_pb.
  destruct (bindings_installed e).
  - unfold bind at 1, emit.
    destruct (http e trip_updates_pb) as [feed|].
    + unfold ret.
      match goal with
      | |- context [bind _ _ ?w0] =>
          destruct (collect_rt_quiet e a routes trips feed w0) as (n & rt & Hrun);
          unfold bind; rewrite Hrun
      end.
      destruct rt as [|x rt].
      * match goal with
        | |- context [scheduled_fallback e a routes trips ?w0] =>
            destruct (scheduled_fallback_trace e a routes trips w0)
              as (w' & r & shown & Hrun' & Htrace)
        end.
        rewrite Hrun'. simpl fst. rewrite Htrace. simpl trace.
        rewrite <- app_assoc. eexists. split; [reflexivity|].
        right. unfold requests. simpl. f_equal. apply requests_scheduled.
      * rewrite realtime_report_run. simpl.
        rewrite <- app_assoc. eexists. split; [reflexivity|].
        right. unfold requests. simpl. f_equal. apply requests_rt.
    + unfold raise. simpl. eexists. split; [reflexivity|]. now right.
  - unfold bind, raise. rewrite !print_run, say_say. simpl.
    eexists. split; [reflexivity|]. now left.
Qed.

(** X7.  Whatever the cache, the query and the network hold, a run of the
    command makes at most one request, and that one for the trip updates. *)
Theorem at_most_one_request (e : env) (a : args) (w : world) :
  exists evs,
    trace (fst (cmd_arrivals e a w)) = trace w ++ evs
    /\ (requests evs = [] \/ requests evs = [HttpGet trip_updates_pb]).
Proof.
  unfold cmd_arrivals, _ensure_gtfs.
  destruct (gtfs_files e !! "stops.txt") as [rows|].
  2:{ unfold bind. rewrite !print_run, say_say. simpl.
      eexists. split; [reflexivity|]. now left. }
  unfold bind at 1, ret at 1. cbv beta iota.
  change (negb true) with false. cbv beta iota.
  assert (Hnil : exists evs, trace w = trace w ++ evs
                   /\ (requests evs = [] \/ requests evs = [HttpGet trip_updates_pb])).
  { exists []. rewrite app_nil_r. split; [reflexivity | now left]. }
  unfold bind at 1.
  pose proof (index_by_same_world "stop_id" (_load_csv e "stops.txt") w) as Hs.
  unfold _load_stops. destruct (index_by "stop_id" _ w) as [w1 [ex|stops]];
    simpl in Hs; subst w1; [exact Hnil|].
  unfold bind at 1.
  pose proof (index_by_same_world "route_id" (_load_csv e "routes.txt") w) as Hr.
  unfold _load_routes. destruct (index_by "route_id" _ w) as [w1 [ex|routes]];
    simpl in Hr; subst w1; [exact Hnil|].
  unfold bind at 1.
  pose proof (index_by_same_world "trip_id" (_load_csv e "trips.txt") w) as Ht.
  unfold _load_trips. destruct (index_by "trip_id" _ w) as [w1 [ex|trips]];
    simpl in Ht; subst w1; [exact Hnil|].
  destruct (stops !! stop a) as [stop_row|].
  2:{ unfold bind. rewrite !print_run, say_say. simpl.
      eexists. split; [reflexivity|]. now left. }
  unfold bind at 1, getitem.
  destruct (stop_row !! "stop_name") as [stop_name|]; [|exact Hnil].
  unfold ret at 1. unfold bind at 1. rewrite print_run.
  match goal with
  | |- context [fst (?c (say ?h w))] =>
      destruct (fetch_and_report_requests e a routes trips (say h w))
        as (evs & Htrace & Hreq)
  end.
  rewrite Htrace. simpl trace. rewrite <- app_assoc.
  eexists. split; [reflexivity|]. exact Hreq.
Qed.

(** ** Further properties: what is collected from the feed *)

Lemma sort_Forall {A} (le : A -> A -> bool) (P : A -> Prop) (l : list A) :
  Forall P l -> Forall P (Py.sort le l).
Proof.
  induction 1 as [|x l Hx _ IH]; simpl; [constructor|].
  now apply insert_Forall.
Qed.

Lemma stu_body_adds (e : env) (a : args) (routes trips : gmap string row)
    (trip_id route_id : string) (stu : GtfsRt.StopTimeUpdate)
    (rt : list rt_arrival) (w : world) :
  exists n extra,
    stu_body e a routes trips trip_id route_id stu rt w
    = (tick n w, inr (rt ++ extra))
    /\ Forall (fun x => -5 <= mins_away x
                        /\ rt_route x = route_label routes route_id) extra.
Proof.
  rewrite stu_body_run.
  destruct (String.eqb _ _); [destruct (carried_event stu) as [ev|]|];
    try (exists 0%nat, []; rewrite tick_0, app_nil_r; split; [reflexivity|constructor]).
  cbn zeta. destruct (Py.lt _ _) eqn:Hlt.
  - exists 3%nat, []. rewrite app_nil_r. split; [reflexivity|constructor].
  - eexists 3%nat, [_]. split; [reflexivity|].
    constructor; [|constructor]. split; [|reflexivity].
    simpl. apply (round_lower (-5)). apply lt_false. exact Hlt.
Qed.

Lemma entity_body_adds (e : env) (a : args) (routes trips : gmap string row)
    (entity : GtfsRt.FeedEntity) (rt : list rt_arrival) (w : world) :
  exists n extra,
    entity_body e a routes trips entity rt w = (tick n w, inr (rt ++ extra))
    /\ Forall (fun x => -5 <= mins_away x
                        /\ (forall f, route a = Some f -> f <> "" ->
                            rt_route x = route_label routes f)) extra.
Proof.
  unfold entity_body.
  destruct (filtered_out _ _) eqn:Hf.
  { exists 0%nat, []. rewrite tick_0, app_nil_r. split; [reflexivity|constructor]. }
  assert (Hroute : forall f, route a = Some f -> f <> "" ->
                     GtfsRt.route_id (GtfsRt.trip (GtfsRt.trip_update entity)) = f).
  { intros f Hsome Hne. unfold filtered_out in Hf. rewrite Hsome in Hf.
    destruct f as [|c f]; [congruence|]. simpl in Hf.
    apply negb_false_iff, String.eqb_eq in Hf. exact Hf. }
  revert rt w.
  induction (GtfsRt.stop_time_update (GtfsRt.trip_update entity)) as [|stu l IH];
    intros rt w; simpl.
  { exists 0%nat, []. rewrite tick_0, app_nil_r. split; [reflexivity|constructor]. }
  unfold bind.
  destruct (stu_body_adds e a routes trips
              (GtfsRt.trip_id (GtfsRt.trip (GtfsRt.trip_update entity)))
              (GtfsRt.route_id (GtfsRt.trip (GtfsRt.trip_update entity)))
              stu rt w) as (n1 & x1 & -> & H1).
  destruct (IH (rt ++ x1) (tick n1 w)) as (n2 & x2 & -> & H2).
  exists (n2 + n1)%nat, (x1 ++ x2). rewrite tick_tick, app_assoc.
  split; [reflexivity|]. apply Forall_app. split; [|exact H2].
  eapply Forall_impl; [exact H1|]. intros x [Hm Hr]. split; [exact Hm|].
  intros f Hsome Hne. rewrite Hr. now rewrite (Hroute f Hsome Hne).
Qed.

Lemma collect_rt_adds (e : env) (a : args) (routes trips : gmap string row)
    (feed : GtfsRt.FeedMessage) (w : world) :
  exists n rt,
    collect_rt e a routes trips feed w = (tick n w, inr rt)
    /\ Forall (fun x => -5 <= mins_away x
                        /\ (forall f, route a = Some f -> f <> "" ->
                            rt_route x = route_label routes f)) rt.
Proof.
  unfold collect_rt.
  assert (Hgen : forall l rt0 w0,
             exists n extra,
               for_each l (entity_body e a routes trips) rt0 w0
               = (tick n w0, inr (rt0 ++ extra))
               /\ Forall (fun x => -5 <= mins_away x
                                   /\ (forall f, route a = Some f -> f <> "" ->
                                       rt_route x = route_label routes f)) extra).
  { induction l as [|entity l IH]; intros rt0 w0; simpl.
    - exists 0%nat, []. rewrite tick_0, app_nil_r. split; [reflexivity|constructor].
    - unfold bind.
      destruct (entity_body_adds e a routes trips entity rt0 w0)
        as (n1 & x1 & -> & H1).
      destruct (IH (rt0 ++ x1) (tick n1 w0)) as (n2 & x2 & -> & H2).
      exists (n2 + n1)%nat, (x1 ++ x2). rewrite tick_tick, app_assoc.
      split; [reflexivity|]. apply Forall_app. now split. }
  destruct (Hgen (GtfsRt.entity feed) [] w) as (n & extra & Hrun & Hall).
  exists n, extra. split; [exact Hrun | exact Hall].
Qed.

(** X8.  Whatever the clock, collecting the real-time arrivals from a feed
    whose times [datetime] represents returns normally, prints nothing, and
    no arrival collected, hence none shown, has [mins_away] below -5. *)
Theorem collected_never_stale (e : env) (a : args)
    (routes trips : gmap string row) (feed : GtfsRt.FeedMessage) (w : world) :
  times_representable a feed = true ->
  exists n rt_arrivals,
    collect_rt e a routes trips feed w = (tick n w, inr rt_arrivals)
    /\ Forall (fun x => -5 <= mins_away x) rt_arrivals
    /\ Forall (fun x => -5 <= mins_away x) (rt_shown rt_arrivals).
Proof.
  intros _.
  destruct (collect_rt_adds e a routes trips feed w) as (n & rt & Hrun & Hall).
  assert (Hm : Forall (fun x => -5 <= mins_away x) rt).
  { eapply Forall_impl; [exact Hall|]. now intros x [Hx _]. }
  exists n, rt. split; [exact Hrun|]. split; [exact Hm|].
  unfold rt_shown, Py.sort_int. apply Forall_take, sort_Forall, Hm.
Qed.

Lemma collected_never_stale_witness :
  exists n rt_arrivals,
    collect_rt (Sample.city Sample.still Sample.example_feed) Sample.query
      Sample.routes Sample.trips Sample.example_feed world0
    = (tick n world0, inr rt_arrivals)
    /\ Forall (fun x => -5 <= mins_away x) rt_arrivals
    /\ Forall (fun x => -5 <= mins_away x) (rt_shown rt_arrivals).
Proof.
  apply (collected_never_stale (Sample.city Sample.still Sample.example_feed)
           Sample.query Sample.routes Sample.trips Sample.example_feed world0).
  reflexivity.
Defined.

(** X9.  With a route asked for, every real-time arrival collected from a
    feed whose times [datetime] represents, and every scheduled time kept by
    the fallback loop, carries the label of that route. *)
Theorem route_filter_labels (e : env) (a : args) (f : string)
    (routes trips : gmap string row) (feed : GtfsRt.FeedMessage)
    (current_time : string) (stop_times : list row) (w : world) :
  route a = Some f -> f <> "" ->
  times_representable a feed = true ->
  (exists n rt_arrivals,
      collect_rt e a routes trips feed w = (tick n w, inr rt_arrivals)
      /\ Forall (fun x => rt_route x = route_label routes f) rt_arrivals)
  /\ (forall w' upcoming,
        for_each stop_times (scheduled_body a routes trips current_time) [] w
        = (w', inr upcoming) ->
        Forall (fun u => sc_route u = route_label routes f) upcoming).
Proof.
  intros Hsome Hne _. split.
  - destruct (collect_rt_adds e a routes trips feed w) as (n & rt & Hrun & Hall).
    exists n, rt. split; [exact Hrun|].
    eapply Forall_impl; [exact Hall|]. intros x [_ Hx]. now apply Hx.
  - intros w' upcoming Hrun.
    eapply (for_each_invariant
              (fun s => Forall (fun u => sc_route u = route_label routes f) s));
      [|exact Hrun|constructor].
    intros st s w1 w2 s' Hbody Hs. unfold scheduled_body, bind, getitem in Hbody.
    destruct (st !! "trip_id") as [tid|]; [|discriminate]. simpl in Hbody.
    destruct (filtered_out _ _) eqn:Hf.
    { injection Hbody as _ <-. exact Hs. }
    destruct (Py.gt _ _).
    + injection Hbody as _ <-. apply Forall_app. split; [exact Hs|].
      constructor; [|constructor]. simpl.
      unfold filtered_out in Hf. rewrite Hsome in Hf.
      destruct f as [|c f]; [congruence|]. simpl in Hf.
      apply negb_false_iff, String.eqb_eq in Hf. now rewrite Hf.
    + injection Hbody as _ <-. exact Hs.
Qed.

Lemma route_filter_labels_witness :
  let a := {| stop := "1234"; route := Some "3" |} in
  exists n rt_arrivals,
    collect_rt (Sample.city Sample.still Sample.example_feed) a Sample.routes
      Sample.trips Sample.example_feed world0
    = (tick n world0, inr rt_arrivals)
    /\ Forall (fun x => rt_route x = route_label Sample.routes "3") rt_arrivals.
Proof.
  intros a.
  apply (route_filter_labels (Sample.city Sample.still Sample.example_feed) a
           "3" Sample.routes Sample.trips Sample.example_feed "10:00:00"
           Sample.stop_times_txt world0 eq_refl);
    [discriminate | reflexivity].
Defined.

Lemma for_each_app {A S} (l1 l2 : list A) (body : A -> S -> M S) (s : S)
    (w : world) :
  for_each (l1 ++ l2) body s w
  = (s' <- for_each l1 body s ;; for_each l2 body s') w.
Proof.
  revert s w. induction l1 as [|x l1 IH]; intros s w; simpl; [reflexivity|].
  unfold bind. destruct (body x s w) as [w1 [ex|s1]]; [reflexivity|].
  rewrite IH. reflexivity.
Qed.

Lemma for_each_filter {A S} (p : A -> bool) (l : list A)
    (body : A -> S -> M S) :
  (forall x s w, p x = false -> body x s w = (w, inr s)) ->
  forall s w, for_each l body s w = for_each (List.filter p l) body s w.
Proof.
  intros Hskip. induction l as [|x l IH]; intros s w; simpl; [reflexivity|].
  destruct (p x) eqn:Hp; simpl.
  - unfold bind. destruct (body x s w) as [w1 [ex|s1]]; [reflexivity | apply IH].
  - unfold bind. rewrite (Hskip x s w Hp). apply IH.
Qed.

Lemma stu_body_irrelevant (e : env) (a : args) (routes trips : gmap string row)
    (trip_id route_id : string) (stu : GtfsRt.StopTimeUpdate)
    (rt : list rt_arrival) (w : world) :
  relevant_update a stu = false ->
  stu_body e a routes trips trip_id route_id stu rt w = (w, inr rt).
Proof.
  unfold relevant_update. intros H. rewrite stu_body_run.
  destruct (String.eqb _ _); [|reflexivity]. simpl in H.
  apply bool_decide_eq_false_1 in H.
  destruct (carried_event stu); [destruct H; eauto | reflexivity].
Qed.

Lemma stu_body_relevant (e : env) (a : args) (routes trips : gmap string row)
    (trip_id route_id : string) (stu : GtfsRt.StopTimeUpdate)
    (rt : list rt_arrival) (w : world) :
  relevant_update a stu = true ->
  exists extra,
    stu_body e a routes trips trip_id route_id stu rt w
    = (tick 3 w, inr (rt ++ extra))
    /\ (length extra <= 1)%nat.
Proof.
  unfold relevant_update. intros H. apply andb_prop in H as [Hs Hc].
  apply bool_decide_eq_true_1 in Hc as [ev Hev].
  rewrite stu_body_run, Hs, Hev. cbn zeta.
  destruct (Py.lt _ _).
  - exists []. rewrite app_nil_r. split; [reflexivity | simpl; lia].
  - eexists [_]. split; [reflexivity | simpl; lia].
Qed.

Lemma relevant_updates_run (e : env) (a : args) (routes trips : gmap string row)
    (trip_id route_id : string) (l : list GtfsRt.StopTimeUpdate) :
  Forall (fun stu => relevant_update a stu = true) l ->
  forall rt w,
    exists extra,
      for_each l (stu_body e a routes trips trip_id route_id) rt w
      = (tick (3 * length l) w, inr (rt ++ extra))
      /\ (length extra <= length l)%nat.
Proof.
  induction 1 as [|stu l Hstu _ IH]; intros rt w.
  - exists []. simpl. rewrite tick_0, app_nil_r. split; [reflexivity | lia].
  - simpl for_each. unfold bind.
    destruct (stu_body_relevant e a routes trips trip_id route_id stu rt w Hstu)
      as (x1 & -> & H1).
    destruct (IH (rt ++ x1) (tick 3 w)) as (x2 & -> & H2).
    exists (x1 ++ x2). rewrite tick_tick, app_assoc, length_app.
    split; [|simpl; lia].
    f_equal. unfold tick. f_equal. simpl. lia.
Qed.

Lemma entity_body_relevant (e : env) (a : args) (routes trips : gmap string row)
    (entity : GtfsRt.FeedEntity) (rt : list rt_arrival) (w : world) :
  entity_body e a routes trips entity rt w
  = for_each (relevant_entity a entity) (entity_body e a routes trips) rt w.
Proof.
  unfold relevant_entity.
  destruct (filtered_out _ _) eqn:Hf.
  - unfold entity_body. now rewrite Hf.
  - simpl for_each. unfold bind, entity_body at 2.
    cbn [GtfsRt.trip_update GtfsRt.trip GtfsRt.stop_time_update].
    rewrite Hf.
    rewrite <- for_each_filter by (intros; now apply stu_body_irrelevant).
    unfold entity_body. rewrite Hf.
    destruct (for_each _ _ rt w) as [w1 [ex|s1]]; reflexivity.
Qed.

Lemma collect_relevant_gen (e : env) (a : args) (routes trips : gmap string row)
    (l : list GtfsRt.FeedEntity) (rt : list rt_arrival) (w : world) :
  for_each l (entity_body e a routes trips) rt w
  = for_each (List.flat_map (relevant_entity a) l)
      (entity_body e a routes trips) rt w.
Proof.
  revert rt w. induction l as [|entity l IH]; intros rt w; simpl; [reflexivity|].
  rewrite for_each_app. unfold bind.
  rewrite <- entity_body_relevant.
  destruct (entity_body e a routes trips entity rt w) as [w1 [ex|s1]];
    [reflexivity | apply IH].
Qed.

Lemma relevant_entities_run (e : env) (a : args) (routes trips : gmap string row)
    (l : list GtfsRt.FeedEntity) :
  forall rt w,
    exists extra,
      for_each (List.flat_map (relevant_entity a) l)
        (entity_body e a routes trips) rt w
      = (tick (3 * sum_list_with
                      (fun entity =>
                         length (GtfsRt.stop_time_update
                                   (GtfsRt.trip_update entity)))
                      (List.flat_map (relevant_entity a) l)) w,
         inr (rt ++ extra))
      /\ (length extra
          <= sum_list_with
               (fun entity =>
                  length (GtfsRt.stop_time_update (GtfsRt.trip_update entity)))
               (List.flat_map (relevant_entity a) l))%nat.
Proof.
  induction l as [|entity l IH]; intros rt w.
  - exists []. simpl. rewrite tick_0, app_nil_r. split; [reflexivity | lia].
  - simpl List.flat_map. unfold relevant_entity at 1 3 5.
    destruct (filtered_out _ _) eqn:Hf; [apply IH|].
    simpl app. simpl for_each. simpl sum_list_with.
    unfold bind, entity_body at 1.
    cbn [GtfsRt.trip_update GtfsRt.trip GtfsRt.stop_time_update].
    rewrite Hf.
    destruct (relevant_updates_run e a routes trips
                (GtfsRt.trip_id (GtfsRt.trip (GtfsRt.trip_update entity)))
                (GtfsRt.route_id (GtfsRt.trip (GtfsRt.trip_update entity)))
                (List.filter (relevant_update a)
                   (GtfsRt.stop_time_update (GtfsRt.trip_update entity))))
      with (rt := rt) (w := w) as (x1 & -> & H1).
    { apply Forall_forall. intros stu Hin. apply list_elem_of_In in Hin.
      now apply List.filter_In in Hin as [_ Hin]. }
    destruct (IH (rt ++ x1) (tick (3 * length
                (List.filter (relevant_update a)
                   (GtfsRt.stop_time_update (GtfsRt.trip_update entity)))) w))
      as (x2 & -> & H2).
    exists (x1 ++ x2). rewrite tick_tick, app_assoc, length_app.
    split; [|simpl; lia].
    f_equal. unfold tick. f_equal. simpl. lia.
Qed.

(** X10.  In a feed whose times [datetime] represents, only the updates at
    the queried stop that carry a time, on trips whose route passes the
    filter, matter: the run on the whole feed is the run on those updates
    alone, it reads the clock three times for each of them and not at all
    for any other update, and it collects at most one arrival for each. *)
Theorem only_relevant_updates_matter (e : env) (a : args)
    (routes trips : gmap string row) (feed : GtfsRt.FeedMessage) (w : world) :
  times_representable a feed = true ->
  exists rt_arrivals,
    collect_rt e a routes trips feed w
    = (tick (3 * relevant_count a feed) w, inr rt_arrivals)
    /\ collect_rt e a routes trips (relevant_feed a feed) w
       = collect_rt e a routes trips feed w
    /\ (length rt_arrivals <= relevant_count a feed)%nat.
Proof.
  intros _.
  unfold collect_rt, relevant_count, relevant_feed. simpl GtfsRt.entity.
  rewrite collect_relevant_gen.
  destruct (relevant_entities_run e a routes trips (GtfsRt.entity feed) [] w)
    as (extra & Hrun & Hlen).
  exists extra. split; [exact Hrun|]. split; [reflexivity | exact Hlen].
Qed.

Lemma only_relevant_updates_witness :
  exists rt_arrivals,
    collect_rt (Sample.city Sample.still Sample.example_feed) Sample.query
      Sample.routes Sample.trips Sample.example_feed world0
    = (tick (3 * relevant_count Sample.query Sample.example_feed) world0,
       inr rt_arrivals)
    /\ collect_rt (Sample.city Sample.still Sample.example_feed) Sample.query
         Sample.routes Sample.trips
         (relevant_feed Sample.query Sample.example_feed) world0
       = collect_rt (Sample.city Sample.still Sample.example_feed) Sample.query
           Sample.routes Sample.trips Sample.example_feed world0
    /\ (length rt_arrivals <= relevant_count Sample.query Sample.example_feed)%nat.
Proof.
  apply (only_relevant_updates_matter
           (Sample.city Sample.still Sample.example_feed) Sample.query
           Sample.routes Sample.trips Sample.example_feed world0).
  reflexivity.
Defined.

(** ** Further properties: the delay note *)

Lemma round_pos (x : Q) : 0 < Py.round x <-> (1 # 2 < x)%Q.
Proof.
  pose proof (Qfloor_le x) as Hlo.
  pose proof (Qlt_floor x) as Hhi.
  rewrite inject_Z_plus in Hhi. change (inject_Z 1) with 1%Q in Hhi.
  unfold Py.round.
  destruct (Z_lt_le_dec (Qfloor x) 0) as [Hneg|Hnn].
  - assert (Hx : (x < 0)%Q).
    { assert (Hz : (Qfloor x + 1 <= 0)%Z) by lia.
      rewrite Zle_Qle, inject_Z_plus in Hz. change (inject_Z 1) with 1%Q in Hz.
      change (inject_Z 0) with 0%Q in Hz. lra. }
    split; [|intros; exfalso; lra].
    destruct (Qcompare _ _); [destruct (Z.even _)|..]; lia.
  - destruct (Z.eq_dec (Qfloor x) 0) as [Hz|Hnz].
    + rewrite Hz in *. change (inject_Z 0) with 0%Q in *.
      destruct (Qcompare_spec (x - 0) (1 # 2)) as [He|Hl|Hg]; simpl;
        split; intros; try lia; try lra.
    + assert (Hone : (1 <= Qfloor x)%Z) by lia.
      rewrite Zle_Qle in Hone. change (inject_Z 1) with 1%Q in Hone.
      split; [intros; lra|intros _].
      destruct (Qcompare _ _); [destruct (Z.even _)|..]; lia.
Qed.

Lemma delay_minutes_exact (d : Z) :
  -2147483648 <= d <= 2147483647 ->
  delay_minutes d = Py.round (inject_Z d * (1 # 60)).
Proof.
  intros Hd. unfold delay_minutes.
  destruct (Z.eqb_spec d 0) as [->|_]; [reflexivity|].
  apply float_delay_round. lia.
Qed.

Lemma delay_minutes_pos (d : Z) :
  -2147483648 <= d <= 2147483647 -> 0 < delay_minutes d <-> 30 < d.
Proof.
  intros Hd. rewrite (delay_minutes_exact d Hd), round_pos.
  unfold Qlt. simpl. lia.
Qed.

Lemma delay_minutes_near (d : Z) :
  -2147483648 <= d <= 2147483647 -> -30 <= 60 * delay_minutes d - d <= 30.
Proof.
  intros Hd. rewrite (delay_minutes_exact d Hd).
  pose proof (round_nearest (inject_Z d * (1 # 60))) as H.
  apply Qabs_Qle_condition in H as [H1 H2].
  revert H1 H2. generalize (Py.round (inject_Z d * (1 # 60))). intros r.
  unfold Qle, Qminus, Qplus, Qopp, Qmult, inject_Z. simpl. lia.
Qed.

(** X11.  For a delay of the feed, an [int32]: the note "(+Nm late)" is
    printed for an arrival exactly when its delay exceeds 30 seconds, so
    never for a vehicle that is early or on time; the minutes it shows are
    the delay to within half a minute. *)
Theorem late_note_threshold (routes trips : gmap string row)
    (trip_id route_id : string) (arrival_time : Datetime.datetime)
    (delay : Z) (mins : Q) :
  -2147483648 <= delay <= 2147483647 ->
  let x := rt_entry routes trips trip_id route_id arrival_time delay mins in
  (delay <= 30 <-> delay_str x = "")
  /\ (30 < delay
      <-> delay_str x = " (+" +:+ Py.str (delay_mins x) +:+ "m late)")
  /\ -30 <= 60 * delay_mins x - delay <= 30.
Proof.
  intros Hd x. unfold delay_str. simpl delay_mins.
  pose proof (delay_minutes_pos delay Hd) as Hpos.
  destruct (Z.ltb_spec 0 (delay_minutes delay)) as [Hlt|Hge].
  - split; [|split; [|now apply delay_minutes_near]].
    + split; [intros; lia|]. unfold String.app. simpl. discriminate.
    + split; [reflexivity | intros; lia].
  - split; [|split; [|now apply delay_minutes_near]].
    + split; [reflexivity | intros; lia].
    + split; [intros; lia|]. unfold String.app. simpl. discriminate.
Qed.

Lemma late_note_witness :
  let x := rt_entry Sample.routes Sample.trips "t1" "1"
             (Datetime.fromtimestamp 1699977600 Datetime.CST) 95 0 in
  delay_str x = " (+2m late)".
Proof.
  intros x.
  destruct (late_note_threshold Sample.routes Sample.trips "t1" "1"
              (Datetime.fromtimestamp 1699977600 Datetime.CST) 95 0)
    as (_ & Hlate & _); [lia|].
  cbv zeta in Hlate. fold x in Hlate.
  rewrite (proj1 Hlate) by lia. vm_compute. reflexivity.
Defined.

(** ** Strings of digits *)

Lemma append_cons (c : Ascii.ascii) (s t : string) :
  String c s +:+ t = String c (s +:+ t).
Proof. reflexivity. Qed.

Lemma append_nil_r (s : string) : s +:+ "" = s.
Proof. induction s as [|c s IH]; [reflexivity|]. now rewrite append_cons, IH. Qed.

Lemma append_assoc (s1 s2 s3 : string) :
  (s1 +:+ s2) +:+ s3 = s1 +:+ s2 +:+ s3.
Proof.
  induction s1 as [|c s1 IH]; [reflexivity|]. now rewrite !append_cons, IH.
Qed.

Lemma rev_app_append (s1 s2 : string) :
  String.rev_app s1 s2 = String.rev_app s1 "" +:+ s2.
Proof.
  revert s2. induction s1 as [|c s1 IH]; intros s2; simpl; [reflexivity|].
  rewrite (IH (String c s2)), (IH (String c "")), append_assoc. reflexivity.
Qed.

Lemma rev_cons (c : Ascii.ascii) (s : string) :
  String.rev (String c s) = String.rev s +:+ String c "".
Proof. unfold String.rev. simpl. apply rev_app_append. Qed.

Lemma split_go_free_end (sep : Ascii.ascii) (s cur : string) :
  free_of sep s = true ->
  Py.split_go sep cur s = [String.rev cur +:+ s].
Proof.
  revert cur. induction s as [|c s IH]; intros cur Hfree; simpl.
  - now rewrite append_nil_r.
  - simpl in Hfree. apply andb_prop in Hfree as [Hc Hfree].
    apply negb_true_iff in Hc. rewrite Hc, (IH _ Hfree), rev_cons, append_assoc.
    reflexivity.
Qed.

Lemma split_go_free (sep : Ascii.ascii) (s cur rest : string) :
  free_of sep s = true ->
  Py.split_go sep cur (s +:+ String sep rest)
  = (String.rev cur +:+ s) :: Py.split_go sep "" rest.
Proof.
  revert cur. induction s as [|c s IH]; intros cur Hfree.
  - simpl. rewrite Ascii.eqb_refl. now rewrite append_nil_r.
  - simpl in Hfree. apply andb_prop in Hfree as [Hc Hfree].
    apply negb_true_iff in Hc. rewrite append_cons. simpl.
    rewrite Hc, (IH _ Hfree), rev_cons, append_assoc. reflexivity.
Qed.

(** A check made for every number below a bound. *)
Lemma below_checked (bound : nat) (f : Z -> bool) :
  forallb f (Z.of_nat <$> seq 0 bound) = true ->
  forall n, 0 <= n < Z.of_nat bound -> f n = true.
Proof.
  intros Hall n Hn. rewrite forallb_forall in Hall. apply Hall.
  apply list_elem_of_In, list_elem_of_fmap. exists (Z.to_nat n).
  split; [lia|]. apply list_elem_of_In, in_seq. lia.
Qed.

Lemma pad2_digits (n : Z) :
  0 <= n < 100 ->
  Datetime.pad2 n = String (digit_char (n / 10)) (String (digit_char (n mod 10)) "").
Proof.
  intros Hn. apply String.eqb_eq.
  apply (below_checked 100
           (fun n => String.eqb (Datetime.pad2 n)
                       (String (digit_char (n / 10))
                          (String (digit_char (n mod 10)) "")))).
  - vm_compute. reflexivity.
  - exact Hn.
Qed.

Lemma pad2_int (n : Z) : 0 <= n < 100 -> Py.int (Datetime.pad2 n) = Some n.
Proof.
  intros Hn.
  assert (H : (match Py.int (Datetime.pad2 n) with
               | Some m => m =? n | None => false end) = true).
  { apply (below_checked 100
             (fun n => match Py.int (Datetime.pad2 n) with
                       | Some m => m =? n | None => false end)).
    - vm_compute. reflexivity.
    - exact Hn. }
  destruct (Py.int _) as [m|]; [|discriminate].
  apply Z.eqb_eq in H. now subst.
Qed.

Lemma pad2_free (n : Z) : 0 <= n < 100 -> free_of ":" (Datetime.pad2 n) = true.
Proof.
  intros Hn.
  apply (below_checked 100 (fun n => free_of ":" (Datetime.pad2 n)));
    [vm_compute; reflexivity | exact Hn].
Qed.

Lemma digit_char_compare (i j : Z) :
  0 <= i < 10 -> 0 <= j < 10 ->
  Ascii.compare (digit_char i) (digit_char j) = (i ?= j).
Proof.
  intros Hi Hj.
  assert (H : forallb
                (fun j => comparison_eqb
                            (Ascii.compare (digit_char i) (digit_char j)) (i ?= j))
                (Z.of_nat <$> seq 0 10) = true).
  { apply (below_checked 10
             (fun i => forallb
                         (fun j => comparison_eqb
                                     (Ascii.compare (digit_char i) (digit_char j))
                                     (i ?= j))
                         (Z.of_nat <$> seq 0 10)));
      [vm_compute; reflexivity | exact Hi]. }
  apply (below_checked 10 _ H) in Hj.
  destruct (Ascii.compare _ _), (i ?= j); simpl in Hj; congruence.
Qed.

(** Two-digit fields compare as the numbers they show. *)
Lemma compare_pad2 (a b : Z) (s t : string) :
  0 <= a < 100 -> 0 <= b < 100 ->
  String.compare (Datetime.pad2 a +:+ s) (Datetime.pad2 b +:+ t)
  = match a ?= b with Eq => String.compare s t | c => c end.
Proof.
  intros Ha Hb. rewrite (pad2_digits a Ha), (pad2_digits b Hb), !append_cons.
  cbn [String.compare].
  rewrite !digit_char_compare
    by (try apply Z.mod_pos_bound; try (split; [apply Z.div_pos|apply Z.div_lt_upper_bound]); lia).
  pose proof (Z.div_mod a 10 ltac:(lia)) as Ea.
  pose proof (Z.div_mod b 10 ltac:(lia)) as Eb.
  pose proof (Z.mod_pos_bound a 10 ltac:(lia)) as Ma.
  pose proof (Z.mod_pos_bound b 10 ltac:(lia)) as Mb.
  destruct (Z.compare_spec (a / 10) (b / 10)) as [H1|H1|H1];
    destruct (Z.compare_spec (a mod 10) (b mod 10)) as [H2|H2|H2];
    destruct (Z.compare_spec a b) as [H3|H3|H3];
    try reflexivity; exfalso; lia.
Qed.

Lemma compare_colon (s t : string) :
  String.compare (":" +:+ s) (":" +:+ t) = String.compare s t.
Proof. reflexivity. Qed.

(** Zero-padded times of day compare as the seconds they denote. *)
Lemma compare_hms (h m s h' m' s' : Z) :
  0 <= h < 100 -> 0 <= m < 60 -> 0 <= s < 60 ->
  0 <= h' < 100 -> 0 <= m' < 60 -> 0 <= s' < 60 ->
  String.compare (hms h m s) (hms h' m' s')
  = (3600 * h + 60 * m + s ?= 3600 * h' + 60 * m' + s').
Proof.
  intros Hh Hm Hs Hh' Hm' Hs'. unfold hms.
  rewrite compare_pad2, compare_colon, compare_pad2, compare_colon by lia.
  rewrite <- (append_nil_r (Datetime.pad2 s)), <- (append_nil_r (Datetime.pad2 s')).
  rewrite compare_pad2 by lia. cbn [String.compare].
  destruct (Z.compare_spec h h') as [H1|H1|H1];
    destruct (Z.compare_spec m m') as [H2|H2|H2];
    destruct (Z.compare_spec s s') as [H3|H3|H3];
    destruct (Z.compare_spec (3600 * h + 60 * m + s) (3600 * h' + 60 * m' + s'))
      as [H4|H4|H4];
    try reflexivity; exfalso; lia.
Qed.

Lemma strftime_HMS_hms (d : Datetime.datetime) :
  Datetime.strftime_HMS d
  = hms (Datetime.second_of_day d / 3600)
      (Datetime.second_of_day d / 60 mod 60) (Datetime.second_of_day d mod 60).
Proof. reflexivity. Qed.

Lemma second_of_day_range (d : Datetime.datetime) :
  0 <= Datetime.second_of_day d < 86400.
Proof. unfold Datetime.second_of_day. apply Z.mod_pos_bound. lia. Qed.

(** ** Further properties: times of day in the fallback *)

(** X12.  Comparing the strings is comparing the times: a stop time of the
    zero-padded form HH:MM:SS, hours past 24 included, on a route that
    passes the filter, is kept by the fallback loop exactly when it lies
    later in the day than the local time of day of [now], second for
    second. *)
Theorem fallback_keeps_later_in_the_day
    (a : args) (routes trips : gmap string row) (now : Datetime.datetime)
    (st : row) (trip_id : string) (h m s : Z) (upcoming : list scheduled)
    (w : world) :
  st !! "trip_id" = Some trip_id ->
  st !! "arrival_time" = Some (hms h m s) ->
  0 <= h < 100 -> 0 <= m < 60 -> 0 <= s < 60 ->
  filtered_out (route a)
    (default "" (default ∅ (trips !! trip_id) !! "route_id")) = false ->
  scheduled_body a routes trips (Datetime.strftime_HMS now) st upcoming w
  = (w,
     inr (if Datetime.second_of_day now <? 3600 * h + 60 * m + s
          then upcoming
                 ++ [scheduled_entry routes (default ∅ (trips !! trip_id))
                       (default "" (default ∅ (trips !! trip_id) !! "route_id"))
                       (hms h m s)]
          else upcoming)).
Proof.
  intros Htrip Htime Hh Hm Hs Hroute.
  unfold scheduled_body, bind. rewrite (getitem_run _ _ _ _ Htrip).
  rewrite Hroute, Htime.
  change (default ?d (Some (hms h m s))) with (hms h m s).
  unfold Py.gt, String.ltb. rewrite strftime_HMS_hms.
  pose proof (second_of_day_range now) as Hsod.
  set (sod := Datetime.second_of_day now) in *.
  assert (Hsplit : 3600 * (sod / 3600) + 60 * (sod / 60 mod 60) + sod mod 60 = sod).
  { pose proof (Z.div_mod sod 60 ltac:(lia)) as E1.
    pose proof (Z.div_mod (sod / 60) 60 ltac:(lia)) as E2.
    pose proof (Z.div_div sod 60 60 ltac:(lia) ltac:(lia)) as E3.
    change (60 * 60) with 3600 in E3. rewrite <- E3. lia. }
  rewrite compare_hms; try assumption.
  - rewrite Hsplit. unfold ret.
    destruct (Z.compare_spec sod (3600 * h + 60 * m + s));
      destruct (Z.ltb_spec sod (3600 * h + 60 * m + s));
      try reflexivity; exfalso; lia.
  - split; [apply Z.div_pos; lia | apply Z.div_lt_upper_bound; lia].
  - apply Z.mod_pos_bound. lia.
  - apply Z.mod_pos_bound. lia.
Qed.

Lemma fallback_keeps_later_witness :
  let now := {| Datetime.instant_us := Sample.ten_oclock;
                Datetime.utcoffset := Datetime.CST |} in
  scheduled_body Sample.query Sample.routes Sample.trips
    (Datetime.strftime_HMS now) (Sample.stop_time "t1" "25:10:00") [] world0
  = (world0,
     inr [ {| sc_route := "1"; sc_headsign := "North"; sc_time := "25:10:00" |} ]).
Proof.
  intros now.
  rewrite (fallback_keeps_later_in_the_day Sample.query Sample.routes
             Sample.trips now (Sample.stop_time "t1" "25:10:00") "t1" 25 10 0
             [] world0);
    try reflexivity; lia.
Defined.

(** X13.  A scheduled time HH:MM:SS is printed on the 12-hour clock from its
    hour and minute fields: hour 0 as 12 AM, 1 to 11 as AM, 12 as 12 PM, and
    every later hour, those past 24 included, as the hour less 12 with PM;
    the seconds are dropped.  A time that does not have exactly three fields
    is printed as it stands. *)
Theorem scheduled_time_on_12_hour_clock (h : Z) (mm ss : string) (t : string) :
  0 <= h < 100 -> free_of ":" mm = true -> free_of ":" ss = true ->
  time_str (Datetime.pad2 h +:+ ":" +:+ mm +:+ ":" +:+ ss)
  = Py.str (if 12 <? h then h - 12 else if h =? 0 then 12 else h)
      +:+ ":" +:+ mm +:+ " " +:+ (if h <? 12 then "AM" else "PM")
  /\ (length (Py.split ":" t) <> 3%nat -> time_str t = t).
Proof.
  intros Hh Hmm Hss. split.
  - unfold time_str, Py.split.
    change (Datetime.pad2 h +:+ ":" +:+ mm +:+ ":" +:+ ss)
      with (Datetime.pad2 h +:+ String ":" (mm +:+ String ":" ss)).
    rewrite (split_go_free ":" (Datetime.pad2 h) "") by now apply pad2_free.
    rewrite (split_go_free ":" mm "" ss Hmm).
    rewrite (split_go_free_end ":" ss "" Hss).
    change (String.rev "" +:+ ?x) with x.
    rewrite (pad2_int h Hh). reflexivity.
  - intros Hlen. unfold time_str.
    destruct (Py.split ":" t) as [|f1 [|f2 [|f3 [|f4 l]]]]; try reflexivity.
    simpl in Hlen. congruence.
Qed.

Lemma scheduled_time_witness :
  time_str "00:05:00" = "12:05 AM" /\ time_str "12:30:00" = "12:30 PM"
  /\ time_str "25:10:00" = "13:10 PM".
Proof.
  split; [|split].
  - apply (scheduled_time_on_12_hour_clock 0 "05" "00" ""); [lia|reflexivity..].
  - apply (scheduled_time_on_12_hour_clock 12 "30" "00" ""); [lia|reflexivity..].
  - apply (scheduled_time_on_12_hour_clock 25 "10" "00" ""); [lia|reflexivity..].
Defined.

(** ** Ordered dictionaries *)

Lemma dict_get_set (k k' : string) (v : row) (d : list (string * row)) :
  dict_get (dict_set k v d) k'
  = if String.eqb k k' then Some v else dict_get d k'.
Proof.
  induction d as [|[k0 v0] d IH]; simpl.
  - reflexivity.
  - destruct (String.eqb_spec k0 k) as [->|Hne]; simpl.
    + destruct (String.eqb k k'); reflexivity.
    + rewrite IH. destruct (String.eqb_spec k0 k') as [->|Hne'];
        [|reflexivity].
      destruct (String.eqb_spec k k'); [congruence | reflexivity].
Qed.

Lemma dict_set_keys (k : string) (v : row) (d : list (string * row)) :
  fst <$> dict_set k v d
  = if bool_decide (k ∈ fst <$> d) then fst <$> d else (fst <$> d) ++ [k].
Proof.
  induction d as [|[k0 v0] d IH]; [reflexivity|]. cbn [dict_set].
  destruct (String.eqb_spec k0 k) as [->|Hne]; rewrite !fmap_cons; cbn [fst].
  - rewrite bool_decide_eq_true_2 by apply list_elem_of_here. reflexivity.
  - rewrite IH. destruct (bool_decide (k ∈ fst <$> d)) eqn:Hin.
    + apply bool_decide_eq_true_1 in Hin.
      rewrite bool_decide_eq_true_2 by now apply list_elem_of_further.
      reflexivity.
    + apply bool_decide_eq_false_1 in Hin.
      rewrite bool_decide_eq_false_2; [reflexivity|].
      intros [?|?]%elem_of_cons; congruence.
Qed.

Lemma dict_set_NoDup (k : string) (v : row) (d : list (string * row)) :
  NoDup (fst <$> d) -> NoDup (fst <$> dict_set k v d).
Proof.
  intros Hd. rewrite dict_set_keys.
  destruct (bool_decide (k ∈ fst <$> d)) eqn:Hin; [exact Hd|].
  apply bool_decide_eq_false_1 in Hin.
  apply NoDup_app. split; [exact Hd|]. split.
  - intros x Hx Hk. apply list_elem_of_singleton in Hk. now subst.
  - apply NoDup_singleton.
Qed.

Lemma dict_get_Some_key (d : list (string * row)) (k : string) :
  is_Some (dict_get d k) <-> k ∈ fst <$> d.
Proof.
  induction d as [|[k0 v0] d IH]; [|rewrite fmap_cons; cbn [fst dict_get]].
  - split; [intros [? ?]; discriminate | intros H; inversion H].
  - destruct (String.eqb_spec k0 k) as [->|Hne].
    + split; [intros _; apply list_elem_of_here | eauto].
    + rewrite IH. split; [apply list_elem_of_further|].
      intros [?|?]%elem_of_cons; [congruence | assumption].
Qed.

Lemma items_by_run (key : string) (rows : list row) (d0 : list (string * row))
    (w : world) :
  for_each rows (fun r d => k <- getitem r key ;; ret (dict_set k r d)) d0 w
  = (w, if forallb (has_column key) rows
        then inr (foldl (fun d r => dict_set (default "" (r !! key)) r d) d0 rows)
        else inl (KeyError key)).
Proof.
  revert d0. induction rows as [|r rows IH]; intros d0; simpl; [reflexivity|].
  unfold bind at 1, getitem.
  destruct (has_column key r) eqn:Hr; unfold has_column in Hr.
  - apply bool_decide_eq_true_1 in Hr as [k Hk]. rewrite Hk. simpl. apply IH.
  - apply bool_decide_eq_false_1 in Hr.
    destruct (r !! key) as [k|] eqn:Hk; [destruct Hr; eauto|]. reflexivity.
Qed.

Lemma foldl_dict_set_get (key k : string) (rows : list row)
    (d0 : list (string * row)) :
  forallb (has_column key) rows = true ->
  dict_get (foldl (fun d r => dict_set (default "" (r !! key)) r d) d0 rows) k
  = match last_with key k rows with Some r => Some r | None => dict_get d0 k end.
Proof.
  revert d0. induction rows as [|r rows IH]; intros d0 Hall; simpl; [reflexivity|].
  simpl in Hall. apply andb_prop in Hall as [Hr Hall].
  rewrite IH by exact Hall. unfold last_with.
  apply bool_decide_eq_true_1 in Hr as [k' Hk'].
  rewrite Hk'. simpl. rewrite dict_get_set.
  destruct (String.eqb_spec k' k) as [->|Hne].
  - rewrite (filter_cons_True (fun r0 : row => r0 !! key = Some k) r rows Hk').
    destruct (filter _ rows) as [|r' l] eqn:Hf; [reflexivity|].
    rewrite last_cons_cons.
    destruct (last (r' :: l)) eqn:Hl; [reflexivity|].
    rewrite last_cons in Hl. destruct (last l); discriminate.
  - rewrite filter_cons_False by (simpl; rewrite Hk'; congruence).
    reflexivity.
Qed.

Lemma foldl_dict_set_NoDup (key : string) (rows : list row)
    (d0 : list (string * row)) :
  NoDup (fst <$> d0) ->
  NoDup (fst <$> foldl (fun d r => dict_set (default "" (r !! key)) r d) d0 rows).
Proof.
  revert d0. induction rows as [|r rows IH]; intros d0 Hd; simpl; [exact Hd|].
  apply IH. now apply dict_set_NoDup.
Qed.

(** The ordered dictionary of a table: its keys are distinct and a lookup
    gives the last row with the identifier, as in the unordered table. *)
Lemma items_by_spec (key : string) (rows : list row) (w w' : world)
    (d : list (string * row)) :
  items_by key rows w = (w', inr d) ->
  w' = w /\ NoDup (fst <$> d) /\ forall k, dict_get d k = last_with key k rows.
Proof.
  unfold items_by. rewrite items_by_run.
  destruct (forallb (has_column key) rows) eqn:Hall; [|discriminate].
  intros H. injection H as <- <-. split; [reflexivity|]. split.
  - apply foldl_dict_set_NoDup. constructor.
  - intros k. rewrite foldl_dict_set_get by exact Hall. simpl.
    now destruct (last_with key k rows).
Qed.

(** ** Further properties: the [routes] command *)

Lemma for_each_say_on {A} (l : list A) (body : A -> unit -> M unit)
    (evs : A -> list event) :
  Forall (fun x => forall w, body x tt w = (say (evs x) w, inr tt)) l ->
  forall w, for_each l body tt w = (say (List.flat_map evs l) w, inr tt).
Proof.
  induction 1 as [|x l Hx _ IH]; intros w; simpl.
  - now rewrite say_nil.
  - unfold bind. now rewrite Hx, IH, say_say.
Qed.

(** X14.  With the cache present and a [route_id] in every row of
    [routes.txt], the [routes] command prints a heading with the number of
    distinct route ids and then exactly one line for each of them, built from
    the last row that carries the id; the lookup of a listed id never
    fails. *)
Theorem routes_listing (e : env) (w : world) :
  is_Some (gtfs_files e !! "stops.txt") ->
  forallb (has_column "route_id") (_load_csv e "routes.txt") = true ->
  exists routes,
    _load_routes_items e w = (w, inr routes)
    /\ NoDup (fst <$> routes)
    /\ (forall k, dict_get routes k
                  = last_with "route_id" k (_load_csv e "routes.txt"))
    /\ Permutation (sorted_route_ids routes) (fst <$> routes)
    /\ cmd_routes e w
       = (say (Print (String "010" ("=== CapMetro Routes ("
                        +:+ Py.str (Z.of_nat (length (sorted_route_ids routes)))
                        +:+ ") ===" +:+ String "010" ""))
                 :: List.flat_map
                      (fun rid =>
                         [Print (route_line rid
                                   (default ∅
                                      (last_with "route_id" rid
                                         (_load_csv e "routes.txt"))))])
                      (sorted_route_ids routes)) w,
          inr tt).
Proof.
  intros [rows Hrows] Hall.
  destruct (items_by "route_id" (_load_csv e "routes.txt") w)
    as [w1 [ex|routes]] eqn:Hload.
  { unfold items_by in Hload. rewrite items_by_run, Hall in Hload. discriminate. }
  destruct (items_by_spec _ _ _ _ _ Hload) as (-> & Hnd & Hget).
  assert (Hperm : Permutation (sorted_route_ids routes) (fst <$> routes))
    by apply sort_perm.
  exists routes. split; [exact Hload|]. split; [exact Hnd|].
  split; [exact Hget|]. split; [exact Hperm|].
  unfold cmd_routes, _ensure_gtfs. rewrite Hrows.
  unfold bind at 1, ret at 1. cbv beta iota.
  change (negb true) with false. cbv beta iota.
  unfold bind at 1, _load_routes_items. rewrite Hload.
  unfold bind at 1. rewrite print_run.
  rewrite (for_each_say_on _ _
             (fun rid =>
                [Print (route_line rid
                          (default ∅
                             (last_with "route_id" rid
                                (_load_csv e "routes.txt"))))])).
  - rewrite say_say. simpl app.
    assert (Hlen : length (sorted_route_ids routes) = length routes).
    { rewrite (Permutation_length Hperm). apply length_fmap. }
    rewrite Hlen. reflexivity.
  - apply Forall_forall. intros rid Hin w0.
    assert (Hkey : rid ∈ fst <$> routes) by now rewrite <- Hperm.
    apply dict_get_Some_key in Hkey as [r Hr].
    rewrite Hr. rewrite <- Hget, Hr. apply print_run.
Qed.

Lemma routes_listing_witness :
  cmd_routes (Sample.city Sample.still Sample.example_feed) world0
  = (say [ Print (String "010" ("=== CapMetro Routes (2) ==="
                                 +:+ String "010" ""));
           Print "       1 | Bus   | Metric";
           Print "       3 | Bus   | Burnet" ] world0,
     inr tt).
Proof.
  destruct (routes_listing (Sample.city Sample.still Sample.example_feed) world0)
    as (routes & Hload & _ & _ & _ & Hrun).
  - exists Sample.stops_txt. reflexivity.
  - reflexivity.
  - rewrite Hrun. vm_compute in Hload. injection Hload as <-.
    vm_compute. reflexivity.
Defined.

(** ** Numerals *)

Lemma pretty_N_char_digit (x : N) :
  (x < 10)%N -> pretty_N_char x = digit_char (Z.of_N x).
Proof.
  intros Hx.
  assert (H : Ascii.eqb (pretty_N_char (Z.to_N (Z.of_N x)))
                (digit_char (Z.of_N x)) = true).
  { apply (below_checked 10
             (fun n => Ascii.eqb (pretty_N_char (Z.to_N n)) (digit_char n)));
      [vm_compute; reflexivity | lia]. }
  rewrite N2Z.id in H. now apply Ascii.eqb_eq.
Qed.

Lemma fill_snoc (c : Ascii.ascii) (n : nat) :
  PyText.fill c n +:+ String c "" = String c (PyText.fill c n).
Proof.
  induction n as [|n IH]; [reflexivity|]. simpl PyText.fill.
  now rewrite append_cons, IH.
Qed.

Lemma fixed_0 (k : nat) : fixed k 0 = PyText.fill "0" k.
Proof.
  induction k as [|k IH]; [reflexivity|].
  simpl fixed. change (0 / 10) with 0. rewrite IH.
  change (digit_char (0 mod 10)) with "0"%char. apply fill_snoc.
Qed.

Lemma pretty_go_fixed (k : nat) :
  forall (x : N) (s : string),
    (0 < x)%N -> Z.of_N x < 10 ^ Z.of_nat k ->
    exists j,
      (1 <= j <= k)%nat
      /\ pretty_N_go x s = fixed j (Z.of_N x) +:+ s
      /\ fixed k (Z.of_N x) = PyText.fill "0" (k - j) +:+ fixed j (Z.of_N x).
Proof.
  induction k as [|k IH]; intros x s Hpos Hlt.
  { simpl in Hlt. lia. }
  rewrite pretty_N_go_step by exact Hpos.
  rewrite pretty_N_char_digit by (apply N.mod_lt; lia).
  rewrite N2Z.inj_mod. change (Z.of_N 10) with 10.
  assert (Hdiv : Z.of_N (x / 10)%N = Z.of_N x / 10) by apply N2Z.inj_div.
  destruct (N.eq_dec (x / 10)%N 0%N) as [Hz|Hnz].
  - exists 1%nat. rewrite Hz, pretty_N_go_0.
    assert (Hz' : Z.of_N x / 10 = 0) by (rewrite <- Hdiv, Hz; reflexivity).
    split; [lia|]. split.
    + simpl fixed. reflexivity.
    + simpl fixed. rewrite Hz', fixed_0.
      replace (S k - 1)%nat with k by lia. reflexivity.
  - destruct (IH (x / 10)%N (String (digit_char (Z.of_N x mod 10)) s))
      as (j & Hj & Hgo & Hfix).
    + now apply N.neq_0_lt_0.
    + rewrite Hdiv. apply Z.div_lt_upper_bound; [lia|].
      rewrite Nat2Z.inj_succ, Z.pow_succ_r in Hlt by lia. exact Hlt.
    + exists (S j). split; [lia|]. rewrite Hgo, Hdiv. split.
      * simpl fixed. rewrite append_assoc. reflexivity.
      * simpl fixed. rewrite Hdiv in Hfix. rewrite Hfix, append_assoc.
        reflexivity.
Qed.

Lemma len_app (s t : string) : PyText.len (s +:+ t) = (PyText.len s + PyText.len t)%nat.
Proof.
  induction s as [|c s IH]; [reflexivity|].
  rewrite append_cons. simpl. rewrite IH.
  now destruct ((128 <=? N_of_ascii c) && (N_of_ascii c <? 192))%N.
Qed.

Lemma all_digits_app (s t : string) :
  all_digits (s +:+ t) = all_digits s && all_digits t.
Proof.
  induction s as [|c s IH]; [reflexivity|].
  rewrite append_cons. simpl. rewrite IH. now rewrite andb_assoc.
Qed.

Lemma digit_char_code (n : Z) :
  N_of_ascii (digit_char (n mod 10)) = (48 + Z.to_N (n mod 10))%N.
Proof.
  unfold digit_char. apply N_ascii_embedding.
  pose proof (Z.mod_pos_bound n 10 ltac:(lia)). lia.
Qed.

Lemma fixed_len (k : nat) (n : Z) : PyText.len (fixed k n) = k.
Proof.
  revert n. induction k as [|k IH]; intros n; [reflexivity|].
  simpl fixed. rewrite len_app, IH. cbn [PyText.len].
  rewrite digit_char_code.
  pose proof (Z.mod_pos_bound n 10 ltac:(lia)).
  destruct (N.leb_spec 128 (48 + Z.to_N (n mod 10))); [lia|]. simpl. lia.
Qed.

Lemma fixed_all_digits (k : nat) (n : Z) : all_digits (fixed k n) = true.
Proof.
  revert n. induction k as [|k IH]; intros n; [reflexivity|].
  simpl fixed. rewrite all_digits_app, IH. cbn [all_digits].
  rewrite digit_char_code.
  pose proof (Z.mod_pos_bound n 10 ltac:(lia)).
  destruct (N.leb_spec 48 (48 + Z.to_N (n mod 10))); [|lia].
  destruct (N.leb_spec (48 + Z.to_N (n mod 10)) 57); [reflexivity | lia].
Qed.

Lemma zfill_digits (width : nat) (s : string) :
  all_digits s = true ->
  PyText.zfill width s = PyText.fill "0" (width - PyText.len s) +:+ s.
Proof.
  intros Hs. unfold PyText.zfill.
  destruct (Nat.leb_spec width (PyText.len s)) as [Hle|Hlt].
  - replace (width - PyText.len s)%nat with 0%nat by lia. reflexivity.
  - destruct s as [|c rest]; [now rewrite append_nil_r|].
    simpl in Hs. apply andb_prop in Hs as [Hc _]. apply andb_prop in Hc as [H1 H2].
    apply N.leb_le in H1, H2.
    assert (Hplus : Ascii.eqb c "+" = false).
    { apply Ascii.eqb_neq. intros ->. vm_compute in H1. now apply H1. }
    assert (Hminus : Ascii.eqb c "-" = false).
    { apply Ascii.eqb_neq. intros ->. vm_compute in H1. now apply H1. }
    now rewrite Hplus, Hminus.
Qed.

(** A route id that is the numeral of a number below 100000 sorts by the
    five-digit form of that number. *)
Lemma zfill_numeral (n : Z) :
  0 <= n < 100000 -> PyText.zfill 5 (Py.str n) = fixed 5 n.
Proof.
  intros Hn. destruct n as [|p|p]; [reflexivity| |lia].
  unfold Py.str, pretty, pretty_Z, pretty, pretty_positive, pretty, pretty_N.
  rewrite decide_False by discriminate.
  destruct (pretty_go_fixed 5 (Npos p) "") as (j & Hj & Hgo & Hfix); [lia|exact (proj2 Hn)|].
  rewrite Hgo, append_nil_r. change (Z.of_N (N.pos p)) with (Z.pos p) in *.
  rewrite zfill_digits by apply fixed_all_digits.
  now rewrite fixed_len, Hfix.
Qed.

Lemma compare_fixed (k : nat) :
  forall (a b : Z) (s t : string),
    0 <= a < 10 ^ Z.of_nat k -> 0 <= b < 10 ^ Z.of_nat k ->
    String.compare (fixed k a +:+ s) (fixed k b +:+ t)
    = match a ?= b with Eq => String.compare s t | c => c end.
Proof.
  induction k as [|k IH]; intros a b s t Ha Hb.
  - simpl in Ha, Hb. assert (a = 0) by lia. assert (b = 0) by lia. subst.
    reflexivity.
  - rewrite Nat2Z.inj_succ, Z.pow_succ_r in Ha, Hb by lia.
    simpl fixed. rewrite !append_assoc, !append_cons.
    change ("" +:+ s) with s. change ("" +:+ t) with t.
    rewrite IH
      by (split; [apply Z.div_pos|apply Z.div_lt_upper_bound]; lia).
    cbn [String.compare].
    rewrite digit_char_compare by (apply Z.mod_pos_bound; lia).
    pose proof (Z.div_mod a 10 ltac:(lia)) as Ea.
    pose proof (Z.div_mod b 10 ltac:(lia)) as Eb.
    pose proof (Z.mod_pos_bound a 10 ltac:(lia)) as Ma.
    pose proof (Z.mod_pos_bound b 10 ltac:(lia)) as Mb.
    destruct (Z.compare_spec (a / 10) (b / 10)) as [H1|H1|H1];
      destruct (Z.compare_spec (a mod 10) (b mod 10)) as [H2|H2|H2];
      destruct (Z.compare_spec a b) as [H3|H3|H3];
      try reflexivity; exfalso; lia.
Qed.

Lemma zfill_numeral_leb (a b : Z) :
  0 <= a < 100000 -> 0 <= b < 100000 ->
  String.leb (PyText.zfill 5 (Py.str a)) (PyText.zfill 5 (Py.str b)) = (a <=? b).
Proof.
  intros Ha Hb. rewrite !zfill_numeral by assumption.
  unfold String.leb.
  rewrite <- (append_nil_r (fixed 5 a)), <- (append_nil_r (fixed 5 b)).
  rewrite (compare_fixed 5) by (simpl; lia). simpl String.compare.
  destruct (Z.compare_spec a b); destruct (Z.leb_spec a b);
    try reflexivity; exfalso; lia.
Qed.

Lemma insert_fmap {A B} (le : B -> B -> bool) (le' : A -> A -> bool)
    (f : A -> B) (P : A -> Prop) (x : A) (l : list A) :
  (forall x y, P x -> P y -> le (f x) (f y) = le' x y) ->
  P x -> Forall P l ->
  Py.insert le (f x) (f <$> l) = f <$> Py.insert le' x l.
Proof.
  intros Hle Hx. induction 1 as [|y l Hy _ IH]; [reflexivity|].
  rewrite fmap_cons. cbn [Py.insert]. rewrite (Hle x y Hx Hy).
  destruct (le' x y); [reflexivity|]. rewrite fmap_cons. now rewrite IH.
Qed.

Lemma sort_fmap {A B} (le : B -> B -> bool) (le' : A -> A -> bool)
    (f : A -> B) (P : A -> Prop) (l : list A) :
  (forall x y, P x -> P y -> le (f x) (f y) = le' x y) ->
  Forall P l ->
  Py.sort le (f <$> l) = f <$> Py.sort le' l.
Proof.
  intros Hle. induction 1 as [|x l Hx Hl IH]; [reflexivity|].
  rewrite fmap_cons. cbn [Py.sort]. rewrite IH.
  apply (insert_fmap le le' f P); [exact Hle | exact Hx|].
  now apply sort_Forall.
Qed.

(** X15.  Route ids that are the numerals of numbers below 100000 are listed
    in increasing numeric order (2 before 10 before 801), ids of the same
    number in the order of the table. *)
Theorem routes_in_numeric_order (routes : list (string * row)) (ns : list Z) :
  fst <$> routes = Py.str <$> ns ->
  Forall (fun n => 0 <= n < 100000) ns ->
  sorted_route_ids routes = Py.str <$> Py.sort_int (fun n => n) ns
  /\ StronglySorted Z.le (Py.sort_int (fun n => n) ns)
  /\ Permutation (Py.sort_int (fun n => n) ns) ns.
Proof.
  intros Hkeys Hns. split; [|split].
  - unfold sorted_route_ids, Py.sort_str, Py.sort_int. rewrite Hkeys.
    apply (sort_fmap _ _ Py.str (fun n => 0 <= n < 100000)); [|exact Hns].
    intros x y Hx Hy. now apply zfill_numeral_leb.
  - apply (sort_int_sorted (fun n : Z => n)).
  - apply sort_perm.
Qed.

Lemma routes_in_numeric_order_witness :
  sorted_route_ids [("10", ∅); ("801", ∅); ("2", ∅); ("1", ∅)]
  = ["1"; "2"; "10"; "801"].
Proof.
  destruct (routes_in_numeric_order
              [("10", ∅); ("801", ∅); ("2", ∅); ("1", ∅)] [10; 801; 2; 1])
    as (Hsorted & _).
  - reflexivity.
  - repeat constructor; lia.
  - rewrite Hsorted. reflexivity.
Defined.

(** ** Further properties: the [route-info] command *)

Lemma dict_get_elem (d : list (string * row)) (k : string) (v : row) :
  NoDup (fst <$> d) -> (k, v) ∈ d -> dict_get d k = Some v.
Proof.
  induction d as [|[k0 v0] d IH]; intros Hnd Hin.
  - inversion Hin.
  - rewrite fmap_cons in Hnd. cbn [fst] in Hnd.
    apply NoDup_cons in Hnd as [Hk0 Hnd]. cbn [dict_get].
    apply elem_of_cons in Hin as [Heq|Hin].
    + injection Heq as -> ->. now rewrite String.eqb_refl.
    + destruct (String.eqb_spec k0 k) as [->|Hne]; [|now apply IH].
      destruct Hk0. apply list_elem_of_fmap. exists (k, v). now split.
Qed.

Lemma dict_get_None (d : list (string * row)) (k : string) :
  dict_get d k = None -> forall rid r, (rid, r) ∈ d -> rid <> k.
Proof.
  intros Hnone rid r Hin ->.
  assert (Hk : k ∈ fst <$> d).
  { apply list_elem_of_fmap. exists (k, r). now split. }
  apply dict_get_Some_key in Hk as [v Hv]. congruence.
Qed.

Lemma first_with_short_name_spec (routes : list (string * row)) (name : string) :
  match first_with_short_name routes name with
  | Some rid =>
      exists pre r post,
        routes = pre ++ (rid, r) :: post
        /\ r !! "route_short_name" = Some name
        /\ Forall (fun kv : string * row =>
                     snd kv !! "route_short_name" <> Some name) pre
  | None =>
      Forall (fun kv : string * row =>
                snd kv !! "route_short_name" <> Some name) routes
  end.
Proof.
  induction routes as [|[rid r] routes IH]; cbn [first_with_short_name].
  - constructor.
  - destruct (bool_decide (r !! "route_short_name" = Some name)) eqn:Hr.
    + apply bool_decide_eq_true_1 in Hr.
      exists [], r, routes. repeat split; [exact Hr | constructor].
    + apply bool_decide_eq_false_1 in Hr.
      destruct (first_with_short_name routes name) as [rid'|].
      * destruct IH as (pre & r' & post & -> & Hname & Hpre).
        exists ((rid, r) :: pre), r', post. repeat split; [exact Hname|].
        now constructor.
      * now constructor.
Qed.

(** A route the argument resolves to is in the dictionary, under the
    argument as its id or as its short name. *)
Lemma resolve_route_found (routes : list (string * row)) (arg rid : string) :
  NoDup (fst <$> routes) ->
  resolve_route routes arg = Some rid ->
  exists r,
    dict_get routes rid = Some r
    /\ (rid = arg \/ r !! "route_short_name" = Some arg).
Proof.
  intros Hnd. unfold resolve_route.
  destruct (dict_get routes arg) as [r|] eqn:Hget.
  - intros H. injection H as <-. eauto.
  - pose proof (first_with_short_name_spec routes arg) as Hspec.
    destruct (first_with_short_name routes arg) as [rid'|]; [|discriminate].
    intros H. injection H as ->.
    destruct Hspec as (pre & r & post & Heq & Hname & _).
    exists r. split; [|now right].
    apply dict_get_elem; [exact Hnd|]. rewrite Heq.
    apply elem_of_app. right. apply list_elem_of_here.
Qed.

(** X16.  The route argument of [route-info] stands for the route with that
    id when there is one, and otherwise for the first route, in the order of
    the table, whose short name is the argument; the route it stands for is
    always in the dictionary, so the lookup that follows cannot fail.  It is
    reported as not found exactly when no route has it as id or as short
    name. *)
Theorem route_argument_resolution (routes : list (string * row)) (arg : string) :
  NoDup (fst <$> routes) ->
  match resolve_route routes arg with
  | Some rid =>
      exists r,
        dict_get routes rid = Some r
        /\ (rid = arg
            \/ (dict_get routes arg = None
                /\ r !! "route_short_name" = Some arg
                /\ exists pre post,
                     routes = pre ++ (rid, r) :: post
                     /\ Forall (fun kv : string * row =>
                                  snd kv !! "route_short_name" <> Some arg)
                          pre))
  | None =>
      forall rid r,
        (rid, r) ∈ routes -> rid <> arg /\ r !! "route_short_name" <> Some arg
  end.
Proof.
  intros Hnd. unfold resolve_route.
  destruct (dict_get routes arg) as [r|] eqn:Hget.
  - exists r. split; [exact Hget | now left].
  - pose proof (first_with_short_name_spec routes arg) as Hspec.
    destruct (first_with_short_name routes arg) as [rid|].
    + destruct Hspec as (pre & r & post & Heq & Hname & Hpre).
      exists r. split.
      * apply dict_get_elem; [exact Hnd|]. rewrite Heq.
        apply elem_of_app. right. apply list_elem_of_here.
      * right. split; [reflexivity|]. split; [exact Hname|]. eauto.
    + intros rid r Hin. split.
      * now apply (dict_get_None routes arg Hget rid r).
      * rewrite Forall_forall in Hspec. apply (Hspec (rid, r) Hin).
Qed.

Lemma route_argument_resolution_witness :
  resolve_route RouteSample.routes "Rapid" = Some "801"
  /\ is_Some (dict_get RouteSample.routes "801").
Proof.
  assert (Hnd : NoDup (fst <$> RouteSample.routes)).
  { apply (bool_decide_unpack _). vm_compute. reflexivity. }
  pose proof (route_argument_resolution RouteSample.routes "Rapid" Hnd) as H.
  assert (Hres : resolve_route RouteSample.routes "Rapid" = Some "801")
    by (vm_compute; reflexivity).
  rewrite Hres in H. destruct H as (r & Hr & _).
  split; [exact Hres | exists r; exact Hr].
Defined.

(** X17.  The trip whose stops are shown is a trip of the route, and one of
    direction 0 whenever the route has such a trip; there is none exactly
    when the route has no trip at all. *)
Theorem sample_trip_choice (trips : list (string * row)) (route_id : string) :
  match sample_trip trips route_id with
  | Some t =>
      t ∈ snd <$> trips
      /\ t !! "route_id" = Some route_id
      /\ ((exists t', t' ∈ snd <$> trips
                      /\ t' !! "route_id" = Some route_id
                      /\ t' !! "direction_id" = Some "0")
          -> t !! "direction_id" = Some "0")
  | None =>
      forall t, t ∈ snd <$> trips -> t !! "route_id" <> Some route_id
  end.
Proof.
  unfold sample_trip.
  set (of_route := fun t : row => bool_decide (t !! "route_id" = Some route_id)).
  set (dir0 := fun t : row => bool_decide (t !! "direction_id" = Some "0")).
  assert (Hin : forall t, In t (List.filter of_route (snd <$> trips))
                          <-> t ∈ snd <$> trips /\ t !! "route_id" = Some route_id).
  { intros t. rewrite List.filter_In, <- list_elem_of_In. unfold of_route.
    now rewrite bool_decide_eq_true. }
  assert (Hin0 : forall t, In t (List.filter dir0 (List.filter of_route (snd <$> trips)))
                           <-> (t ∈ snd <$> trips /\ t !! "route_id" = Some route_id)
                               /\ t !! "direction_id" = Some "0").
  { intros t. rewrite List.filter_In, Hin. unfold dir0.
    now rewrite bool_decide_eq_true. }
  destruct (List.filter dir0 (List.filter of_route (snd <$> trips)))
    as [|t0 rest0] eqn:H0.
  - destruct (List.filter of_route (snd <$> trips)) as [|t rest] eqn:H1;
      cbn [head].
    + intros t Ht Hroute. apply (proj2 (Hin t)). now split.
    + destruct (proj1 (Hin t) (or_introl eq_refl)) as [Ht Hroute].
      split; [exact Ht|]. split; [exact Hroute|].
      intros (t' & Ht' & Hroute' & Hdir').
      destruct (proj2 (Hin0 t') (conj (conj Ht' Hroute') Hdir')).
  - destruct (proj1 (Hin0 t0) (or_introl eq_refl)) as [[Ht Hroute] Hdir].
    split; [exact Ht|]. split; [exact Hroute|]. intros _. exact Hdir.
Qed.

(** ** The stop times of a trip *)











(** ** Running [route-info] *)

Lemma ensure_gtfs_present (e : env) (w : world) :
  is_Some (gtfs_files e !! "stops.txt") -> _ensure_gtfs e w = (w, inr true).
Proof. intros [rows Hrows]. unfold _ensure_gtfs. now rewrite Hrows. Qed.

Lemma items_by_loads (key : string) (rows : list row) (w : world) :
  forallb (has_column key) rows = true ->
  exists d, items_by key rows w = (w, inr d).
Proof.
  intros Hall. unfold items_by. rewrite items_by_run, Hall. eauto.
Qed.

Lemma index_by_loads (key : string) (rows : list row) (w : world) :
  forallb (has_column key) rows = true ->
  exists d, index_by key rows w = (w, inr d).
Proof.
  intros Hall. unfold index_by. rewrite index_by_run, Hall. eauto.
Qed.

(** The command, once its tables are loaded. *)
Lemma cmd_route_info_loaded (e : env) (arg : string) (w : world)
    (routes trips : list (string * row)) (stops : gmap string row) :
  is_Some (gtfs_files e !! "stops.txt") ->
  _load_routes_items e w = (w, inr routes) ->
  _load_trips_items e w = (w, inr trips) ->
  _load_stops e w = (w, inr stops) ->
  cmd_route_info e arg w = report_route e routes trips stops arg w.
Proof.
  intros Hpresent Hroutes Htrips Hstops. unfold cmd_route_info.
  unfold bind at 1. rewrite (ensure_gtfs_present e w Hpresent).
  change (negb true) with false. cbv beta iota.
  unfold bind at 1. rewrite Hroutes.
  unfold bind at 1. rewrite Htrips.
  unfold bind at 1. rewrite Hstops. reflexivity.
Qed.

(** X19.  With the tables loaded, an argument that is neither the id nor
    the short name of a route of the table makes the command print that the
    route was not found, with the argument as it was given, and nothing
    else. *)
Theorem unknown_route_reported (e : env) (arg : string) (w : world) :
  is_Some (gtfs_files e !! "stops.txt") ->
  forallb (has_column "route_id") (_load_csv e "routes.txt") = true ->
  forallb (has_column "trip_id") (_load_csv e "trips.txt") = true ->
  forallb (has_column "stop_id") (_load_csv e "stops.txt") = true ->
  (forall k r,
     last_with "route_id" k (_load_csv e "routes.txt") = Some r ->
     k <> arg /\ r !! "route_short_name" <> Some arg) ->
  cmd_route_info e arg w
  = (say [Print ("Route '" +:+ arg +:+ "' not found.")] w, inr (Some tt)).
Proof.
  intros Hpresent Hr Ht Hs Hnone.
  destruct (items_by_loads "route_id" _ w Hr) as [routes Hroutes].
  destruct (items_by_loads "trip_id" _ w Ht) as [trips Htrips].
  destruct (index_by_loads "stop_id" _ w Hs) as [stops Hstops].
  rewrite (cmd_route_info_loaded e arg w routes trips stops
             Hpresent Hroutes Htrips Hstops).
  destruct (items_by_spec _ _ _ _ _ Hroutes) as (_ & Hnd & Hget).
  unfold report_route.
  destruct (resolve_route routes arg) as [rid|] eqn:Hres.
  - destruct (resolve_route_found routes arg rid Hnd Hres)
      as (r & Hlook & Hcase).
    rewrite Hget in Hlook.
    destruct (Hnone rid r Hlook) as [Hid Hname].
    destruct Hcase as [->|Hshort]; [now destruct Hid | now destruct Hname].
  - unfold bind. rewrite print_run. reflexivity.
Qed.

Lemma unknown_route_witness :
  cmd_route_info RouteSample.city "Blue" world0
  = (say [Print "Route 'Blue' not found."] world0, inr (Some tt)).
Proof.
  apply (unknown_route_reported RouteSample.city "Blue" world0).
  - exists RouteSample.stops_txt. reflexivity.
  - reflexivity.
  - reflexivity.
  - reflexivity.
  - intros k r Hlast. unfold last_with in Hlast.
    apply last_Some in Hlast as [l Hl].
    assert (Hin : r ∈ filter (fun r0 : row => r0 !! "route_id" = Some k)
                        (_load_csv RouteSample.city "routes.txt")).
    { rewrite Hl. apply elem_of_app. right. apply list_elem_of_here. }
    apply list_elem_of_filter in Hin as [Hk Hin].
    change (_load_csv RouteSample.city "routes.txt")
      with RouteSample.routes_txt in Hin.
    unfold RouteSample.routes_txt in Hin.
    repeat (apply elem_of_cons in Hin as [->|Hin]);
      [| | |inversion Hin];
      vm_compute in Hk; injection Hk as <-; split; discriminate.
Defined.

(** ** Commands that work from the cache alone *)

Lemma offline_ret {A} (a : A) : offline (ret a).
Proof. intros w. now split. Qed.

Lemma offline_raise {A} (ex : exn) : offline (@raise A ex).
Proof. intros w. now split. Qed.

Lemma offline_print (text : string) : offline (print text).
Proof.
  intros w. simpl. split; [reflexivity|].
  rewrite requests_app. simpl. apply app_nil_r.
Qed.

Lemma offline_bind {A B} (c : M A) (k : A -> M B) :
  offline c -> (forall a, offline (k a)) -> offline (bind c k).
Proof.
  intros Hc Hk w. unfold bind. destruct (Hc w) as [Hc1 Hc2].
  destruct (c w) as [w1 [ex|a]]; simpl in Hc1, Hc2.
  - now split.
  - destruct (Hk a w1) as [Hk1 Hk2]. split; congruence.
Qed.

Lemma offline_getitem {V} (d : gmap string V) (k : string) :
  offline (getitem d k).
Proof.
  unfold getitem. destruct (d !! k); [apply offline_ret | apply offline_raise].
Qed.

Lemma offline_for_each {A S} (l : list A) (body : A -> S -> M S) :
  (forall x s, offline (body x s)) -> forall s, offline (for_each l body s).
Proof.
  intros Hb. induction l as [|x l IH]; intros s; simpl.
  - apply offline_ret.
  - apply offline_bind; [apply Hb | apply IH].
Qed.

Ltac offline_step :=
  match goal with
  | |- offline (bind _ _) => apply offline_bind; [|intros ?]
  | |- offline (ret _) => apply offline_ret
  | |- offline (raise _) => apply offline_raise
  | |- offline (print _) => apply offline_print
  | |- offline (getitem _ _) => apply offline_getitem
  | |- offline (for_each _ _ _) => apply offline_for_each; intros ? ?
  | |- offline (if ?b then _ else _) => destruct b
  | |- offline (match ?x with _ => _ end) => destruct x
  end.

Lemma offline_ensure_gtfs (e : env) : offline (_ensure_gtfs e).
Proof. unfold _ensure_gtfs. repeat offline_step. Qed.

Lemma offline_items_by (key : string) (rows : list row) :
  offline (items_by key rows).
Proof. unfold items_by. repeat offline_step. Qed.

Lemma offline_index_by (key : string) (rows : list row) :
  offline (index_by key rows).
Proof. unfold index_by. repeat offline_step. Qed.

Lemma offline_report_route (e : env) (routes trips : list (string * row))
    (stops : gmap string row) (arg : string) :
  offline (report_route e routes trips stops arg).
Proof.
  unfold report_route, dict_getitem, print_route, _load_stop_times_for_trip,
    rows_of_trip, print_stops.
  repeat offline_step.
Qed.

(** X20.  The [routes] and [route-info] commands work from the cache alone:
    whatever the tables hold, and also when a run ends in an error, they
    make no request and never read the clock. *)
Theorem listings_work_offline (e : env) (arg : string) :
  offline (cmd_routes e) /\ offline (cmd_route_info e arg).
Proof.
  split.
  - unfold cmd_routes, _load_routes_items.
    apply offline_bind; [apply offline_ensure_gtfs | intros ok].
    destruct (negb ok); [apply offline_ret|].
    apply offline_bind; [apply offline_items_by | intros routes].
    repeat offline_step.
  - unfold cmd_route_info, _load_routes_items, _load_trips_items, _load_stops.
    apply offline_bind; [apply offline_ensure_gtfs | intros ok].
    destruct (negb ok); [apply offline_ret|].
    apply offline_bind; [apply offline_items_by | intros routes].
    apply offline_bind; [apply offline_items_by | intros trips].
    apply offline_bind; [apply offline_index_by | intros stops].
    apply offline_report_route.
Qed.

(** ** The stops of a route *)







